(** * LefCoin sentiment oracle: the aggregation-and-submission engine

    A shallow embedding of [src/oracle/sentiment_pipeline.py]: the
    [SourceResult] value, the isolation wrapper [_safe_fetch], the lexicon
    text scorer, the blender [SubindexAggregator._blend], the submitter
    [OracleSubmitter.submit_scores] and the driver
    [SentimentPipeline.run_once].

    Numbers.  Python [int] is [Z].  Python [float] is binary64, the
    primitive type [float]: the arithmetic of the analyzer and of the blender
    ([+], [-], [*], [/], [<]) is the IEEE 754 one, with nan and the
    infinities, and [int(x)] raises on them as the interpreter does.  Clock
    readings (in the GDELT rate gate) are rationals.

    Strings are [string], read one character per code point below 256
    (Latin-1): [lower] and the white space of [split] are those of [str] on
    these code points; texts with code points from 256 on are outside the
    model. *)

From Stdlib Require Import ZArith QArith Qround Lqa List String Ascii Permutation Lia.
From Stdlib Require Import Floats.
From stdpp Require Import gmap strings list sorting pretty.
Import ListNotations.

#[local] Set Warnings "-inexact-float".

Local Open Scope string_scope.
Local Open Scope Z_scope.

(** ** Python values and truthiness *)

(** [bool(s)] for a [str]. *)
Definition truthy_str (s : string) : bool :=
  match s with
  | EmptyString => false
  | String _ _ => true
  end.

(** [bool(x)] for an [Optional[str]]: [None] and the empty string are falsy. *)
Definition truthy_opt_str (o : option string) : bool :=
  match o with
  | None => false
  | Some s => truthy_str s
  end.

(** [bool(l)] for a list. *)
Definition truthy_list {A : Type} (l : list A) : bool :=
  match l with
  | [] => false
  | _ :: _ => true
  end.

(** [len(l)] as a Python integer. *)
Definition len {A : Type} (l : list A) : Z := Z.of_nat (length l).

(** [max(0, min(1000, v))] on integers. *)
Definition clamp_0_1000 (v : Z) : Z := Z.max 0 (Z.min 1000 v).

(** ** Exceptions and outcomes

    [Raises e] ranges over the instances of Python's [Exception] class, the
    class every handler of the file names; [exc_str] is [str(e)]. *)

Inductive exc_class := ImportError | IndexError | OtherException.

Record PyException := mkException { exc_kind : exc_class; exc_str : string }.

Inductive outcome (A : Type) : Type :=
| Returns (a : A)
| Raises (e : PyException).
Arguments Returns {A} a.
Arguments Raises {A} e.

#[global] Instance exc_class_eq_dec : EqDecision exc_class.
Proof. solve_decision. Defined.

#[global] Instance PyException_eq_dec : EqDecision PyException.
Proof. solve_decision. Defined.

#[global] Instance outcome_eq_dec {A : Type} `{EqDecision A}
  : EqDecision (outcome A).
Proof. solve_decision. Defined.

(** ** Floats

    The operations of Python on [float] that the module uses, on binary64. *)

(** The number a float stands for; [None] for nan and the infinities. *)
Definition float_value (x : float) : option Q :=
  match Prim2SF x with
  | S754_zero _ => Some 0%Q
  | S754_finite s m e =>
      Some (inject_Z (if s then Zneg m else Zpos m) * Qpower 2 e)%Q
  | S754_infinity _ | S754_nan => None
  end.

(** Truncation toward zero, and the nearest integer with ties to the even
    one, of a rational. *)
Definition Q_trunc (q : Q) : Z := Z.quot (Qnum q) (Zpos (Qden q)).

Definition Q_round_half_even (q : Q) : Z :=
  let f := Qfloor q in
  match Qcompare (q - inject_Z f) (1 # 2) with
  | Lt => f
  | Gt => f + 1
  | Eq => if Z.even f then f else f + 1
  end.

(** What [int(x)] and [round(x)] raise on a float that is not finite:
    [OverflowError] on an infinity, [ValueError] on nan. *)
Definition not_finite_error {A : Type} (x : float) : outcome A :=
  Raises {| exc_kind := OtherException;
            exc_str := if PrimFloat.eqb x x
                       then "cannot convert float infinity to integer"
                       else "cannot convert float NaN to integer" |}.

(** [int(x)] for a float: truncation toward zero. *)
Definition py_int (x : float) : outcome Z :=
  match float_value x with
  | Some q => Returns (Q_trunc q)
  | None => not_finite_error x
  end.

(** [round(x)] for a float: nearest integer, ties to the even one. *)
Definition py_round (x : float) : outcome Z :=
  match float_value x with
  | Some q => Returns (Q_round_half_even q)
  | None => not_finite_error x
  end.

(** [float(n)] for an int, as the arithmetic converts an int operand: the
    nearest float, exact below 2^53.  (From 2^1024 on the interpreter raises
    [OverflowError]; the ints converted here are the length of a list and
    small constants.) *)
Definition float_of_int (n : Z) : float :=
  SF2Prim (binary_normalize prec emax n 0 false).

(** [a / b] on two ints with [b] not 0: the quotient of the integers,
    rounded once to the nearest float.  (A quotient beyond the largest float
    makes the interpreter raise [OverflowError]; the one division of the
    module has [0 <= a <= b].) *)
Definition py_truediv (a b : Z) : float :=
  let exact (n : Z) : spec_float :=
    match n with
    | Z0 => S754_zero false
    | Zpos p => S754_finite false p 0
    | Zneg p => S754_finite true p 0
    end in
  SF2Prim (SFdiv prec emax (exact a) (exact b)).

(** [min(a, b)] and [max(a, b)] on floats: the first argument unless the
    second is smaller, respectively greater. *)
Definition py_min (a b : float) : float := if PrimFloat.ltb b a then b else a.
Definition py_max (a b : float) : float := if PrimFloat.ltb a b then b else a.

(** [max(0.0, min(1.0, x))] on floats. *)
Definition clamp_unit (x : float) : float := py_max 0 (py_min 1 x).

(** A float within [0, 1]. *)
Definition in_unit (x : float) : Prop :=
  PrimFloat.leb 0 x = true /\ PrimFloat.leb x 1 = true.

(** [sum(l)] on a list of floats, from the start value 0.  Up to CPython
    3.11 it is the running total of the additions from left to right.  From
    CPython 3.12 on the first item is added to the start value and the others
    go through Neumaier's compensated summation: the rounding errors are
    collected in [c] and added at the end, when [c] is finite and not 0. *)
Definition sum_running (l : list float) : float :=
  fold_left PrimFloat.add l (float_of_int 0).

Definition neumaier_step (acc : float * float) (x : float) : float * float :=
  let '(f_result, c) := acc in
  let t := (f_result + x)%float in
  if PrimFloat.leb (PrimFloat.abs x) (PrimFloat.abs f_result)
  then (t, (c + ((f_result - t) + x))%float)
  else (t, (c + ((x - t) + f_result))%float).

Definition sum_compensated (l : list float) : float :=
  match l with
  | [] => float_of_int 0
  | x :: l' =>
      let '(f_result, c) :=
        fold_left neumaier_step l' ((float_of_int 0 + x)%float, 0%float) in
      if negb (PrimFloat.eqb c 0)
         && PrimFloat.ltb (PrimFloat.abs c) infinity
      then (f_result + c)%float
      else f_result
  end.

Definition py_sum (compensated : bool) (l : list float) : float :=
  if compensated then sum_compensated l else sum_running l.

(** ** Log records

    The formatted log lines of the module, kept structured: the fields are the
    values interpolated into each message. *)

Inductive log_record :=
| LogFetchFailed (source : string) (msg : string)
    (* warning "  [{name}] failed: {e}" *)
| LogDryRunHeader
    (* "DRY RUN — scores that would be submitted:" *)
| LogScoreLine (category : string) (score : Z)
    (* "  {names[sid]}: {score}/1000" *)
| LogSubmitting (category : string) (score : Z)
    (* "  Submitting {names[subindex_id]} = {score}" *)
| LogUpdated (category : string)
    (* "  ✓ {names[subindex_id]} updated (tx: ...)" *)
| LogWeb3Missing
    (* error "web3 not installed. Run: pip install web3" *)
| LogSubmissionFailed (msg : string)
    (* error "On-chain submission failed: {e}" *)
| PrintTraceback
    (* traceback.print_exc() *)
| LogNotSubmittedHeader
    (* "Scores (not submitted):" *)
| LogComposite (composite : Z)
    (* "═══ Off-chain composite: {off_chain_composite}/1000 ═══" *)
| LogSubmitMode (dry_run : bool)
    (* "Submitting to oracle..." / "DRY RUN — not submitting" *)
| LogCycleComplete
    (* "Cycle complete." *)
| LogBanner
    (* the three banner lines of run_once *)
| LogAvailableSources (available : list string)
    (* "Available data sources ({len}): {...}" *)
| LogSubindex (subindex_id : Z)
    (* "─── Subindex {id}: {name} ({weight}%) ───" *)
| LogSubindexScore (score : Z) (ok_sources : Z).
    (* "  → Score: {score}/1000 | Sources: {n}" *)

(** ** SourceResult *)

Record SourceResult := mkSourceResult {
  name : string;
  texts : list string;
  scores : list float;
  count : Z;
  error : option string
}.

(** [SourceResult.__init__].  An argument left out by the caller is [None];
    the defaults of the signature are [texts=None], [scores=None], [count=0],
    [error=None]. *)
Definition SourceResult__init__ (name : string) (texts : option (list string))
    (scores : option (list float)) (count : option Z) (error : option string)
  : SourceResult :=
  let texts := match texts with
               | Some l => if truthy_list l then l else []
               | None => []
               end in
  let scores := match scores with
                | Some l => if truthy_list l then l else []
                | None => []
                end in
  let count := match count with Some c => c | None => 0 end in
  {| name := name;
     texts := texts;
     scores := scores;
     count := if count =? 0 then len texts + len scores else count;
     error := error |}.

(** The [has_data] property. *)
Definition has_data (r : SourceResult) : bool :=
  truthy_list (texts r) || truthy_list (scores r).

(** ** The isolation wrapper *)

(** [_safe_fetch(name, fn, *args, **kwargs)]: the result of [fn] or, when it
    raises, a warning and an error result.  The warning is returned next to
    the result. *)
Definition _safe_fetch {Args : Type} (name : string)
    (fn : Args -> outcome SourceResult) (args : Args)
  : outcome SourceResult * list log_record :=
  match fn args with
  | Returns r => (Returns r, [])
  | Raises e =>
      (Returns (SourceResult__init__ name None None None (Some (exc_str e))),
       [LogFetchFailed name (exc_str e)])
  end.

(** ** The lexicon text scorer *)

(** The class constants [SentimentAnalyzer.POSITIVE] and [NEGATIVE]. *)
Definition POSITIVE : gset string := list_to_set [
  "peace"; "treaty"; "agreement"; "cooperation"; "aid"; "donation";
  "charity"; "volunteer"; "love"; "hope"; "growth"; "recovery";
  "sustainable"; "renewable"; "conservation"; "health"; "education";
  "community"; "celebrate"; "progress"; "breakthrough"; "success";
  "kindness"; "generosity"; "innovation"; "clean"; "protect";
  "harmony"; "prosperity"; "freedom"; "justice"; "wellness";
  "solar"; "wind"; "recycle"; "restore"; "thrive"; "flourish";
  "unity"; "solidarity"; "empower"; "uplift"; "heal"; "cure";
  "vaccine"; "immunize"; "literacy"; "graduate"; "scholarship";
  "refuge"; "rescue"; "rebuild"; "resilient"; "champion" ].

Definition NEGATIVE : gset string := list_to_set [
  "war"; "conflict"; "attack"; "violence"; "crisis"; "disaster";
  "pollution"; "destruction"; "poverty"; "disease"; "corruption";
  "fraud"; "collapse"; "threat"; "bomb"; "death"; "famine";
  "drought"; "extinction"; "inequality"; "injustice"; "abuse";
  "terror"; "missile"; "siege"; "casualty"; "pandemic";
  "contamination"; "deforestation"; "toxic"; "smog"; "flood";
  "earthquake"; "hurricane"; "wildfire"; "genocide"; "massacre";
  "recession"; "unemployment"; "homelessness"; "overdose";
  "trafficking"; "exploit"; "embargo"; "sanction"; "airstrike" ].

(** [str.lower] on one character: the letters A to Z, and the Latin-1
    capitals 192 to 222 (the multiplication sign 215 is no letter), are moved
    32 code points up. *)
Definition lower_char (c : ascii) : ascii :=
  let n := nat_of_ascii c in
  if (((65 <=? n) && (n <=? 90))
      || ((192 <=? n) && (n <=? 222) && negb (n =? 215)))%nat
  then ascii_of_nat (n + 32) else c.

(** The white space of [str.split()]: tab, line feed, vertical tab, form
    feed, carriage return, the separators 28 to 31, the space, the next-line
    control 133 and the no-break space 160. *)
Definition is_space (c : ascii) : bool :=
  let n := nat_of_ascii c in
  (((9 <=? n) && (n <=? 13)) || ((28 <=? n) && (n <=? 32))
   || (n =? 133) || (n =? 160))%nat.

(** [s.split()]: the maximal runs of characters that are not white space.
    [cur] holds the current run, reversed. *)
Fixpoint split_ws (cur : list ascii) (s : list ascii) : list (list ascii) :=
  match s with
  | [] => match cur with [] => [] | _ :: _ => [rev cur] end
  | c :: s' =>
      if is_space c
      then match cur with
           | [] => split_ws [] s'
           | _ :: _ => rev cur :: split_ws [] s'
           end
      else split_ws (c :: cur) s'
  end.

(** The characters removed by [word.strip(...)]: . , ! ? ; : ' double quote
    ( ) - [ ] *)
Definition strip_chars : list ascii :=
  [ "."; ","; "!"; "?"; ";"; ":"; "'"; ascii_of_nat 34;
    "("; ")"; "-"; "["; "]" ]%char.

Definition in_strip_chars (c : ascii) : bool :=
  existsb (Ascii.eqb c) strip_chars.

Fixpoint lstrip (s : list ascii) : list ascii :=
  match s with
  | [] => []
  | c :: s' => if in_strip_chars c then lstrip s' else s
  end.

(** [word.strip(chars)]: the characters of [chars] removed at both ends. *)
Definition strip (s : list ascii) : list ascii :=
  rev (lstrip (rev (lstrip s))).

(** The words [w] of the inner loop for one text:
    [word.strip(...) for word in text.lower().split()]. *)
Definition words_of (text : string) : list string :=
  map (fun word => string_of_list_ascii (strip word))
      (split_ws [] (map lower_char (list_ascii_of_string text))).

(** One iteration of the inner loop on the counters [(pos, neg)]. *)
Definition count_word (acc : Z * Z) (w : string) : Z * Z :=
  let '(pos, neg) := acc in
  if bool_decide (w ∈ POSITIVE) then (pos + 1, neg)
  else if bool_decide (w ∈ NEGATIVE) then (pos, neg + 1)
  else (pos, neg).

(** One iteration of the outer loop. *)
Definition count_text (acc : Z * Z) (text : string) : Z * Z :=
  fold_left count_word (words_of text) acc.

(** [SentimentAnalyzer._analyze_keyword]. *)
Definition _analyze_keyword (texts : list string) : float :=
  let '(pos, neg) := fold_left count_text texts (0, 0) in
  if pos + neg =? 0 then 0.5%float
  else py_truediv pos (pos + neg).

(** ** Configuration *)

Record Config := mkConfig {
  rpc_url : string;
  oracle_address : string;
  reporter_private_key : string;
  newsapi_key : string;
  twitter_bearer_token : string;
  serper_api_key : string;
  reddit_client_id : string;
  reddit_client_secret : string;
  youtube_api_key : string;
  aqicn_token : string;
  update_interval_hours : Z;
  use_local_llm : bool;
  local_llm_endpoint : string
}.

(** [Config.available_sources]. *)
Definition available_sources (c : Config) : list string :=
  [ "gdelt"; "open_meteo"; "carbon_intensity"; "hedonometer";
    "disease_sh"; "world_bank"; "reliefweb";
    "gbif_bees"; "inaturalist_bees"; "faostat_bees";
    "global_forest_watch";
    "who_gho"; "un_sdg" ]
  ++ (if truthy_str (newsapi_key c) then ["newsapi"] else [])
  ++ (if truthy_str (twitter_bearer_token c) then ["twitter"] else [])
  ++ (if truthy_str (serper_api_key c) then ["serper"] else [])
  ++ (if truthy_str (reddit_client_id c) && truthy_str (reddit_client_secret c)
      then ["reddit"] else [])
  ++ (if truthy_str (youtube_api_key c) then ["youtube"] else [])
  ++ (if truthy_str (aqicn_token c) then ["aqicn"] else []).

(** ** The world outside the process

    What the module reaches through [requests], [web3] and the clock, and
    the version of the interpreter that runs it.  Each field answers one kind
    of call; the pipeline is a function of it. *)

Inductive chain_call :=
| ImportWeb3
    (* from web3 import Web3 *)
| HTTPProvider (url : string)
    (* Web3(Web3.HTTPProvider(rpc_url)) *)
| AccountFromKey (key : string)
    (* w3.eth.account.from_key(reporter_private_key) *)
| OracleContract (address : string)
    (* w3.eth.contract(address=Web3.to_checksum_address(...), abi=...) *)
| GetTransactionCount
    (* w3.eth.get_transaction_count(account.address) *)
| UpdateSubIndex (subindex_id score : Z)
    (* oracle.functions.updateSubIndex(subindex_id, score) *)
| GasPrice (subindex_id : Z)
    (* w3.eth.gas_price *)
| BuildTransaction (subindex_id score nonce : Z)
    (* .build_transaction({from, nonce, gas, gasPrice}) *)
| SignTransaction (subindex_id : Z)
    (* account.sign_transaction(tx) *)
| SendRawTransaction (subindex_id : Z)
    (* w3.eth.send_raw_transaction(signed.raw_transaction) *)
| WaitForReceipt (subindex_id timeout : Z).
    (* w3.eth.wait_for_transaction_receipt(tx_hash, timeout=60) *)

Record World := mkWorld {
  (* requests.post(url, json=prompt...) followed by the parse of the answer:
     the number read from the reply, or None when anything in the try block
     raises *)
  llm_post : string -> string -> option float;
  (* whether a chain-client call succeeds; a call that does not raises *)
  chain_ok : chain_call -> bool;
  (* the message of the exception a failing call raises *)
  chain_err : chain_call -> string;
  (* the answer of get_transaction_count *)
  transaction_count : Z;
  (* datetime.now().isoformat() *)
  now_isoformat : string;
  (* the interpreter is CPython 3.12 or later: sum() on floats compensates *)
  python_3_12 : bool
}.

(** ** SentimentAnalyzer *)

Definition newline : string := String (ascii_of_nat 10) EmptyString.

(** The prompt built by [_analyze_llm]: at most 50 texts, each cut to 200
    characters. *)
Definition llm_prompt (texts : list string) (context : string) : string :=
  let combined :=
    String.concat newline
      (map (fun t => "- " ++ substring 0 200 t) (firstn 50 texts)) in
  "You are a sentiment analyst. Analyze the following " ++ context ++ " texts "
  ++ "and return ONLY a single number between 0 and 100 representing overall "
  ++ "sentiment (0=extremely negative, 50=neutral, 100=extremely positive)."
  ++ newline ++ newline
  ++ "Texts:" ++ newline ++ combined ++ newline ++ newline ++ "Score:".

(** [SentimentAnalyzer._analyze_llm]: [None] on failure. *)
Definition _analyze_llm (w : World) (config : Config) (texts : list string)
    (context : string) : option float :=
  match llm_post w (local_llm_endpoint config ++ "/chat/completions")
                   (llm_prompt texts context) with
  | Some num => Some (clamp_unit (num / 100))
  | None => None
  end.

(** [SentimentAnalyzer.analyze]. *)
Definition analyze (w : World) (config : Config) (texts : list string)
    (context : string) : float :=
  if negb (truthy_list texts) then 0.5%float
  else
    match (if use_local_llm config then _analyze_llm w config texts context
           else None) with
    | Some score => score
    | None => _analyze_keyword texts
    end.

(** ** The blender *)

(** The values stored in a provenance entry. *)
Inductive meta_val := MStr (s : string) | MInt (n : Z).

(** The local variables of the loop of [_blend]:
    [all_texts], [all_scores], [source_meta]. *)
Record blend_state := mkBlendState {
  all_texts : list string;
  all_scores : list float;
  source_meta : gmap string (gmap string meta_val)
}.

(** One iteration of [for r in results]. *)
Definition blend_step (st : blend_state) (r : SourceResult) : blend_state :=
  if truthy_opt_str (error r) then
    (* source_meta[r.name] = {"status": "error", "error": r.error}; continue *)
    {| all_texts := all_texts st;
       all_scores := all_scores st;
       source_meta :=
         <[name r := {[ "status" := MStr "error";
                        "error" := MStr (default "" (error r)) ]}]>
           (source_meta st) |}
  else
    let st1 :=
      if truthy_list (texts r) then
        {| all_texts := all_texts st ++ texts r;
           all_scores := all_scores st;
           source_meta :=
             <[name r := {[ "status" := MStr "ok";
                            "texts" := MInt (len (texts r)) ]}]>
               (source_meta st) |}
      else st in
    if truthy_list (scores r) then
      (* source_meta[r.name] = source_meta.get(r.name, {})
         source_meta[r.name].update({"status": "ok", "scores": len(r.scores)}) *)
      {| all_texts := all_texts st1;
         all_scores := all_scores st1 ++ scores r;
         source_meta :=
           <[name r := ({[ "status" := MStr "ok";
                           "scores" := MInt (len (scores r)) ]}
                        : gmap string meta_val)
                       ∪ default ∅ (source_meta st1 !! name r)]>
             (source_meta st1) |}
    else st1.

(** The value of [blended] computed from the collected texts and scores. *)
Definition blended_of (w : World) (config : Config) (context : string)
    (st : blend_state) : float :=
  let text_score :=
    if truthy_list (all_texts st)
    then Some (analyze w config (all_texts st) context) else None in
  let numeric_score :=
    if truthy_list (all_scores st)
    then Some (py_sum (python_3_12 w) (all_scores st)
               / float_of_int (len (all_scores st)))%float
    else None in
  match text_score, numeric_score with
  | Some t, Some n => (t * 0.6 + n * 0.4)%float
  | Some t, None => t
  | None, Some n => n
  | None, None => 0.5%float
  end.

(** The state of the loop when it ends. *)
Definition blend_loop (results : list SourceResult) : blend_state :=
  fold_left blend_step results
    {| all_texts := []; all_scores := []; source_meta := ∅ |}.

(** [SubindexAggregator._blend]: the pair [(score, source_meta)], unless
    [int] raises on a [blended * 1000] that is not finite. *)
Definition _blend (w : World) (config : Config) (results : list SourceResult)
    (context : string) : outcome (Z * gmap string (gmap string meta_val)) :=
  let st := blend_loop results in
  match py_int (blended_of w config context st * 1000) with
  | Returns score => Returns (score, source_meta st)
  | Raises e => Raises e
  end.

(** The score of an outcome of [_blend]; a raised exception is kept. *)
Definition blend_score
    (o : outcome (Z * gmap string (gmap string meta_val))) : outcome Z :=
  match o with
  | Returns (score, _) => Returns score
  | Raises e => Raises e
  end.

(** ** Effects: a trace of events and exceptions *)

Inductive event :=
| Log (r : log_record)
| Call (c : chain_call).

(** A computation returns or raises, and leaves the events it performed. *)
Definition M (A : Type) : Type := (outcome A * list event)%type.

Definition ret {A : Type} (a : A) : M A := (Returns a, []).

Definition bind {A B : Type} (m : M A) (f : A -> M B) : M B :=
  match m with
  | (Returns a, t) => let '(r, t') := f a in (r, (t ++ t')%list)
  | (Raises e, t) => (Raises e, t)
  end.

Definition raise {A : Type} (e : PyException) : M A := (Raises e, []).

Definition emit (r : log_record) : M unit := (Returns tt, [Log r]).

(** [try: m except ... as e: h e] *)
Definition try_except {A : Type} (m : M A) (h : PyException -> M A) : M A :=
  match m with
  | (Returns a, t) => (Returns a, t)
  | (Raises e, t) => let '(r, t') := h e in (r, (t ++ t')%list)
  end.

#[global] Instance M_ret : MRet M := @ret.
#[global] Instance M_bind : MBind M := fun A B f m => bind m f.

(** [for x in l: body x] *)
Fixpoint for_each {A : Type} (l : list A) (body : A -> M unit) : M unit :=
  match l with
  | [] => ret tt
  | x :: l' => body x ;; for_each l' body
  end.

(** A chain-client call: recorded, and raising when the world refuses it.
    A failed import raises [ImportError]. *)
Definition call (w : World) (c : chain_call) : M unit :=
  if chain_ok w c then (Returns tt, [Call c])
  else (Raises {| exc_kind := match c with
                              | ImportWeb3 => ImportError
                              | _ => OtherException
                              end;
                  exc_str := chain_err w c |},
        [Call c]).

(** [l[i]] for a Python list: negative indices count from the end. *)
Definition py_index {A : Type} (l : list A) (i : Z) : M A :=
  let j := if 0 <=? i then i else len l + i in
  match (if 0 <=? j then nth_error l (Z.to_nat j) else None) with
  | Some x => ret x
  | None => raise {| exc_kind := IndexError;
                     exc_str := "list index out of range" |}
  end.

(** [d[k]] for a dict. *)
Definition py_getitem (d : gmap Z Z) (k : Z) : M Z :=
  match d !! k with
  | Some v => ret v
  | None => raise {| exc_kind := OtherException; exc_str := pretty k |}
  end.

(** [sorted(scores.items())] and [sorted(scores.keys())]. *)
Definition key_le (a b : Z * Z) : Prop := a.1 <= b.1.

#[global] Instance key_le_dec : RelDecision key_le.
Proof. intros a b. unfold key_le. apply _. Defined.

Definition sorted_items (scores : gmap Z Z) : list (Z * Z) :=
  merge_sort key_le (map_to_list scores).

Definition sorted_keys (scores : gmap Z Z) : list Z :=
  merge_sort Z.le (map fst (map_to_list scores)).

(** ** OracleSubmitter *)

Definition names : list string :=
  [ "Global Peace"; "Charitable Giving"; "Social Sentiment";
    "Environmental Care"; "Community Wellness" ].

(** The loop shared by the dry run and [_log_scores]:
    [for sid, score in sorted(scores.items()): if sid < 5: log.info(...)]. *)
Definition log_score_lines (scores : gmap Z Z) : M unit :=
  for_each (sorted_items scores) (fun '(sid, score) =>
    if sid <? 5 then
      nm ← py_index names sid;
      emit (LogScoreLine nm score)
    else ret tt).

(** [OracleSubmitter._log_scores]. *)
Definition _log_scores (scores : gmap Z Z) : M unit :=
  emit LogNotSubmittedHeader;;
  log_score_lines scores.

(** One iteration of the submission loop; returns the next nonce. *)
Definition submit_one (w : World) (scores : gmap Z Z) (nonce : Z)
    (subindex_id : Z) : M Z :=
  if 5 <=? subindex_id then ret nonce
  else
    raw ← py_getitem scores subindex_id;
    let score := clamp_0_1000 raw in
    nm ← py_index names subindex_id;
    emit (LogSubmitting nm score);;
    call w (UpdateSubIndex subindex_id score);;
    call w (GasPrice subindex_id);;
    call w (BuildTransaction subindex_id score nonce);;
    call w (SignTransaction subindex_id);;
    call w (SendRawTransaction subindex_id);;
    call w (WaitForReceipt subindex_id 60);;
    nm' ← py_index names subindex_id;
    emit (LogUpdated nm');;
    ret (nonce + 1).

(** [for subindex_id in sorted(scores.keys()): ...] with the running nonce. *)
Fixpoint submit_loop (w : World) (scores : gmap Z Z) (nonce : Z)
    (ids : list Z) : M unit :=
  match ids with
  | [] => ret tt
  | subindex_id :: rest =>
      nonce' ← submit_one w scores nonce subindex_id;
      submit_loop w scores nonce' rest
  end.

(** The body of the [try] block. *)
Definition submit_live (w : World) (config : Config) (scores : gmap Z Z)
  : M unit :=
  call w ImportWeb3;;
  call w (HTTPProvider (rpc_url config));;
  call w (AccountFromKey (reporter_private_key config));;
  call w (OracleContract (oracle_address config));;
  call w GetTransactionCount;;
  submit_loop w scores (transaction_count w) (sorted_keys scores).

(** The two [except] clauses of [submit_scores]: [ImportError] first, then
    [Exception]. *)
Definition on_submit_error (scores : gmap Z Z) (e : PyException) : M unit :=
  match exc_kind e with
  | ImportError =>
      emit LogWeb3Missing;;
      _log_scores scores
  | _ =>
      emit (LogSubmissionFailed (exc_str e));;
      emit PrintTraceback;;
      _log_scores scores
  end.

(** [OracleSubmitter.submit_scores]. *)
Definition submit_scores (w : World) (config : Config) (scores : gmap Z Z)
    (dry_run : bool) : M unit :=
  if dry_run then
    emit LogDryRunHeader;;
    log_score_lines scores
  else
    try_except (submit_live w config scores) (on_submit_error scores).

(** ** SentimentPipeline *)

(** What the five [score_*] methods of the aggregator return in one cycle:
    each the pair [(score, meta)] of its call to [_blend]. *)
Record Aggregator := mkAggregator {
  score_peace : Z * gmap string (gmap string meta_val);
  score_charity : Z * gmap string (gmap string meta_val);
  score_social : Z * gmap string (gmap string meta_val);
  score_environment : Z * gmap string (gmap string meta_val);
  score_wellness : Z * gmap string (gmap string meta_val)
}.

(** The dict returned by [run_once]. *)
Record Report := mkReport {
  timestamp : string;
  composite : Z;
  report_scores : gmap string Z;
  sources : gmap string (gmap string meta_val);
  report_available_sources : list string
}.

#[global] Instance meta_val_eq_dec : EqDecision meta_val.
Proof. solve_decision. Defined.

(** [len([m for m in meta.values() if m.get('status') == 'ok'])] *)
Definition ok_sources (meta : gmap string (gmap string meta_val)) : Z :=
  len (filter (fun kv => kv.2 !! "status" = Some (MStr "ok"))
              (map_to_list meta)).

Definition weights : list Z := [2000; 1500; 2000; 1500; 1500].

(** [sum(scores[i] * weights[i] for i in range(5))], from the running
    total [acc]. *)
Fixpoint weighted_sum (scores : gmap Z Z) (range : list Z) (acc : Z) : M Z :=
  match range with
  | [] => ret acc
  | i :: range' =>
      s ← py_getitem scores i;
      wt ← py_index weights i;
      weighted_sum scores range' (acc + s * wt)
  end.

(** [off_chain_composite = composite // 8500] *)
Definition off_chain_composite (scores : gmap Z Z) : M Z :=
  total ← weighted_sum scores [0; 1; 2; 3; 4] 0;
  ret (total / 8500).

(** [SentimentPipeline.run_once]. *)
Definition run_once (w : World) (config : Config) (agg : Aggregator)
    (dry_run : bool) : M Report :=
  emit LogBanner;;
  let available := available_sources config in
  emit (LogAvailableSources available);;
  let scores : gmap Z Z := ∅ in
  let all_meta : gmap string (gmap string (gmap string meta_val)) := ∅ in
  emit (LogSubindex 0);;
  let '(score, meta) := score_peace agg in
  let scores := <[0 := score]> scores in
  let all_meta := <["peace" := meta]> all_meta in
  emit (LogSubindexScore score (ok_sources meta));;
  emit (LogSubindex 1);;
  let '(score, meta) := score_charity agg in
  let scores := <[1 := score]> scores in
  let all_meta := <["charity" := meta]> all_meta in
  emit (LogSubindexScore score (ok_sources meta));;
  emit (LogSubindex 2);;
  let '(score, meta) := score_social agg in
  let scores := <[2 := score]> scores in
  let all_meta := <["social" := meta]> all_meta in
  emit (LogSubindexScore score (ok_sources meta));;
  emit (LogSubindex 3);;
  let '(score, meta) := score_environment agg in
  let scores := <[3 := score]> scores in
  let all_meta := <["environment" := meta]> all_meta in
  emit (LogSubindexScore score (ok_sources meta));;
  emit (LogSubindex 4);;
  let '(score, meta) := score_wellness agg in
  let scores := <[4 := score]> scores in
  let all_meta := <["wellness" := meta]> all_meta in
  emit (LogSubindexScore score (ok_sources meta));;
  composite ← off_chain_composite scores;
  emit (LogComposite composite);;
  emit (LogSubmitMode dry_run);;
  submit_scores w config scores dry_run;;
  emit LogCycleComplete;;
  ret {| timestamp := now_isoformat w;
         composite := composite;
         report_scores :=
           list_to_map (map (fun '(k, v) => (pretty k, v)) (map_to_list scores));
         sources :=
           (fun v : gmap string (gmap string meta_val) =>
              (fun sv : gmap string meta_val =>
                 default (MStr "unknown") (sv !! "status")) <$> v)
           <$> all_meta;
         report_available_sources := available |}.

(** The score dict that [run_once] builds from the five category scores. *)
Definition scores_of (s0 s1 s2 s3 s4 : Z) : gmap Z Z :=
  <[4 := s4]> (<[3 := s3]> (<[2 := s2]> (<[1 := s1]> (<[0 := s0]> ∅)))).

(** ** The blender as the specification words it

    Section 4.3 of the specification, written over the input list instead of
    the loop, for comparison with [_blend]. *)

(** The test [if r.error] of the loop: the error is a non-empty string. *)
Definition error_set (r : SourceResult) : bool := truthy_opt_str (error r).

(** A member that takes part in blending: no error, and texts or scores. *)
Definition data_bearing (r : SourceResult) : bool :=
  negb (error_set r) && has_data r.

(** Step 1: texts and scores of the members without error, concatenated in
    the order of the sources. *)
Definition collected_texts (rs : list SourceResult) : list string :=
  flat_map texts (List.filter (fun r => negb (error_set r)) rs).

Definition collected_scores (rs : list SourceResult) : list float :=
  flat_map scores (List.filter (fun r => negb (error_set r)) rs).

(** Step 3: the arithmetic mean, [sum(l) / len(l)]. *)
Definition mean (w : World) (l : list float) : float :=
  (py_sum (python_3_12 w) l / float_of_int (len l))%float.

(** Steps 2 to 4: [blended]. *)
Definition spec_blended (w : World) (config : Config) (context : string)
    (rs : list SourceResult) : float :=
  match collected_texts rs, collected_scores rs with
  | [], [] => 0.5%float
  | (_ :: _) as ts, [] => analyze w config ts context
  | [], (_ :: _) as ss => mean w ss
  | (_ :: _) as ts, (_ :: _) as ss =>
      (analyze w config ts context * 0.6 + mean w ss * 0.4)%float
  end.

(** [z] is [q] truncated toward zero: the integer next to [q] on the side
    of 0. *)
Definition truncation_of (q : Q) (z : Z) : Prop :=
  ((0 <= q)%Q -> (inject_Z z <= q)%Q /\ (q < inject_Z z + 1)%Q)
  /\ ((q <= 0)%Q -> (inject_Z z - 1 < q)%Q /\ (q <= inject_Z z)%Q).

(** Step 5 as the specification has it: [round(blended * 1000)], clamped to
    [0, 1000]. *)
Definition spec_score (w : World) (config : Config) (context : string)
    (rs : list SourceResult) : outcome Z :=
  match py_round (spec_blended w config context rs * 1000) with
  | Returns v => Returns (clamp_0_1000 v)
  | Raises e => Raises e
  end.

(** Sample inputs. *)
Definition quiet_world : World :=
  {| llm_post := fun _ _ => None;
     chain_ok := fun _ => true;
     chain_err := fun _ => "";
     transaction_count := 7;
     now_isoformat := "2026-01-01T00:00:00";
     python_3_12 := false |}.

Definition plain_config : Config :=
  {| rpc_url := "https://sepolia.base.org";
     oracle_address := "0x00000000000000000000000000000000000000AA";
     reporter_private_key := "0x01";
     newsapi_key := ""; twitter_bearer_token := ""; serper_api_key := "";
     reddit_client_id := ""; reddit_client_secret := "";
     youtube_api_key := ""; aqicn_token := "";
     update_interval_hours := 6;
     use_local_llm := false;
     local_llm_endpoint := "http://localhost:8080/v1" |}.

(** ** Reading a trace *)

(** The chain-client calls of a trace, in order. *)
Definition chain_calls (t : list event) : list chain_call :=
  flat_map (fun e => match e with Call c => [c] | Log _ => [] end) t.

(** The category a chain-client call works for, if any. *)
Definition call_category (c : chain_call) : option Z :=
  match c with
  | UpdateSubIndex i _ | GasPrice i | BuildTransaction i _ _
  | SignTransaction i | SendRawTransaction i | WaitForReceipt i _ => Some i
  | ImportWeb3 | HTTPProvider _ | AccountFromKey _ | OracleContract _
  | GetTransactionCount => None
  end.

(** The categories reported as updated on chain ("✓ ... updated"). *)
Definition reported_submitted (t : list event) : list string :=
  flat_map (fun e => match e with
                     | Log (LogUpdated nm) => [nm]
                     | _ => []
                     end) t.

(** The score lines of a trace. *)
Definition score_lines (t : list event) : list (string * Z) :=
  flat_map (fun e => match e with
                     | Log (LogScoreLine nm s) => [(nm, s)]
                     | _ => []
                     end) t.

(** The categories reported as unsent: the score lines that follow the
    header "Scores (not submitted):". *)
Fixpoint reported_unsent (t : list event) : list (string * Z) :=
  match t with
  | [] => []
  | Log LogNotSubmittedHeader :: t' => score_lines t'
  | _ :: t' => reported_unsent t'
  end.

(** The categories listed by a dry run: the score lines that follow the
    header "DRY RUN — scores that would be submitted:". *)
Fixpoint reported_dry_run (t : list event) : list (string * Z) :=
  match t with
  | [] => []
  | Log LogDryRunHeader :: t' => score_lines t'
  | _ :: t' => reported_dry_run t'
  end.

(** The calls made before the loop, and the calls of one iteration. *)
Definition setup_calls (config : Config) : list chain_call :=
  [ ImportWeb3; HTTPProvider (rpc_url config);
    AccountFromKey (reporter_private_key config);
    OracleContract (oracle_address config); GetTransactionCount ].

Definition category_calls (subindex_id score nonce : Z) : list chain_call :=
  [ UpdateSubIndex subindex_id score; GasPrice subindex_id;
    BuildTransaction subindex_id score nonce; SignTransaction subindex_id;
    SendRawTransaction subindex_id; WaitForReceipt subindex_id 60 ].

(** The update of a category goes through: the world accepts each of its
    calls. *)
Definition category_ok (w : World) (subindex_id score nonce : Z) : bool :=
  forallb (chain_ok w) (category_calls subindex_id score nonce).

(** A confirmed update: the six calls, framed by the two log lines. *)
Definition confirmed_trace (nm : string) (subindex_id score nonce : Z)
  : list event :=
  (Log (LogSubmitting nm score)
   :: map Call (category_calls subindex_id score nonce)
   ++ [Log (LogUpdated nm)])%list.

(** A world whose chain client times out while waiting for the receipt of
    category 2 and accepts every other call. *)
Definition timeout_at_2 : World :=
  {| llm_post := fun _ _ => None;
     chain_ok := fun c => match c with
                          | WaitForReceipt 2 _ => false
                          | _ => true
                          end;
     chain_err := fun _ => "not in the chain after 60 seconds";
     transaction_count := 7;
     now_isoformat := "2026-01-01T00:00:00";
     python_3_12 := false |}.

(** The aggregator results of the end-to-end scenario. *)
Definition scenario_aggregator : Aggregator :=
  {| score_peace := (800, ∅);
     score_charity := (600, ∅);
     score_social := (900, ∅);
     score_environment := (400, ∅);
     score_wellness := (700, ∅) |}.

(** ** Definitions for the further properties *)

(** ** More readings of a trace *)

(** The nonces of the transactions built, in order. *)
Definition build_nonces (t : list event) : list Z :=
  flat_map (fun c => match c with
                     | BuildTransaction _ _ nonce => [nonce]
                     | _ => []
                     end) (chain_calls t).

(** [l] counts up from [n] in steps of one. *)
Fixpoint consecutive_from (n : Z) (l : list Z) : Prop :=
  match l with
  | [] => True
  | x :: l' => x = n /\ consecutive_from (n + 1) l'
  end.

(** What every call made for a category satisfies: an id below 5 and, where
    a score is passed, a score within [0, 1000]. *)
Definition call_in_bounds (c : chain_call) : Prop :=
  match c with
  | UpdateSubIndex i s | BuildTransaction i s _ => i < 5 /\ 0 <= s <= 1000
  | GasPrice i | SignTransaction i | SendRawTransaction i
  | WaitForReceipt i _ => i < 5
  | ImportWeb3 | HTTPProvider _ | AccountFromKey _ | OracleContract _
  | GetTransactionCount => True
  end.

(** How often the account nonce is fetched. *)
Definition nonce_fetches (t : list event) : nat :=
  length (List.filter (fun c => match c with
                                | GetTransactionCount => true
                                | _ => false
                                end) (chain_calls t)).

(** [names[sid]] for an id the list can index, from -5 to 4; a negative id
    counts from the end. *)
Definition names_at (sid : Z) : string :=
  nth (Z.to_nat (if 0 <=? sid then sid else len names + sid)) names "".

(** What a listing shows of a score dict: the entries with an id below 5, in
    ascending order of the ids, each under the name of its category. *)
Definition listed (scores : gmap Z Z) : list (string * Z) :=
  map (fun '(sid, score) => (names_at sid, score))
      (List.filter (fun kv => kv.1 <? 5) (sorted_items scores)).

(** A call of the loop: it names its category and is in bounds. *)
Definition loop_call (c : chain_call) : Prop :=
  call_category c <> None /\ call_in_bounds c.


#[global] Instance key_le_total : Total key_le.
Proof. intros a b. unfold key_le. lia. Qed.

#[global] Instance key_le_trans : Transitive key_le.
Proof. intros a b c. unfold key_le. lia. Qed.

(** The updates sent to the contract: the arguments of [updateSubIndex]. *)
Definition updates (t : list event) : list (Z * Z) :=
  flat_map (fun c => match c with
                     | UpdateSubIndex i s => [(i, s)]
                     | _ => []
                     end) (chain_calls t).

(** A machine on which the package web3 is not installed. *)
Definition no_web3 : World :=
  {| llm_post := fun _ _ => None;
     chain_ok := fun c => match c with ImportWeb3 => false | _ => true end;
     chain_err := fun _ => "No module named 'web3'";
     transaction_count := 0;
     now_isoformat := "2026-01-01T00:00:00";
     python_3_12 := false |}.

(** A result that leaves a provenance entry: its error is set, or it has
    texts or scores. *)
Definition recorded (r : SourceResult) : bool := error_set r || has_data r.

(** The status shown in the report for a provenance entry:
    [sv.get("status", "unknown")]. *)
Definition shown_status (sv : gmap string meta_val) : meta_val :=
  default (MStr "unknown") (sv !! "status").

(** Every entry of a provenance record has the status "ok" or "error". *)
Definition status_known (meta : gmap string (gmap string meta_val)) : Prop :=
  forall nm sv, meta !! nm = Some sv ->
    sv !! "status" = Some (MStr "ok") \/ sv !! "status" = Some (MStr "error").

(** [text.lower()] on a whole string. *)
Definition str_lower (s : string) : string :=
  string_of_list_ascii (map lower_char (list_ascii_of_string s)).

(** All the words of a list of texts, in order. *)
Definition all_words (texts : list string) : list string :=
  flat_map words_of texts.

(** The number of words found in a set of the lexicon. *)
Definition lexicon_hits (lexicon : gset string) (ws : list string) : Z :=
  len (List.filter (fun w => bool_decide (w ∈ lexicon)) ws).

(** An endpoint that answers 250 to every request, and a configuration
    that asks it. *)
Definition eager_world : World :=
  {| llm_post := fun _ _ => Some 250%float;
     chain_ok := fun _ => true;
     chain_err := fun _ => "";
     transaction_count := 7;
     now_isoformat := "2026-01-01T00:00:00";
     python_3_12 := false |}.

Definition llm_config : Config :=
  {| rpc_url := "https://sepolia.base.org";
     oracle_address := "";
     reporter_private_key := "";
     newsapi_key := ""; twitter_bearer_token := ""; serper_api_key := "";
     reddit_client_id := ""; reddit_client_secret := "";
     youtube_api_key := ""; aqicn_token := "";
     update_interval_hours := 6;
     use_local_llm := true;
     local_llm_endpoint := "http://localhost:8080/v1" |}.

(** ** The category orchestrator *)

(** The adapter functions handed to [_safe_fetch], with their arguments.
    The adapters of tier 2 receive the configuration. *)
Inductive adapter_call :=
| RateLimitedGdelt (query : string)          (* _rate_limited_gdelt *)
| FetchReliefweb (query : string)
| FetchHedonometer
| FetchOpenMeteoAqi
| FetchUkCarbonIntensity
| FetchDiseaseSh
| FetchWorldBank (indicator : string)
| FetchGbifBees
| FetchInaturalistBees
| FetchFaostatBeehives
| FetchGlobalForestWatch
| FetchWhoGho (indicator : string)
| FetchUnSdg (indicator area : string)
| FetchNewsapi (config : Config) (query : string)
| FetchSerper (config : Config) (query : string)
| FetchReddit (config : Config) (query : string)
| FetchYoutube (config : Config) (query : string)
| FetchTwitter (config : Config) (query : string)
| FetchAqicn (config : Config) (city : string).

(** What an orchestrator method does besides computing: its log line, the
    adapter calls it makes and the warnings of [_safe_fetch]. *)
Inductive fetch_event :=
| FetchingFrom (category : string)
    (* "  [Peace] Fetching from multiple sources..." *)
| Invoked (c : adapter_call)
| Warned (r : log_record).

(** [results.append(_safe_fetch(label, fn, *args))] for each entry of
    [calls], in order, onto [results]. *)
Fixpoint append_fetched (fetch : adapter_call -> outcome SourceResult)
    (calls : list (string * adapter_call)) (results : list SourceResult)
  : outcome (list SourceResult) * list fetch_event :=
  match calls with
  | [] => (Returns results, [])
  | (label, c) :: calls' =>
      match _safe_fetch label fetch c with
      | (Returns r, logs) =>
          let '(out, ev) := append_fetched fetch calls' (results ++ [r]) in
          (out, Invoked c :: map Warned logs ++ ev)
      | (Raises e, logs) => (Raises e, Invoked c :: map Warned logs)
      end
  end.

(** The calls of [score_peace], in the order of the source. *)
Definition peace_calls (config : Config) : list (string * adapter_call) :=
  [ ("gdelt", RateLimitedGdelt "peace OR conflict OR war OR treaty");
    ("reliefweb", FetchReliefweb "conflict peace") ]
  ++ (if truthy_str (newsapi_key config)
      then [("newsapi",
             FetchNewsapi config
               "peace OR conflict OR war OR treaty OR diplomacy")]
      else [])
  ++ (if truthy_str (serper_api_key config)
      then [("serper",
             FetchSerper config "global peace index 2026 conflict resolution")]
      else [])
  ++ (if truthy_str (reddit_client_id config)
      then [("reddit", FetchReddit config "world peace geopolitics diplomacy")]
      else [])
  ++ (if truthy_str (youtube_api_key config)
      then [("youtube", FetchYoutube config "world peace news today")]
      else []).

(** The calls of [score_charity]. *)
Definition charity_calls (config : Config) : list (string * adapter_call) :=
  [ ("gdelt", RateLimitedGdelt "charity OR donation OR humanitarian");
    ("reliefweb", FetchReliefweb "humanitarian aid donation") ]
  ++ (if truthy_str (newsapi_key config)
      then [("newsapi",
             FetchNewsapi config
               "charity OR donation OR humanitarian OR volunteer OR giving")]
      else [])
  ++ (if truthy_str (serper_api_key config)
      then [("serper",
             FetchSerper config "charitable giving donations 2026 philanthropy")]
      else [])
  ++ (if truthy_str (reddit_client_id config)
      then [("reddit", FetchReddit config "charity volunteer donation giving")]
      else []).

(** The calls of [score_social]. *)
Definition social_calls (config : Config) : list (string * adapter_call) :=
  [ ("hedonometer", FetchHedonometer);
    ("gdelt", RateLimitedGdelt "community society wellbeing people") ]
  ++ (if truthy_str (twitter_bearer_token config)
      then [("twitter",
             FetchTwitter config "world today hope future -is:retweet lang:en")]
      else [])
  ++ (if truthy_str (newsapi_key config)
      then [("newsapi",
             FetchNewsapi config
               "community OR society OR people OR hope OR future")]
      else [])
  ++ (if truthy_str (reddit_client_id config)
      then [("reddit", FetchReddit config "good news today positive")]
      else [])
  ++ (if truthy_str (youtube_api_key config)
      then [("youtube",
             FetchYoutube config "positive news inspiring stories today")]
      else []).

(** The calls of [score_environment]. *)
Definition environment_calls (config : Config)
  : list (string * adapter_call) :=
  [ ("open_meteo", FetchOpenMeteoAqi);
    ("uk_carbon", FetchUkCarbonIntensity);
    ("gdelt",
     RateLimitedGdelt "environment OR climate OR conservation OR renewable");
    ("gbif_bees", FetchGbifBees);
    ("inaturalist_bees", FetchInaturalistBees);
    ("faostat_bees", FetchFaostatBeehives);
    ("gfw", FetchGlobalForestWatch) ]
  ++ (if truthy_str (aqicn_token config)
      then map (fun city => ("aqicn_" ++ city, FetchAqicn config city))
             ["london"; "new-york"; "tokyo"; "paris"; "sydney"]
      else [])
  ++ (if truthy_str (newsapi_key config)
      then [("newsapi",
             FetchNewsapi config
               "environment OR climate OR conservation OR renewable OR pollution")]
      else [])
  ++ (if truthy_str (serper_api_key config)
      then [("serper",
             FetchSerper config
               "air quality index today global environment news")]
      else []).

(** The calls of [score_wellness] that follow the World Bank one. *)
Definition wellness_calls (config : Config) : list (string * adapter_call) :=
  [ ("who_life_expectancy", FetchWhoGho "WHOSIS_000001");
    ("un_sdg_maternal", FetchUnSdg "3.1.1" "1");
    ("gdelt", RateLimitedGdelt "health OR education OR wellness OR community");
    ("reliefweb", FetchReliefweb "health education") ]
  ++ (if truthy_str (newsapi_key config)
      then [("newsapi",
             FetchNewsapi config
               "health OR education OR wellness OR community OR civic")]
      else [])
  ++ (if truthy_str (reddit_client_id config)
      then [("reddit",
             FetchReddit config "public health education community progress")]
      else []).

(** The life-expectancy normalisation of [score_wellness]: when the result
    has scores, they are replaced by the first one mapped from 50..85 years
    to [0, 1]. *)
Definition normalize_world_bank (wb_result : SourceResult) : SourceResult :=
  match scores wb_result with
  | [] => wb_result
  | raw_le :: _ =>
      {| name := name wb_result;
         texts := texts wb_result;
         scores := [clamp_unit ((raw_le - 50) / 35)%float];
         count := count wb_result;
         error := error wb_result |}
  end.

(** The [results] list of each method when it reaches [_blend]. *)
Definition peace_results (fetch : adapter_call -> outcome SourceResult)
    (config : Config) : outcome (list SourceResult) * list fetch_event :=
  let '(out, ev) := append_fetched fetch (peace_calls config) [] in
  (out, FetchingFrom "Peace" :: ev).

Definition charity_results (fetch : adapter_call -> outcome SourceResult)
    (config : Config) : outcome (list SourceResult) * list fetch_event :=
  let '(out, ev) := append_fetched fetch (charity_calls config) [] in
  (out, FetchingFrom "Charity" :: ev).

Definition social_results (fetch : adapter_call -> outcome SourceResult)
    (config : Config) : outcome (list SourceResult) * list fetch_event :=
  let '(out, ev) := append_fetched fetch (social_calls config) [] in
  (out, FetchingFrom "Social" :: ev).

Definition environment_results (fetch : adapter_call -> outcome SourceResult)
    (config : Config) : outcome (list SourceResult) * list fetch_event :=
  let '(out, ev) := append_fetched fetch (environment_calls config) [] in
  (out, FetchingFrom "Environment" :: ev).

Definition wellness_results (fetch : adapter_call -> outcome SourceResult)
    (config : Config) : outcome (list SourceResult) * list fetch_event :=
  match append_fetched fetch [("disease_sh", FetchDiseaseSh)] [] with
  | (Raises e, ev) => (Raises e, FetchingFrom "Wellness" :: ev)
  | (Returns results, ev) =>
      match _safe_fetch "world_bank" fetch (FetchWorldBank "SP.DYN.LE00.IN")
      with
      | (Raises e, logs) =>
          (Raises e,
           FetchingFrom "Wellness"
           :: ev ++ Invoked (FetchWorldBank "SP.DYN.LE00.IN")
                   :: map Warned logs)
      | (Returns wb_result, logs) =>
          let '(out, ev') :=
            append_fetched fetch (wellness_calls config)
              (results ++ [normalize_world_bank wb_result]) in
          (out,
           FetchingFrom "Wellness"
           :: ev ++ Invoked (FetchWorldBank "SP.DYN.LE00.IN")
                   :: map Warned logs ++ ev')
      end
  end.

(** [return self._blend(results, context)] *)
Definition blend_results (w : World) (config : Config) (context : string)
    (fetched : outcome (list SourceResult) * list fetch_event)
  : outcome (Z * gmap string (gmap string meta_val)) * list fetch_event :=
  match fetched with
  | (Returns results, ev) => (_blend w config results context, ev)
  | (Raises e, ev) => (Raises e, ev)
  end.

(** The five methods of [SubindexAggregator]. *)
Definition SubindexAggregator_score_peace (w : World)
    (fetch : adapter_call -> outcome SourceResult) (config : Config) :=
  blend_results w config "global peace and conflict"
    (peace_results fetch config).

Definition SubindexAggregator_score_charity (w : World)
    (fetch : adapter_call -> outcome SourceResult) (config : Config) :=
  blend_results w config "charitable giving and donations"
    (charity_results fetch config).

Definition SubindexAggregator_score_social (w : World)
    (fetch : adapter_call -> outcome SourceResult) (config : Config) :=
  blend_results w config "social sentiment and public mood"
    (social_results fetch config).

Definition SubindexAggregator_score_environment (w : World)
    (fetch : adapter_call -> outcome SourceResult) (config : Config) :=
  blend_results w config
    "environmental care, climate, biodiversity, and pollinator health"
    (environment_results fetch config).

Definition SubindexAggregator_score_wellness (w : World)
    (fetch : adapter_call -> outcome SourceResult) (config : Config) :=
  blend_results w config "community wellness and public health"
    (wellness_results fetch config).

(** The adapter calls of a trace, in order. *)
Definition invoked (ev : list fetch_event) : list adapter_call :=
  flat_map (fun e => match e with Invoked c => [c] | _ => [] end) ev.

(** The key that gates an adapter call in the orchestrator: the adapters of
    tier 2 are called under [if self.config.<key>:]. *)
Definition gating_key (c : adapter_call) : option string :=
  match c with
  | FetchNewsapi config _ => Some (newsapi_key config)
  | FetchSerper config _ => Some (serper_api_key config)
  | FetchReddit config _ => Some (reddit_client_id config)
  | FetchYoutube config _ => Some (youtube_api_key config)
  | FetchTwitter config _ => Some (twitter_bearer_token config)
  | FetchAqicn config _ => Some (aqicn_token config)
  | _ => None
  end.

(** A result that brings nothing to the blender: its error is set, or it has
    neither texts nor scores. *)
Definition brings_nothing (r : SourceResult) : Prop :=
  error_set r = true \/ (texts r = [] /\ scores r = []).

(** An adapter call that fails: it raises, or returns such a result. *)
Definition adapter_fails (o : outcome SourceResult) : Prop :=
  match o with
  | Raises _ => True
  | Returns r => brings_nothing r
  end.

(** A configuration with a Reddit client id and no secret. *)
Definition reddit_id_only : Config :=
  {| rpc_url := "https://sepolia.base.org";
     oracle_address := "";
     reporter_private_key := "";
     newsapi_key := ""; twitter_bearer_token := ""; serper_api_key := "";
     reddit_client_id := "abc123"; reddit_client_secret := "";
     youtube_api_key := ""; aqicn_token := "";
     update_interval_hours := 6;
     use_local_llm := false;
     local_llm_endpoint := "http://localhost:8080/v1" |}.

(** Adapters that all time out. *)
Definition all_time_out (c : adapter_call) : outcome SourceResult :=
  Raises {| exc_kind := OtherException; exc_str := "read timed out" |}.

(** The five [results] lists and the five methods of a cycle, in the order
    [run_once] calls them. *)
Definition category_results (fetch : adapter_call -> outcome SourceResult)
    (config : Config)
  : list (outcome (list SourceResult) * list fetch_event) :=
  [ peace_results fetch config; charity_results fetch config;
    social_results fetch config; environment_results fetch config;
    wellness_results fetch config ].

Definition category_scores (w : World)
    (fetch : adapter_call -> outcome SourceResult) (config : Config)
  : list (outcome (Z * gmap string (gmap string meta_val))
          * list fetch_event) :=
  [ SubindexAggregator_score_peace w fetch config;
    SubindexAggregator_score_charity w fetch config;
    SubindexAggregator_score_social w fetch config;
    SubindexAggregator_score_environment w fetch config;
    SubindexAggregator_score_wellness w fetch config ].

(** What reaches the blender in each category: one result per adapter
    invoked, and nothing but failures when every adapter fails. *)
Definition results_ok (fetch : adapter_call -> outcome SourceResult)
    (fetched : outcome (list SourceResult) * list fetch_event)
    (calls : list adapter_call) : Prop :=
  exists results,
    fetched.1 = Returns results
    /\ invoked fetched.2 = calls
    /\ length results = length calls
    /\ ((forall c, adapter_fails (fetch c)) -> Forall brings_nothing results).

(** The adapters each method invokes. *)
Definition category_calls_of (config : Config) : list (list adapter_call) :=
  [ map snd (peace_calls config); map snd (charity_calls config);
    map snd (social_calls config); map snd (environment_calls config);
    FetchDiseaseSh :: FetchWorldBank "SP.DYN.LE00.IN"
    :: map snd (wellness_calls config) ].

(** An adapter call the configuration allows: the key that gates it is not
    empty. *)
Definition gated (c : adapter_call) : Prop :=
  match gating_key c with
  | Some key => key <> ""
  | None => True
  end.

(** The five aggregator results of a cycle, as [run_once] obtains them. *)
Definition aggregate (w : World) (fetch : adapter_call -> outcome SourceResult)
    (config : Config) : outcome Aggregator * list fetch_event :=
  match SubindexAggregator_score_peace w fetch config with
  | (Raises e, ev0) => (Raises e, ev0)
  | (Returns peace, ev0) =>
  match SubindexAggregator_score_charity w fetch config with
  | (Raises e, ev1) => (Raises e, (ev0 ++ ev1)%list)
  | (Returns charity, ev1) =>
  match SubindexAggregator_score_social w fetch config with
  | (Raises e, ev2) => (Raises e, (ev0 ++ ev1 ++ ev2)%list)
  | (Returns social, ev2) =>
  match SubindexAggregator_score_environment w fetch config with
  | (Raises e, ev3) => (Raises e, (ev0 ++ ev1 ++ ev2 ++ ev3)%list)
  | (Returns environment, ev3) =>
  match SubindexAggregator_score_wellness w fetch config with
  | (Raises e, ev4) => (Raises e, (ev0 ++ ev1 ++ ev2 ++ ev3 ++ ev4)%list)
  | (Returns wellness, ev4) =>
      (Returns {| score_peace := peace;
                  score_charity := charity;
                  score_social := social;
                  score_environment := environment;
                  score_wellness := wellness |},
       (ev0 ++ ev1 ++ ev2 ++ ev3 ++ ev4)%list)
  end end end end end.

(** One cycle from the adapters to the report: [run_once] on the results of
    its five calls to the aggregator.  The events of the orchestrator and the
    events of [run_once] are kept apart. *)
Definition run_cycle (w : World) (fetch : adapter_call -> outcome SourceResult)
    (config : Config) (dry_run : bool)
  : outcome Report * list fetch_event * list event :=
  match aggregate w fetch config with
  | (Raises e, ev) => (Raises e, ev, [])
  | (Returns agg, ev) =>
      let '(out, t) := run_once w config agg dry_run in (out, ev, t)
  end.

(** ** The GDELT rate gate

    [time.time()] reads a wall clock that only moves forward; the clock and
    the module variable [_gdelt_last_call] are the state.  How long things
    take is given from outside: the time that passes between the two clock
    readings of a call besides the sleep, how much longer than asked
    [time.sleep] lasts, and how long the fetch takes. *)

Record gate_state := mkGate {
  _gdelt_last_call : Q;   (* epoch timestamp of last GDELT API call *)
  wall_clock : Q
}.

Record gate_timing := mkTiming {
  lag : Q;
  sleep_overrun : Q;
  fetch_duration : Q
}.

Definition _GDELT_MIN_INTERVAL : Q := 6.

Inductive gate_event :=
| GateWaiting (wait : Q)     (* "    [gdelt] Rate limit: waiting {wait:.1f}s..." *)
| GateSleep (wait : Q)       (* time.sleep(wait) *)
| GateFetch (query : string) (max_results : Z) (started : Q).

(** [_rate_limited_gdelt(query, max_results)]: the outcome of [fetch_gdelt],
    the state it leaves and what it did. *)
Definition _rate_limited_gdelt
    (fetch_gdelt : string -> Z -> outcome SourceResult) (tm : gate_timing)
    (query : string) (max_results : Z) (st : gate_state)
  : outcome SourceResult * gate_state * list gate_event :=
  let elapsed := (wall_clock st - _gdelt_last_call st)%Q in
  let '(now, waited) :=
    if Qlt_le_dec elapsed _GDELT_MIN_INTERVAL then
      let wait := (_GDELT_MIN_INTERVAL - elapsed)%Q in
      ((wall_clock st + lag tm + wait + sleep_overrun tm)%Q,
       [GateWaiting wait; GateSleep wait])
    else ((wall_clock st + lag tm)%Q, []) in
  (fetch_gdelt query max_results,
   {| _gdelt_last_call := now;
      wall_clock := (now + fetch_duration tm)%Q |},
   (waited ++ [GateFetch query max_results now])%list).

(** Time does not run backwards and a sleep does not end early. *)
Definition timing_ok (tm : gate_timing) : Prop :=
  (0 <= lag tm)%Q /\ (0 <= sleep_overrun tm)%Q /\ (0 <= fetch_duration tm)%Q.

(** A run of calls through the gate, each after an idle time: the instants
    at which the fetches start. *)
Fixpoint gate_run (fetch_gdelt : string -> Z -> outcome SourceResult)
    (calls : list (Q * gate_timing * string)) (st : gate_state) : list Q :=
  match calls with
  | [] => []
  | (idle, tm, query) :: calls' =>
      let st1 := {| _gdelt_last_call := _gdelt_last_call st;
                    wall_clock := (wall_clock st + idle)%Q |} in
      let '(_, st2, _) := _rate_limited_gdelt fetch_gdelt tm query 25 st1 in
      _gdelt_last_call st2 :: gate_run fetch_gdelt calls' st2
  end.

(** Each instant of [l] comes at least 6 seconds after the one before it,
    the first one after [prev]. *)
Fixpoint spaced_from (prev : Q) (l : list Q) : Prop :=
  match l with
  | [] => True
  | x :: l' => (prev + 6 <= x)%Q /\ spaced_from x l'
  end.

(** The sleeps of a call. *)
Definition gate_sleeps (ev : list gate_event) : list Q :=
  flat_map (fun e => match e with GateSleep d => [d] | _ => [] end) ev.

(** The sleeps asked for during a run of calls through the gate. *)
Fixpoint gate_run_sleeps (fetch_gdelt : string -> Z -> outcome SourceResult)
    (calls : list (Q * gate_timing * string)) (st : gate_state) : list Q :=
  match calls with
  | [] => []
  | (idle, tm, query) :: calls' =>
      let st1 := {| _gdelt_last_call := _gdelt_last_call st;
                    wall_clock := (wall_clock st + idle)%Q |} in
      let '(_, st2, ev) := _rate_limited_gdelt fetch_gdelt tm query 25 st1 in
      (gate_sleeps ev ++ gate_run_sleeps fetch_gdelt calls' st2)%list
  end.

(** Sample timings: nothing takes any time but the fetch, 2 seconds. *)
Definition prompt_timing : gate_timing :=
  {| lag := 0; sleep_overrun := 0; fetch_duration := 2 |}.

(** A GDELT endpoint that answers with no article, three calls in a row and
    a state three seconds after the last call. *)
Definition no_articles (query : string) (max_results : Z)
  : outcome SourceResult :=
  Returns {| name := "gdelt"; texts := []; scores := []; count := 0;
             error := None |}.

Definition three_calls : list (Q * gate_timing * string) :=
  [ (0%Q, prompt_timing, "peace OR conflict OR war OR treaty");
    (1%Q, prompt_timing, "charity OR donation OR humanitarian");
    (30%Q, prompt_timing, "community society wellbeing people") ].

Definition three_seconds_later : gate_state :=
  {| _gdelt_last_call := 100; wall_clock := 103 |}.

(** ** The entry point *)

(** [os.getenv(key, default)] on the process environment. *)
Definition getenv (env : gmap string string) (key default : string) : string :=
  match env !! key with
  | Some v => v
  | None => default
  end.

(** [Config.from_env]. *)
Definition from_env (env : gmap string string) : Config :=
  {| rpc_url := getenv env "ORACLE_RPC_URL" "https://sepolia.base.org";
     oracle_address := getenv env "ORACLE_ADDRESS" "";
     reporter_private_key := getenv env "ORACLE_REPORTER_KEY" "";
     newsapi_key := getenv env "NEWSAPI_KEY" "";
     twitter_bearer_token := getenv env "TWITTER_BEARER_TOKEN" "";
     serper_api_key := getenv env "SERPER_API_KEY" "";
     reddit_client_id := getenv env "REDDIT_CLIENT_ID" "";
     reddit_client_secret := getenv env "REDDIT_CLIENT_SECRET" "";
     youtube_api_key := getenv env "YOUTUBE_API_KEY" "";
     aqicn_token := getenv env "AQICN_TOKEN" "";
     update_interval_hours := 6;
     use_local_llm :=
       String.eqb (str_lower (getenv env "USE_LOCAL_LLM" "false")) "true";
     local_llm_endpoint :=
       getenv env "LOCAL_LLM_ENDPOINT" "http://localhost:8080/v1" |}.

(** What the driver does around the cycles. *)
Inductive driver_event :=
| WarnNoOracleAddress
    (* warning "ORACLE_ADDRESS not set — running in dry-run mode" *)
| InCycle (e : event)
    (* an event of run_once *)
| DaemonStart (hours : Z)
    (* "Starting daemon mode (interval: {h}h)" *)
| CycleFailed (msg : string)
    (* error "Pipeline cycle failed: {e}" *)
| CycleTraceback
    (* traceback.print_exc() *)
| Sleeping (hours : Z)
    (* "Sleeping {h}h..." *)
| Sleep (seconds : Z)
    (* time.sleep(sleep_sec) *)
| PrintReport (r : Report).
    (* print(json.dumps(result, indent=2)) *)

(** One turn of the [while True] loop of [run_daemon] around a cycle. *)
Definition daemon_iteration (config : Config) (cycle : M Report)
  : list driver_event :=
  (match cycle with
   | (Returns _, t) => map InCycle t
   | (Raises e, t) =>
       map InCycle t ++ [CycleFailed (exc_str e); CycleTraceback]
   end
   ++ [ Sleeping (update_interval_hours config);
        Sleep (update_interval_hours config * 3600) ])%list.

(** The first [n] turns of the loop, from turn [i]. *)
Fixpoint daemon_iterations (n : nat) (config : Config)
    (cycles : nat -> M Report) (i : nat) : list driver_event :=
  match n with
  | O => []
  | S n' =>
      (daemon_iteration config (cycles i)
       ++ daemon_iterations n' config cycles (S i))%list
  end.

(** [SentimentPipeline.run_daemon], up to the end of its [n]-th turn.  The
    world and the aggregator results of each turn are given. *)
Definition run_daemon (n : nat) (w : nat -> World) (config : Config)
    (agg : nat -> Aggregator) (dry_run : bool) : list driver_event :=
  DaemonStart (update_interval_hours config)
  :: daemon_iterations n config
       (fun i => run_once (w i) config (agg i) dry_run) 0.

(** [main], with the daemon followed for [n] turns.  The result is [None]
    while the daemon runs (it has no way out of its loop), and otherwise how
    [main] ends. *)
Definition main (n : nat) (env : gmap string string) (argv : list string)
    (w : nat -> World) (agg : nat -> Aggregator)
  : option (outcome unit) * list driver_event :=
  let config := from_env env in
  let warning :=
    if truthy_str (oracle_address config) then []
    else [WarnNoOracleAddress] in
  let dry_run := bool_decide ("--dry-run" ∈ argv) in
  if bool_decide ("--daemon" ∈ argv) then
    (None, (warning ++ run_daemon n w config agg dry_run)%list)
  else
    match run_once (w O) config (agg O) dry_run with
    | (Returns result, t) =>
        (Some (Returns tt),
         (warning ++ map InCycle t ++ [PrintReport result])%list)
    | (Raises e, t) => (Some (Raises e), (warning ++ map InCycle t)%list)
    end.

(** The chain-client calls and the sleeps of a driver trace. *)
Definition driver_chain_calls (t : list driver_event) : list chain_call :=
  flat_map (fun e => match e with
                     | InCycle (Call c) => [c]
                     | _ => []
                     end) t.

Definition driver_sleeps (t : list driver_event) : list Z :=
  flat_map (fun e => match e with Sleep s => [s] | _ => [] end) t.

Definition driver_reports (t : list driver_event) : list Report :=
  flat_map (fun e => match e with PrintReport r => [r] | _ => [] end) t.


(** The sources that need a key, in the order [available_sources] tests
    them. *)
Definition tier2_sources : list string :=
  [ "newsapi"; "twitter"; "serper"; "reddit"; "youtube"; "aqicn" ].

(** The sources that need no key, as [available_sources] lists them. *)
Definition tier1_sources : list string :=
  [ "gdelt"; "open_meteo"; "carbon_intensity"; "hedonometer";
    "disease_sh"; "world_bank"; "reliefweb";
    "gbif_bees"; "inaturalist_bees"; "faostat_bees";
    "global_forest_watch";
    "who_gho"; "un_sdg" ].

(** ** Theorems *)

(** A closed equation between values with decidable equality, settled by
    evaluation. *)
Ltac evaluated := apply (bool_decide_unpack _); vm_compute; exact I.

(** *** SourceResult *)

Lemma truthy_list_or_nil {A : Type} (o : option (list A)) :
  match o with
  | Some l => if truthy_list l then l else []
  | None => []
  end = default [] o.
Proof. destruct o as [[|x l]|]; reflexivity. Qed.

(** C9 (as stated, refuted): an explicitly supplied non-negative override is
    not always the value of [count]: the override 0 given with one text yields
    the count 1. *)
Lemma count_override_zero_ignored :
  count (SourceResult__init__ "twitter" (Some ["hope"]) None (Some 0) None) = 1
  /\ ~ (forall nm ts ss (c : Z) e, 0 <= c ->
          count (SourceResult__init__ nm ts ss (Some c) e) = c).
Proof.
  split; [reflexivity|].
  intros H.
  specialize (H "twitter" (Some ["hope"]) None 0 None).
  vm_compute in H. specialize (H ltac:(discriminate)). discriminate.
Qed.

(** C9 (amended): [count] is [len(texts) + len(scores)] when the argument is
    left out or is 0, and is the supplied value whenever that value is not
    0. *)
Theorem SourceResult_count (nm : string) (ts : option (list string))
    (ss : option (list float)) (e : option string) :
  count (SourceResult__init__ nm ts ss None e)
    = len (default [] ts) + len (default [] ss)
  /\ count (SourceResult__init__ nm ts ss (Some 0) e)
    = len (default [] ts) + len (default [] ss)
  /\ (forall c : Z, c <> 0 ->
        count (SourceResult__init__ nm ts ss (Some c) e) = c).
Proof.
  unfold SourceResult__init__; cbn [count].
  rewrite !truthy_list_or_nil.
  repeat split; try reflexivity.
  intros c Hc. destruct (Z.eqb_spec c 0); [contradiction | reflexivity].
Qed.

Lemma SourceResult_count_witness :
  count (SourceResult__init__ "inaturalist_bees"
           (Some ["Bee observations"; "Species recorded"])
           (Some [0.5%float]) (Some 1) None) = 1.
Proof.
  apply (proj2 (proj2 (SourceResult_count "inaturalist_bees"
           (Some ["Bee observations"; "Species recorded"])
           (Some [0.5%float]) None)) 1).
  lia.
Defined.

(** *** The isolation wrapper *)

(** C3: whatever the adapter and its arguments, [_safe_fetch] returns; and
    when the adapter raises, the value returned carries the source name, the
    text of the exception as [error], and neither texts nor scores. *)
Theorem safe_fetch_isolates {Args : Type} (nm : string)
    (fn : Args -> outcome SourceResult) (args : Args) :
  (exists r, fst (_safe_fetch nm fn args) = Returns r)
  /\ (forall e, fn args = Raises e ->
        fst (_safe_fetch nm fn args)
          = Returns {| name := nm; texts := []; scores := []; count := 0;
                       error := Some (exc_str e) |}).
Proof.
  unfold _safe_fetch. split.
  - destruct (fn args) as [r|e]; eexists; reflexivity.
  - intros e ->. reflexivity.
Qed.

Lemma safe_fetch_isolates_witness :
  fst (_safe_fetch "gdelt"
         (fun _ : string =>
            Raises {| exc_kind := OtherException;
                      exc_str := "HTTPSConnectionPool: read timed out" |})
         "peace OR conflict OR war OR treaty")
  = Returns {| name := "gdelt"; texts := []; scores := []; count := 0;
               error := Some "HTTPSConnectionPool: read timed out" |}.
Proof.
  apply (proj2 (safe_fetch_isolates "gdelt"
           (fun _ : string =>
              Raises {| exc_kind := OtherException;
                        exc_str := "HTTPSConnectionPool: read timed out" |})
           "peace OR conflict OR war OR treaty")
         {| exc_kind := OtherException;
            exc_str := "HTTPSConnectionPool: read timed out" |}).
  reflexivity.
Defined.

(** *** The lexicon scorer *)

(** The counters only ever grow by what one word adds. *)
Lemma count_word_add (acc : Z * Z) (w : string) :
  count_word acc w
  = (acc.1 + (count_word (0, 0) w).1, acc.2 + (count_word (0, 0) w).2).
Proof.
  destruct acc as [p n]. unfold count_word.
  repeat case_bool_decide; cbn [fst snd]; f_equal; lia.
Qed.

Lemma fold_count_word_add (ws : list string) (acc : Z * Z) :
  fold_left count_word ws acc
  = (acc.1 + (fold_left count_word ws (0, 0)).1,
     acc.2 + (fold_left count_word ws (0, 0)).2).
Proof.
  revert acc. induction ws as [|w ws IH]; intros acc; cbn [fold_left].
  - destruct acc; cbn [fst snd]; f_equal; lia.
  - rewrite IH. rewrite (IH (count_word (0, 0) w)).
    rewrite (count_word_add acc w). cbn [fst snd]. f_equal; lia.
Qed.

Lemma count_text_add (acc : Z * Z) (t : string) :
  count_text acc t
  = (acc.1 + (count_text (0, 0) t).1, acc.2 + (count_text (0, 0) t).2).
Proof. unfold count_text. apply fold_count_word_add. Qed.

Lemma count_text_swap (acc : Z * Z) (t1 t2 : string) :
  count_text (count_text acc t1) t2 = count_text (count_text acc t2) t1.
Proof.
  rewrite (count_text_add (count_text acc t1) t2).
  rewrite (count_text_add (count_text acc t2) t1).
  rewrite (count_text_add acc t1), (count_text_add acc t2).
  cbn [fst snd]. f_equal; lia.
Qed.

Lemma fold_count_text_perm (l l' : list string) :
  Permutation l l' ->
  forall acc, fold_left count_text l acc = fold_left count_text l' acc.
Proof.
  induction 1 as [|x l l' _ IH|x y l|l l' l'' _ IH1 _ IH2]; intros acc;
    cbn [fold_left].
  - reflexivity.
  - apply IH.
  - now rewrite count_text_swap.
  - now rewrite IH1.
Qed.

(** C8: the keyword scorer gives the same value on every permutation of its
    input, the identical list included. *)
Theorem analyze_keyword_order_independent (l l' : list string) :
  Permutation l l' -> _analyze_keyword l = _analyze_keyword l'.
Proof.
  intros Hp. unfold _analyze_keyword.
  now rewrite (fold_count_text_perm l l' Hp).
Qed.

Lemma analyze_keyword_order_independent_witness :
  _analyze_keyword ["Peace treaty signed!"; "war and famine"; "hope"]
  = _analyze_keyword ["hope"; "Peace treaty signed!"; "war and famine"].
Proof.
  apply (analyze_keyword_order_independent
           ["Peace treaty signed!"; "war and famine"; "hope"]
           ["hope"; "Peace treaty signed!"; "war and famine"]).
  apply Permutation_sym.
  apply (Permutation_cons_app ["Peace treaty signed!"; "war and famine"] []).
  apply Permutation_refl.
Defined.

(** *** The blender *)

Lemma blend_step_texts (st : blend_state) (r : SourceResult) :
  all_texts (blend_step st r)
  = (all_texts st ++ (if error_set r then [] else texts r))%list.
Proof.
  unfold blend_step, error_set.
  destruct (truthy_opt_str (error r)); cbn [all_texts].
  - now rewrite app_nil_r.
  - destruct (texts r) as [|t ts]; destruct (scores r) as [|x xs];
      cbn [truthy_list all_texts]; now rewrite ?app_nil_r.
Qed.

Lemma blend_step_scores (st : blend_state) (r : SourceResult) :
  all_scores (blend_step st r)
  = (all_scores st ++ (if error_set r then [] else scores r))%list.
Proof.
  unfold blend_step, error_set.
  destruct (truthy_opt_str (error r)); cbn [all_scores].
  - now rewrite app_nil_r.
  - destruct (texts r) as [|t ts]; destruct (scores r) as [|x xs];
      cbn [truthy_list all_scores]; now rewrite ?app_nil_r.
Qed.

Lemma fold_blend_step_texts (rs : list SourceResult) (st : blend_state) :
  all_texts (fold_left blend_step rs st)
  = (all_texts st ++ collected_texts rs)%list.
Proof.
  revert st. unfold collected_texts.
  induction rs as [|r rs IH]; intros st; cbn [fold_left List.filter flat_map].
  - now rewrite app_nil_r.
  - rewrite IH, blend_step_texts.
    destruct (error_set r); cbn [negb flat_map].
    + now rewrite app_nil_r.
    + now rewrite app_assoc.
Qed.

Lemma fold_blend_step_scores (rs : list SourceResult) (st : blend_state) :
  all_scores (fold_left blend_step rs st)
  = (all_scores st ++ collected_scores rs)%list.
Proof.
  revert st. unfold collected_scores.
  induction rs as [|r rs IH]; intros st; cbn [fold_left List.filter flat_map].
  - now rewrite app_nil_r.
  - rewrite IH, blend_step_scores.
    destruct (error_set r); cbn [negb flat_map].
    + now rewrite app_nil_r.
    + now rewrite app_assoc.
Qed.

Lemma blend_loop_texts (rs : list SourceResult) :
  all_texts (blend_loop rs) = collected_texts rs.
Proof. unfold blend_loop. now rewrite fold_blend_step_texts. Qed.

Lemma blend_loop_scores (rs : list SourceResult) :
  all_scores (blend_loop rs) = collected_scores rs.
Proof. unfold blend_loop. now rewrite fold_blend_step_scores. Qed.

(** The score of [_blend] is determined by the collected texts and scores. *)
Lemma blend_score_collected (w : World) (config : Config)
    (rs : list SourceResult) (context : string) :
  blend_score (_blend w config rs context)
  = py_int (blended_of w config context
              {| all_texts := collected_texts rs;
                 all_scores := collected_scores rs;
                 source_meta := ∅ |} * 1000).
Proof.
  unfold _blend, blended_of; cbn [all_texts all_scores].
  rewrite blend_loop_texts, blend_loop_scores.
  destruct (py_int _); reflexivity.
Qed.

(** What [_blend] returns, when it returns: the score, and the record the
    loop has built. *)
Lemma blend_Returns (w : World) (config : Config) (rs : list SourceResult)
    (context : string) (s : Z) (m : gmap string (gmap string meta_val)) :
  _blend w config rs context = Returns (s, m) ->
  blend_score (_blend w config rs context) = Returns s
  /\ m = source_meta (blend_loop rs).
Proof.
  intros H. rewrite H. split; [reflexivity|].
  unfold _blend in H. destruct (py_int _); [|discriminate].
  now injection H as _ <-.
Qed.

Lemma blend_score_Returns (w : World) (config : Config)
    (rs : list SourceResult) (context : string) (s : Z) :
  blend_score (_blend w config rs context) = Returns s ->
  _blend w config rs context = Returns (s, source_meta (blend_loop rs)).
Proof.
  unfold _blend. destruct (py_int _); cbn [blend_score]; congruence.
Qed.

Lemma blend_score_Raises (w : World) (config : Config)
    (rs : list SourceResult) (context : string) (e : PyException) :
  blend_score (_blend w config rs context) = Raises e ->
  _blend w config rs context = Raises e.
Proof.
  destruct (_blend w config rs context) as [[s m]|e']; cbn [blend_score];
    congruence.
Qed.

(** Truncation of a rational, through the floor. *)
Lemma Q_trunc_nonneg (x : Q) : (0 <= x)%Q -> Q_trunc x = Qfloor x.
Proof.
  destruct x as [n d]. unfold Qle, Q_trunc, Qfloor; cbn [Qnum Qden].
  intros H. apply Z.quot_div_nonneg; lia.
Qed.

Lemma Q_trunc_opp (x : Q) : Q_trunc (- x) = - Q_trunc x.
Proof.
  destruct x as [n d]. unfold Q_trunc, Qopp; cbn [Qnum Qden].
  apply Z.quot_opp_l. discriminate.
Qed.

Lemma Qfloor_bounds (x : Q) :
  (inject_Z (Qfloor x) <= x)%Q /\ (x < inject_Z (Qfloor x) + 1)%Q.
Proof.
  split; [apply Qfloor_le|].
  change 1%Q with (inject_Z 1). rewrite <- inject_Z_plus. apply Qlt_floor.
Qed.

(** [Q_trunc] is the truncation toward zero. *)
Lemma Q_trunc_truncation (q : Q) : truncation_of q (Q_trunc q).
Proof.
  split.
  - intros H. rewrite (Q_trunc_nonneg q H). apply Qfloor_bounds.
  - intros H.
    assert (H' : (0 <= - q)%Q) by lra.
    pose proof (Q_trunc_opp q) as Ho. rewrite (Q_trunc_nonneg _ H') in Ho.
    replace (Q_trunc q) with (- Qfloor (- q)) by lia. rewrite inject_Z_opp.
    destruct (Qfloor_bounds (- q)) as [H1 H2]. split; lra.
Qed.

(** [int] of a float that stands for a number is the truncation of the
    number; on the other floats it raises. *)
Lemma py_int_finite (x : float) (q : Q) :
  float_value x = Some q -> py_int x = Returns (Q_trunc q).
Proof. unfold py_int. now intros ->. Qed.

Lemma py_int_not_finite (x : float) :
  float_value x = None -> py_int x = not_finite_error x.
Proof. unfold py_int. now intros ->. Qed.

(** The loop and the specification's steps 1 to 4 agree on [blended]. *)
Lemma blended_of_spec (w : World) (config : Config) (context : string)
    (rs : list SourceResult) :
  blended_of w config context
    {| all_texts := collected_texts rs;
       all_scores := collected_scores rs;
       source_meta := ∅ |}
  = spec_blended w config context rs.
Proof.
  unfold blended_of, spec_blended, mean; cbn [all_texts all_scores].
  destruct (collected_texts rs) as [|t ts];
    destruct (collected_scores rs) as [|x xs]; reflexivity.
Qed.

Lemma collected_texts_nil (rs : list SourceResult) :
  (forall r, In r rs -> error_set r = true \/ texts r = []) ->
  collected_texts rs = [].
Proof.
  unfold collected_texts.
  induction rs as [|r rs IH]; intros H; cbn [List.filter flat_map].
  - reflexivity.
  - assert (IH' := IH (fun r' Hr' => H r' (or_intror Hr'))).
    destruct (H r (or_introl eq_refl)) as [He|Ht].
    + rewrite He. exact IH'.
    + destruct (error_set r); cbn [negb flat_map]; [exact IH'|].
      now rewrite Ht, IH'.
Qed.

Lemma collected_scores_nil (rs : list SourceResult) :
  (forall r, In r rs -> error_set r = true \/ scores r = []) ->
  collected_scores rs = [].
Proof.
  unfold collected_scores.
  induction rs as [|r rs IH]; intros H; cbn [List.filter flat_map].
  - reflexivity.
  - assert (IH' := IH (fun r' Hr' => H r' (or_intror Hr'))).
    destruct (H r (or_introl eq_refl)) as [He|Ht].
    + rewrite He. exact IH'.
    + destruct (error_set r); cbn [negb flat_map]; [exact IH'|].
      now rewrite Ht, IH'.
Qed.

(** Members without data add nothing to the collected lists. *)
Lemma collected_data_bearing (rs : list SourceResult) :
  collected_texts (List.filter data_bearing rs) = collected_texts rs
  /\ collected_scores (List.filter data_bearing rs) = collected_scores rs.
Proof.
  unfold collected_texts, collected_scores, data_bearing, has_data.
  induction rs as [|r rs [IHt IHs]]; cbn [List.filter flat_map]; [easy|].
  destruct (error_set r) eqn:He; cbn [negb andb]; [easy|].
  destruct (texts r) as [|t ts] eqn:Ht; destruct (scores r) as [|x xs] eqn:Hs;
    cbn [truthy_list orb List.filter flat_map app];
    rewrite ?He; cbn [negb flat_map]; rewrite ?Ht, ?Hs, ?IHt, ?IHs; easy.
Qed.

(** C4: when every member has its error set or carries neither texts nor
    scores, [_blend] returns, and the score is exactly 500. *)
Theorem blend_neutral_500 (w : World) (config : Config) (context : string)
    (rs : list SourceResult) :
  (forall r, In r rs ->
     error_set r = true \/ (texts r = [] /\ scores r = [])) ->
  blend_score (_blend w config rs context) = Returns 500.
Proof.
  intros H. rewrite blend_score_collected.
  rewrite collected_texts_nil, collected_scores_nil.
  - reflexivity.
  - intros r Hr. destruct (H r Hr) as [He|[_ Hs]]; auto.
  - intros r Hr. destruct (H r Hr) as [He|[Ht _]]; auto.
Qed.

Lemma blend_neutral_500_witness :
  blend_score
    (_blend quiet_world plain_config
       [ {| name := "gdelt"; texts := []; scores := []; count := 0;
            error := Some "HTTP 429: rate limited" |};
         {| name := "reliefweb"; texts := []; scores := []; count := 0;
            error := None |} ]
       "global peace and conflict") = Returns 500.
Proof.
  apply blend_neutral_500.
  intros r [<-|[<-|[]]]; [left | right]; vm_compute; auto.
Defined.

(** *** The clamp of a float *)

Lemma ltb_leb (x y : float) :
  PrimFloat.ltb x y = true -> PrimFloat.leb x y = true.
Proof.
  rewrite ltb_spec, leb_spec. unfold SFltb, SFleb.
  destruct (SFcompare _ _) as [[]|]; congruence.
Qed.

(** [max(0.0, min(1.0, x))] lies within [0, 1] for every float, nan (which
    gives 1.0) and the infinities included. *)
Lemma clamp_unit_range (x : float) : in_unit (clamp_unit x).
Proof.
  unfold clamp_unit, py_max, py_min, in_unit.
  destruct (PrimFloat.ltb x 1) eqn:H1.
  - destruct (PrimFloat.ltb 0 x) eqn:H0.
    + split; apply ltb_leb; assumption.
    + split; reflexivity.
  - split; reflexivity.
Qed.

(** *** The score is truncated, not rounded *)

(** C1 (as stated, refuted): the score is not [round(blended * 1000)] clamped
    to [0, 1000].  One source with the single score 0.09375 gives
    [blended * 1000 = 93.75], without any rounding in binary64; [_blend]
    returns 93, the rounding gives 94. *)
Lemma blend_score_not_rounded :
  (blend_score
     (_blend quiet_world plain_config
        [ {| name := "hedonometer"; texts := [];
             scores := [0.09375%float]; count := 1; error := None |} ]
        "social sentiment and public mood") = Returns 93
   /\ spec_score quiet_world plain_config "social sentiment and public mood"
        [ {| name := "hedonometer"; texts := [];
             scores := [0.09375%float]; count := 1; error := None |} ]
      = Returns 94)
  /\ ~ (forall w config context rs,
          blend_score (_blend w config rs context)
          = spec_score w config context rs).
Proof.
  split; [split; vm_compute; reflexivity|].
  intros H.
  specialize (H quiet_world plain_config "social sentiment and public mood"
                [ {| name := "hedonometer"; texts := [];
                     scores := [0.09375%float]; count := 1; error := None |} ]).
  vm_compute in H. discriminate.
Qed.

(** C1 (amended): the score is [int(blended * 1000)] on binary64 floats,
    with [blended] as steps 1 to 4 define it and no clamp; for a result set
    that contributes scores and no texts it is [int] of 1000 times the mean
    of the collected scores.  When the product stands for a number [q] the
    blender returns [q] truncated toward zero; when it is nan or an infinity
    the blender raises. *)
Theorem blend_score_truncates (w : World) (config : Config) (context : string)
    (rs : list SourceResult) :
  blend_score (_blend w config rs context)
    = py_int (spec_blended w config context rs * 1000)
  /\ (collected_texts rs = [] -> collected_scores rs <> [] ->
        blend_score (_blend w config rs context)
          = py_int (mean w (collected_scores rs) * 1000))
  /\ (forall q,
        float_value (spec_blended w config context rs * 1000) = Some q ->
        exists z,
          _blend w config rs context
            = Returns (z, source_meta (blend_loop rs))
          /\ truncation_of q z)
  /\ (float_value (spec_blended w config context rs * 1000) = None ->
        exists e, _blend w config rs context = Raises e).
Proof.
  assert (Hs : blend_score (_blend w config rs context)
               = py_int (spec_blended w config context rs * 1000)).
  { rewrite blend_score_collected. now rewrite blended_of_spec. }
  split; [exact Hs|]. split; [|split].
  - intros Ht Hne. rewrite Hs. unfold spec_blended. rewrite Ht.
    destruct (collected_scores rs); [contradiction | reflexivity].
  - intros q Hq. exists (Q_trunc q). split.
    + apply blend_score_Returns. rewrite Hs. now apply py_int_finite.
    + apply Q_trunc_truncation.
  - intros Hq. eexists. apply blend_score_Raises. rewrite Hs.
    now apply py_int_not_finite.
Qed.

Lemma blend_score_truncates_witness :
  blend_score
    (_blend quiet_world plain_config
       [ {| name := "open_meteo_aqi"; texts := [];
            scores := [0.75%float; 0.5%float]; count := 2; error := None |};
         {| name := "uk_carbon"; texts := []; scores := [0.09375%float];
            count := 1; error := None |} ]
       "environmental care")
  = py_int (mean quiet_world [0.75%float; 0.5%float; 0.09375%float] * 1000)
  /\ exists q z,
       float_value
         (spec_blended quiet_world plain_config "environmental care"
            [ {| name := "open_meteo_aqi"; texts := [];
                 scores := [0.75%float; 0.5%float]; count := 2;
                 error := None |};
              {| name := "uk_carbon"; texts := []; scores := [0.09375%float];
                 count := 1; error := None |} ] * 1000) = Some q
       /\ blend_score
            (_blend quiet_world plain_config
               [ {| name := "open_meteo_aqi"; texts := [];
                    scores := [0.75%float; 0.5%float]; count := 2;
                    error := None |};
                 {| name := "uk_carbon"; texts := [];
                    scores := [0.09375%float]; count := 1; error := None |} ]
               "environmental care") = Returns z
       /\ truncation_of q z.
Proof.
  pose proof (blend_score_truncates quiet_world plain_config
                "environmental care"
                [ {| name := "open_meteo_aqi"; texts := [];
                     scores := [0.75%float; 0.5%float]; count := 2;
                     error := None |};
                  {| name := "uk_carbon"; texts := [];
                     scores := [0.09375%float]; count := 1;
                     error := None |} ])
    as (_ & Hmean & Hfin & _).
  split.
  - apply Hmean; [reflexivity | discriminate].
  - match goal with
    | |- exists q z, float_value ?x = Some q /\ _ =>
        assert (Hq : exists q, float_value x = Some q)
          by (vm_compute; eexists; reflexivity)
    end.
    destruct Hq as [q Hq]. destruct (Hfin q Hq) as (z & Hz & Ht).
    exists q, z. rewrite Hz. split; [exact Hq|]. split; [reflexivity|exact Ht].
Defined.

(** Two evaluations in which binary64 differs from the arithmetic of the
    rationals: three words out of four positive and the score 0.5 blend to
    649.99999999999989, hence 649, and the score 0.96 gives 960.0, hence
    960. *)
Example blend_score_binary64 :
  blend_score
    (_blend quiet_world plain_config
       [ {| name := "newsapi"; texts := ["peace hope love war"];
            scores := []; count := 1; error := None |};
         {| name := "hedonometer"; texts := []; scores := [0.5%float];
            count := 1; error := None |} ]
       "social sentiment and public mood") = Returns 649
  /\ blend_score
       (_blend quiet_world plain_config
          [ {| name := "uk_carbon"; texts := []; scores := [0.96%float];
               count := 1; error := None |} ]
          "environmental care") = Returns 960.
Proof. split; vm_compute; reflexivity. Qed.

(** Without a clamp a score above 1 leaves the range: 1.5 gives 1500. *)
Example blend_score_unclamped :
  blend_score
    (_blend quiet_world plain_config
       [ {| name := "world_bank_SP.DYN.LE00.IN"; texts := [];
            scores := [1.5%float]; count := 1; error := None |} ]
       "community wellness and public health") = Returns 1500.
Proof. vm_compute. reflexivity. Qed.

(** A score that is no number makes [int] raise: nan gives [ValueError]. *)
Example blend_raises_on_nan :
  _blend quiet_world plain_config
    [ {| name := "world_bank_SP.DYN.LE00.IN"; texts := [];
         scores := [nan]; count := 1; error := None |} ]
    "community wellness and public health"
  = Raises {| exc_kind := OtherException;
              exc_str := "cannot convert float NaN to integer" |}.
Proof. vm_compute. reflexivity. Qed.


(** C7: two inputs with the same members without error, in the same order,
    get the same score, whatever their error members are; and that score is
    the score of the data-bearing members alone. *)
Theorem blend_score_ignores_errors (w : World) (config : Config)
    (context : string) (rs1 rs2 : list SourceResult) :
  List.filter (fun r => negb (error_set r)) rs1
    = List.filter (fun r => negb (error_set r)) rs2 ->
  blend_score (_blend w config rs1 context)
    = blend_score (_blend w config rs2 context)
  /\ blend_score (_blend w config rs1 context)
     = blend_score (_blend w config (List.filter data_bearing rs1) context).
Proof.
  intros H. rewrite !blend_score_collected. split.
  - unfold collected_texts, collected_scores. now rewrite H.
  - destruct (collected_data_bearing rs1) as [-> ->]. reflexivity.
Qed.

Lemma blend_score_ignores_errors_witness :
  blend_score
    (_blend quiet_world plain_config
       [ {| name := "gdelt"; texts := []; scores := []; count := 0;
            error := Some "HTTP 429: rate limited" |};
         {| name := "hedonometer"; texts := []; scores := [0.75%float];
            count := 1; error := None |};
         {| name := "newsapi"; texts := ["hope and recovery"]; scores := [];
            count := 1; error := None |} ]
       "social sentiment and public mood")
  = blend_score
      (_blend quiet_world plain_config
         [ {| name := "hedonometer"; texts := []; scores := [0.75%float];
              count := 1; error := None |};
           {| name := "twitter"; texts := []; scores := []; count := 0;
              error := Some "connection reset" |};
           {| name := "newsapi"; texts := ["hope and recovery"]; scores := [];
              count := 1; error := None |};
           {| name := "gdelt"; texts := []; scores := []; count := 0;
              error := Some "Non-JSON response" |} ]
         "social sentiment and public mood").
Proof.
  apply (proj1 (blend_score_ignores_errors quiet_world plain_config
           "social sentiment and public mood"
           [ {| name := "gdelt"; texts := []; scores := []; count := 0;
                error := Some "HTTP 429: rate limited" |};
             {| name := "hedonometer"; texts := []; scores := [0.75%float];
                count := 1; error := None |};
             {| name := "newsapi"; texts := ["hope and recovery"];
                scores := []; count := 1; error := None |} ]
           [ {| name := "hedonometer"; texts := []; scores := [0.75%float];
                count := 1; error := None |};
             {| name := "twitter"; texts := []; scores := []; count := 0;
                error := Some "connection reset" |};
             {| name := "newsapi"; texts := ["hope and recovery"];
                scores := []; count := 1; error := None |};
             {| name := "gdelt"; texts := []; scores := []; count := 0;
                error := Some "Non-JSON response" |} ]
           eq_refl)).
Defined.

(** *** The provenance record *)

Lemma blend_step_meta_other (st : blend_state) (r : SourceResult) (nm : string) :
  nm <> name r ->
  source_meta (blend_step st r) !! nm = source_meta st !! nm.
Proof.
  intros Hne. unfold blend_step.
  destruct (truthy_opt_str (error r)); cbn [source_meta].
  - now rewrite lookup_insert_ne.
  - destruct (truthy_list (texts r)); destruct (truthy_list (scores r));
      cbn [source_meta]; rewrite ?lookup_insert_ne by congruence; reflexivity.
Qed.

Lemma fold_blend_step_meta_other (rs : list SourceResult) (st : blend_state)
    (nm : string) :
  Forall (fun r => name r <> nm) rs ->
  source_meta (fold_left blend_step rs st) !! nm = source_meta st !! nm.
Proof.
  intros H. revert st. induction H as [|r rs Hr _ IH]; intros st;
    cbn [fold_left]; [reflexivity|].
  rewrite IH. apply blend_step_meta_other. congruence.
Qed.

(** The entry of a source in the record [_blend] returns is the one left by
    the step on the last result that carries its name. *)
Lemma blend_meta_last (w : World) (config : Config) (context : string)
    (rs1 rs2 : list SourceResult) (r : SourceResult) (s : Z)
    (m : gmap string (gmap string meta_val)) :
  Forall (fun r' => name r' <> name r) rs2 ->
  _blend w config (rs1 ++ r :: rs2) context = Returns (s, m) ->
  m !! name r = source_meta (blend_step (blend_loop rs1) r) !! name r.
Proof.
  intros H Hm. apply blend_Returns in Hm as [_ ->]. unfold blend_loop.
  rewrite fold_left_app. cbn [fold_left].
  now rewrite fold_blend_step_meta_other.
Qed.






(** *** The effect monad *)

Lemma bind_Returns {A B : Type} (a : A) (t : list event) (f : A -> M B) :
  (Returns a, t) ≫= f = ((f a).1, (t ++ (f a).2)%list).
Proof. unfold mbind, M_bind, bind. destruct (f a); reflexivity. Qed.

Lemma bind_Raises {A B : Type} (e : PyException) (t : list event)
    (f : A -> M B) :
  (Raises e, t) ≫= f = (Raises e, t).
Proof. reflexivity. Qed.

Lemma emit_bind {B : Type} (r : log_record) (k : M B) :
  (emit r ;; k) = (k.1, Log r :: k.2).
Proof. unfold emit. rewrite bind_Returns. reflexivity. Qed.

Lemma snd_bind_cases {A B : Type} (m : M A) (f : A -> M B) :
  (m ≫= f).2 = m.2 \/ exists a, (m ≫= f).2 = (m.2 ++ (f a).2)%list.
Proof.
  destruct m as [[a|e] t].
  - right. exists a. rewrite bind_Returns. reflexivity.
  - left. reflexivity.
Qed.

(** *** Reading a trace: distribution over concatenation *)

Lemma chain_calls_app (t1 t2 : list event) :
  chain_calls (t1 ++ t2) = (chain_calls t1 ++ chain_calls t2)%list.
Proof. apply flat_map_app. Qed.

Lemma reported_submitted_app (t1 t2 : list event) :
  reported_submitted (t1 ++ t2)
  = (reported_submitted t1 ++ reported_submitted t2)%list.
Proof. apply flat_map_app. Qed.

Lemma chain_calls_map_Call (cs : list chain_call) :
  chain_calls (map Call cs) = cs.
Proof.
  induction cs as [|c cs IH]; [reflexivity|].
  cbn [map]. change (chain_calls (Call c :: map Call cs))
    with (c :: chain_calls (map Call cs)). now rewrite IH.
Qed.

Lemma reported_submitted_map_Call (cs : list chain_call) :
  reported_submitted (map Call cs) = [].
Proof. induction cs as [|c cs IH]; [reflexivity | exact IH]. Qed.

Lemma reported_unsent_skip_calls (cs : list chain_call) (t : list event) :
  reported_unsent (map Call cs ++ t) = reported_unsent t.
Proof. induction cs as [|c cs IH]; [reflexivity | exact IH]. Qed.

(** *** The submitter *)

Lemma sorted_keys_scores_of (s0 s1 s2 s3 s4 : Z) :
  sorted_keys (scores_of s0 s1 s2 s3 s4) = [0; 1; 2; 3; 4].
Proof. vm_compute. reflexivity. Qed.

Lemma sorted_items_scores_of (s0 s1 s2 s3 s4 : Z) :
  sorted_items (scores_of s0 s1 s2 s3 s4)
  = [(0, s0); (1, s1); (2, s2); (3, s3); (4, s4)].
Proof. vm_compute. reflexivity. Qed.

(** The five score lines, in the order of the category ids. *)
Lemma log_score_lines_scores_of (s0 s1 s2 s3 s4 : Z) :
  log_score_lines (scores_of s0 s1 s2 s3 s4)
  = (Returns tt,
     [ Log (LogScoreLine "Global Peace" s0);
       Log (LogScoreLine "Charitable Giving" s1);
       Log (LogScoreLine "Social Sentiment" s2);
       Log (LogScoreLine "Environmental Care" s3);
       Log (LogScoreLine "Community Wellness" s4) ]).
Proof.
  unfold log_score_lines. rewrite sorted_items_scores_of. reflexivity.
Qed.

Lemma scores_of_lookup (s0 s1 s2 s3 s4 : Z) :
  scores_of s0 s1 s2 s3 s4 !! 0 = Some s0
  /\ scores_of s0 s1 s2 s3 s4 !! 1 = Some s1
  /\ scores_of s0 s1 s2 s3 s4 !! 2 = Some s2
  /\ scores_of s0 s1 s2 s3 s4 !! 3 = Some s3
  /\ scores_of s0 s1 s2 s3 s4 !! 4 = Some s4.
Proof. repeat split; vm_compute; reflexivity. Qed.

Lemma call_ok (w : World) (c : chain_call) :
  chain_ok w c = true -> call w c = (Returns tt, [Call c]).
Proof. intros H. unfold call. now rewrite H. Qed.

Lemma call_fail (w : World) (c : chain_call) :
  chain_ok w c = false ->
  call w c = (Raises {| exc_kind := match c with
                                    | ImportWeb3 => ImportError
                                    | _ => OtherException
                                    end;
                        exc_str := chain_err w c |}, [Call c]).
Proof. intros H. unfold call. now rewrite H. Qed.

Lemma calls_ok (w : World) (cs : list chain_call) :
  forallb (chain_ok w) cs = true ->
  for_each cs (call w) = (Returns tt, map Call cs).
Proof.
  induction cs as [|c cs IH]; cbn [forallb for_each map]; [reflexivity|].
  intros [Hc Hcs]%andb_true_iff.
  rewrite (call_ok w c Hc), bind_Returns, (IH Hcs). reflexivity.
Qed.

Lemma calls_fail (w : World) (cs : list chain_call) :
  forallb (chain_ok w) cs = false ->
  exists e pre c post,
    cs = (pre ++ c :: post)%list
    /\ chain_ok w c = false
    /\ e = {| exc_kind := match c with
                          | ImportWeb3 => ImportError
                          | _ => OtherException
                          end;
              exc_str := chain_err w c |}
    /\ for_each cs (call w) = (Raises e, map Call (pre ++ [c])).
Proof.
  induction cs as [|c cs IH]; cbn [forallb for_each]; [discriminate|].
  destruct (chain_ok w c) eqn:Hc; cbn [andb]; intros H.
  - destruct (IH H) as (e & pre & c' & post & -> & Hc' & He & Hrun).
    exists e, (c :: pre), c', post. repeat split; auto.
    rewrite (call_ok w c Hc), bind_Returns, Hrun. reflexivity.
  - eexists _, [], c, cs. repeat split; auto.
    rewrite (call_fail w c Hc). reflexivity.
Qed.

Lemma submit_one_ok (w : World) (scores : gmap Z Z) (nonce id raw : Z)
    (nm : string) :
  (5 <=? id) = false ->
  scores !! id = Some raw ->
  py_index names id = ret nm ->
  category_ok w id (clamp_0_1000 raw) nonce = true ->
  submit_one w scores nonce id
  = (Returns (nonce + 1), confirmed_trace nm id (clamp_0_1000 raw) nonce).
Proof.
  intros Hid Hraw Hnm Hok. unfold submit_one, py_getitem.
  rewrite Hid, Hraw, Hnm. unfold category_ok, category_calls in Hok.
  cbn [forallb] in Hok.
  repeat (apply andb_true_iff in Hok as [?Hc Hok]).
  unfold call, emit, ret. cbn [mbind M_bind bind].
  repeat match goal with
         | H : chain_ok w _ = true |- _ => rewrite H; clear H
         end.
  reflexivity.
Qed.

Lemma submit_one_fail (w : World) (scores : gmap Z Z) (nonce id raw : Z)
    (nm : string) :
  (5 <=? id) = false ->
  scores !! id = Some raw ->
  py_index names id = ret nm ->
  category_ok w id (clamp_0_1000 raw) nonce = false ->
  exists e cs,
    submit_one w scores nonce id
    = (Raises e, Log (LogSubmitting nm (clamp_0_1000 raw)) :: map Call cs)
    /\ exc_kind e = OtherException
    /\ Forall (fun c => call_category c = Some id) cs.
Proof.
  intros Hid Hraw Hnm Hok. unfold submit_one, py_getitem.
  rewrite Hid, Hraw, Hnm. unfold category_ok, category_calls in Hok.
  cbn [forallb] in Hok. unfold call, emit, ret. cbn [mbind M_bind bind].
  set (score := clamp_0_1000 raw) in *.
  destruct (chain_ok w (UpdateSubIndex id score)).
  2: { eexists _, [UpdateSubIndex id score].
       repeat split; repeat constructor. }
  destruct (chain_ok w (GasPrice id)).
  2: { eexists _, [UpdateSubIndex id score; GasPrice id].
       repeat split; repeat constructor. }
  destruct (chain_ok w (BuildTransaction id score nonce)).
  2: { eexists _, [UpdateSubIndex id score; GasPrice id;
                   BuildTransaction id score nonce].
       repeat split; repeat constructor. }
  destruct (chain_ok w (SignTransaction id)).
  2: { eexists _, [UpdateSubIndex id score; GasPrice id;
                   BuildTransaction id score nonce; SignTransaction id].
       repeat split; repeat constructor. }
  destruct (chain_ok w (SendRawTransaction id)).
  2: { eexists _, [UpdateSubIndex id score; GasPrice id;
                   BuildTransaction id score nonce; SignTransaction id;
                   SendRawTransaction id].
       repeat split; repeat constructor. }
  destruct (chain_ok w (WaitForReceipt id 60)).
  2: { eexists _, (category_calls id score nonce).
       repeat split; repeat constructor. }
  discriminate.
Qed.

Lemma submit_live_eq (w : World) (config : Config) (scores : gmap Z Z) :
  forallb (chain_ok w) (setup_calls config) = true ->
  submit_live w config scores
  = ((submit_loop w scores (transaction_count w) (sorted_keys scores)).1,
     (map Call (setup_calls config)
      ++ (submit_loop w scores (transaction_count w) (sorted_keys scores)).2)%list).
Proof.
  intros H. unfold submit_live, setup_calls in *. cbn [forallb] in H.
  repeat (apply andb_true_iff in H as [?Hc H]).
  rewrite !call_ok by assumption.
  destruct (submit_loop _ _ _ _) as [r t]. reflexivity.
Qed.

Lemma submit_loop_cons_ok (w : World) (scores : gmap Z Z) (n n' id : Z)
    (rest : list Z) (t : list event) :
  submit_one w scores n id = (Returns n', t) ->
  submit_loop w scores n (id :: rest)
  = ((submit_loop w scores n' rest).1,
     (t ++ (submit_loop w scores n' rest).2)%list).
Proof. intros H. cbn [submit_loop]. rewrite H, bind_Returns. reflexivity. Qed.

Lemma submit_loop_cons_fail (w : World) (scores : gmap Z Z) (n id : Z)
    (rest : list Z) (e : PyException) (t : list event) :
  submit_one w scores n id = (Raises e, t) ->
  submit_loop w scores n (id :: rest) = (Raises e, t).
Proof. intros H. cbn [submit_loop]. now rewrite H. Qed.

Lemma try_except_Raises {A : Type} (m : M A) (h : PyException -> M A)
    (e : PyException) (t : list event) :
  m = (Raises e, t) -> try_except m h = ((h e).1, (t ++ (h e).2)%list).
Proof. intros ->. unfold try_except. destruct (h e); reflexivity. Qed.

(** The handler of [submit_scores] for an exception other than
    [ImportError], on the score dict of [run_once]. *)
Lemma on_submit_error_other (s0 s1 s2 s3 s4 : Z) (e : PyException) :
  exc_kind e = OtherException ->
  on_submit_error (scores_of s0 s1 s2 s3 s4) e
  = (Returns tt,
     [ Log (LogSubmissionFailed (exc_str e)); Log PrintTraceback;
       Log LogNotSubmittedHeader;
       Log (LogScoreLine "Global Peace" s0);
       Log (LogScoreLine "Charitable Giving" s1);
       Log (LogScoreLine "Social Sentiment" s2);
       Log (LogScoreLine "Environmental Care" s3);
       Log (LogScoreLine "Community Wellness" s4) ]).
Proof.
  intros H. unfold on_submit_error, _log_scores.
  rewrite H, !emit_bind, log_score_lines_scores_of. reflexivity.
Qed.

Lemma reported_unsent_skip (t1 t2 : list event) :
  Forall (fun e => e <> Log LogNotSubmittedHeader) t1 ->
  reported_unsent (t1 ++ t2) = reported_unsent t2.
Proof.
  induction 1 as [|e t1 He _ IH]; [reflexivity|].
  cbn [app reported_unsent].
  destruct e as [[]|c]; try exact IH. contradiction.
Qed.

Lemma Forall_map_Call (P : event -> Prop) (cs : list chain_call) :
  (forall c, P (Call c)) -> Forall P (map Call cs).
Proof. intros H. induction cs; constructor; auto. Qed.

Lemma confirmed_trace_no_header (nm : string) (id score nonce : Z) :
  Forall (fun e => e <> Log LogNotSubmittedHeader)
         (confirmed_trace nm id score nonce).
Proof. unfold confirmed_trace, category_calls. repeat constructor; discriminate. Qed.

Lemma confirmed_trace_calls (nm : string) (id score nonce : Z) :
  chain_calls (confirmed_trace nm id score nonce)
  = category_calls id score nonce.
Proof. reflexivity. Qed.

Lemma confirmed_trace_submitted (nm : string) (id score nonce : Z) :
  reported_submitted (confirmed_trace nm id score nonce) = [nm].
Proof. reflexivity. Qed.

Lemma category_calls_category (id score nonce : Z) :
  Forall (fun c => call_category c = Some id) (category_calls id score nonce).
Proof. unfold category_calls. repeat constructor. Qed.

Lemma setup_calls_no_category (config : Config) :
  Forall (fun c => call_category c = None) (setup_calls config).
Proof. unfold setup_calls. repeat constructor. Qed.

Lemma chain_calls_failing (nm : string) (score : Z) (cs : list chain_call) :
  chain_calls (Log (LogSubmitting nm score) :: map Call cs) = cs.
Proof. apply chain_calls_map_Call. Qed.

Lemma reported_submitted_failing (nm : string) (score : Z)
    (cs : list chain_call) :
  reported_submitted (Log (LogSubmitting nm score) :: map Call cs) = [].
Proof. apply reported_submitted_map_Call. Qed.

Lemma failing_no_header (nm : string) (score : Z) (cs : list chain_call) :
  Forall (fun e => e <> Log LogNotSubmittedHeader)
         (Log (LogSubmitting nm score) :: map Call cs).
Proof.
  constructor; [discriminate|]. apply Forall_map_Call. discriminate.
Qed.

Lemma Forall_category_le (i k : Z) (cs : list chain_call) :
  i <= k ->
  Forall (fun c => call_category c = Some i) cs ->
  Forall (fun c => forall j, call_category c = Some j -> j <= k) cs.
Proof.
  intros Hik. apply List.Forall_impl. intros c Hc j Hj.
  rewrite Hc in Hj. injection Hj as <-. exact Hik.
Qed.

Lemma Forall_no_category (k : Z) (cs : list chain_call) :
  Forall (fun c => call_category c = None) cs ->
  Forall (fun c => forall j, call_category c = Some j -> j <= k) cs.
Proof.
  apply List.Forall_impl. intros c Hc j Hj. rewrite Hc in Hj. discriminate.
Qed.

(** The three readings of the trace of a batch that fails after a run of
    confirmed updates. *)
Ltac read_failed_batch Hcs :=
  split; [reflexivity|]; split; [|split];
  [ rewrite ?chain_calls_app, ?chain_calls_map_Call, ?confirmed_trace_calls,
      ?chain_calls_failing;
    change (chain_calls (Log _ :: _)) with (@nil chain_call);
    rewrite app_nil_r;
    repeat (apply Forall_app; split);
    first [ apply Forall_no_category, setup_calls_no_category
          | eapply Forall_category_le;
            [| first [ exact Hcs | apply category_calls_category ] ]; lia ]
  | rewrite ?reported_submitted_app, ?reported_submitted_map_Call,
      ?confirmed_trace_submitted, ?reported_submitted_failing;
    reflexivity
  | rewrite reported_unsent_skip; [reflexivity|];
    repeat (apply Forall_app; split);
    first [ apply Forall_map_Call; discriminate
          | apply confirmed_trace_no_header
          | apply failing_no_header ] ].

Ltac confirmed Hlt N L j nm :=
  let H := fresh "Hok" in
  pose proof (Hlt j _ ltac:(lia) L) as H;
  rewrite ?N in H;
  rewrite (submit_loop_cons_ok _ _ _ _ _ _ _
             (submit_one_ok _ _ _ j _ nm eq_refl L eq_refl H));
  clear H.

Ltac failing Hfail N L j nm :=
  let H := fresh "Hko" in
  let e := fresh "e" in
  let cs := fresh "cs" in
  let Heq := fresh "Heq" in
  let Hkind := fresh "Hkind" in
  let Hcs := fresh "Hcs" in
  pose proof (Hfail _ L) as H;
  rewrite ?N in H;
  destruct (submit_one_fail _ _ _ j _ nm eq_refl L eq_refl H)
    as (e & cs & Heq & Hkind & Hcs);
  rewrite (submit_loop_cons_fail _ _ _ _ _ _ _ Heq);
  cbn [fst snd];
  erewrite try_except_Raises by reflexivity;
  rewrite (on_submit_error_other _ _ _ _ _ _ Hkind); cbn [fst snd];
  read_failed_batch Hcs.

(** C2: what the live batch does when the update of category [k] is the
    first to fail, on the score dict of [run_once].  The call returns, no
    call is made for a category above [k], the categories below [k] are
    reported as updated; and the list written under "Scores (not submitted):"
    holds all five categories, the confirmed ones included, not only
    [k] to 4. *)
Theorem submit_failure_at (w : World) (config : Config)
    (s0 s1 s2 s3 s4 : Z) (k : Z) :
  0 <= k <= 4 ->
  forallb (chain_ok w) (setup_calls config) = true ->
  (forall j raw, 0 <= j < k ->
     scores_of s0 s1 s2 s3 s4 !! j = Some raw ->
     category_ok w j (clamp_0_1000 raw) (transaction_count w + j) = true) ->
  (forall raw,
     scores_of s0 s1 s2 s3 s4 !! k = Some raw ->
     category_ok w k (clamp_0_1000 raw) (transaction_count w + k) = false) ->
  (submit_scores w config (scores_of s0 s1 s2 s3 s4) false).1 = Returns tt
  /\ Forall (fun c => forall j, call_category c = Some j -> j <= k)
       (chain_calls (submit_scores w config (scores_of s0 s1 s2 s3 s4) false).2)
  /\ reported_submitted
       (submit_scores w config (scores_of s0 s1 s2 s3 s4) false).2
     = firstn (Z.to_nat k) names
  /\ reported_unsent
       (submit_scores w config (scores_of s0 s1 s2 s3 s4) false).2
     = [ ("Global Peace", s0); ("Charitable Giving", s1);
         ("Social Sentiment", s2); ("Environmental Care", s3);
         ("Community Wellness", s4) ].
Proof.
  intros Hk Hsetup Hlt Hfail.
  destruct (scores_of_lookup s0 s1 s2 s3 s4) as (L0 & L1 & L2 & L3 & L4).
  unfold submit_scores.
  rewrite (submit_live_eq w config _ Hsetup), sorted_keys_scores_of.
  set (n0 := transaction_count w) in *.
  assert (Hcases : k = 0 \/ k = 1 \/ k = 2 \/ k = 3 \/ k = 4) by lia.
  assert (N0 : n0 + 0 = n0) by lia.
  assert (N2 : n0 + 2 = n0 + 1 + 1) by lia.
  assert (N3 : n0 + 3 = n0 + 1 + 1 + 1) by lia.
  assert (N4 : n0 + 4 = n0 + 1 + 1 + 1 + 1) by lia.
  assert (N1 : n0 + 1 = n0 + 1) by reflexivity.
  destruct Hcases as [->|[->|[->|[->| ->]]]].
  - failing Hfail N0 L0 0 "Global Peace".
  - confirmed Hlt N0 L0 0 "Global Peace".
    failing Hfail N1 L1 1 "Charitable Giving".
  - confirmed Hlt N0 L0 0 "Global Peace".
    confirmed Hlt N1 L1 1 "Charitable Giving".
    failing Hfail N2 L2 2 "Social Sentiment".
  - confirmed Hlt N0 L0 0 "Global Peace".
    confirmed Hlt N1 L1 1 "Charitable Giving".
    confirmed Hlt N2 L2 2 "Social Sentiment".
    failing Hfail N3 L3 3 "Environmental Care".
  - confirmed Hlt N0 L0 0 "Global Peace".
    confirmed Hlt N1 L1 1 "Charitable Giving".
    confirmed Hlt N2 L2 2 "Social Sentiment".
    confirmed Hlt N3 L3 3 "Environmental Care".
    failing Hfail N4 L4 4 "Community Wellness".
Qed.

Lemma submit_failure_at_witness :
  reported_submitted
    (submit_scores timeout_at_2 plain_config
       (scores_of 800 600 900 400 700) false).2
  = ["Global Peace"; "Charitable Giving"]
  /\ reported_unsent
       (submit_scores timeout_at_2 plain_config
          (scores_of 800 600 900 400 700) false).2
     = [ ("Global Peace", 800); ("Charitable Giving", 600);
         ("Social Sentiment", 900); ("Environmental Care", 400);
         ("Community Wellness", 700) ].
Proof.
  assert (H : 0 <= 2 <= 4) by lia.
  pose proof (submit_failure_at timeout_at_2 plain_config
                800 600 900 400 700 2 H) as Hthm.
  destruct Hthm as (_ & _ & Hsub & Huns).
  - reflexivity.
  - intros j raw Hj Hraw.
    assert (Hj' : j = 0 \/ j = 1) by lia.
    destruct Hj' as [-> | ->]; vm_compute in Hraw;
      injection Hraw as <-; reflexivity.
  - intros raw Hraw. vm_compute in Hraw. injection Hraw as <-. reflexivity.
  - split; [exact Hsub | exact Huns].
Defined.

(** The events of the batch in which the receipt of category 2 times out. *)
Example submit_timeout_at_2_trace :
  submit_scores timeout_at_2 plain_config (scores_of 800 600 900 400 700) false
  = (Returns tt,
     map Call (setup_calls plain_config)
     ++ confirmed_trace "Global Peace" 0 800 7
     ++ confirmed_trace "Charitable Giving" 1 600 8
     ++ Log (LogSubmitting "Social Sentiment" 900)
        :: map Call (category_calls 2 900 9)
     ++ [ Log (LogSubmissionFailed "not in the chain after 60 seconds");
          Log PrintTraceback;
          Log LogNotSubmittedHeader;
          Log (LogScoreLine "Global Peace" 800);
          Log (LogScoreLine "Charitable Giving" 600);
          Log (LogScoreLine "Social Sentiment" 900);
          Log (LogScoreLine "Environmental Care" 400);
          Log (LogScoreLine "Community Wellness" 700) ])%list.
Proof. vm_compute. reflexivity. Qed.

Lemma off_chain_composite_scores_of (s0 s1 s2 s3 s4 : Z) :
  off_chain_composite (scores_of s0 s1 s2 s3 s4)
  = (Returns ((s0 * 2000 + s1 * 1500 + s2 * 2000 + s3 * 1500 + s4 * 1500)
              / 8500), []).
Proof.
  destruct (scores_of_lookup s0 s1 s2 s3 s4) as (L0 & L1 & L2 & L3 & L4).
  unfold off_chain_composite, weighted_sum, py_getitem.
  rewrite L0, L1, L2, L3, L4. reflexivity.
Qed.

Lemma on_submit_error_returns (s0 s1 s2 s3 s4 : Z) (e : PyException) :
  exists t, on_submit_error (scores_of s0 s1 s2 s3 s4) e = (Returns tt, t).
Proof.
  unfold on_submit_error, _log_scores.
  destruct (exc_kind e); rewrite !emit_bind, log_score_lines_scores_of;
    eexists; reflexivity.
Qed.

(** On the score dict of [run_once], [submit_scores] returns in both modes. *)
Lemma submit_scores_returns (w : World) (config : Config)
    (s0 s1 s2 s3 s4 : Z) (dry_run : bool) :
  exists t,
    submit_scores w config (scores_of s0 s1 s2 s3 s4) dry_run = (Returns tt, t).
Proof.
  unfold submit_scores. destruct dry_run.
  - rewrite emit_bind, log_score_lines_scores_of. eexists; reflexivity.
  - destruct (submit_live w config (scores_of s0 s1 s2 s3 s4))
      as [[[]|e] t] eqn:Hlive.
    + eexists; reflexivity.
    + rewrite (try_except_Raises _ _ e t eq_refl).
      destruct (on_submit_error_returns s0 s1 s2 s3 s4 e) as [t' ->].
      eexists; reflexivity.
Qed.

(** The report of a cycle, from the world, the configuration and the five
    aggregator results. *)
Lemma run_once_returns (w : World) (config : Config) (agg : Aggregator)
    (dry_run : bool) :
  exists rep t,
    run_once w config agg dry_run = (Returns rep, t)
    /\ composite rep
       = ((score_peace agg).1 * 2000 + (score_charity agg).1 * 1500
          + (score_social agg).1 * 2000 + (score_environment agg).1 * 1500
          + (score_wellness agg).1 * 1500) / 8500
    /\ (forall w' dry_run',
          now_isoformat w' = now_isoformat w ->
          (run_once w' config agg dry_run').1 = Returns rep).
Proof.
  destruct agg as [[s0 m0] [s1 m1] [s2 m2] [s3 m3] [s4 m4]].
  cbn [score_peace score_charity score_social score_environment
       score_wellness fst].
  assert (Hrun : forall w' dry_run', exists t,
            run_once w' config (mkAggregator (s0, m0) (s1, m1) (s2, m2)
                                  (s3, m3) (s4, m4)) dry_run'
            = (Returns
                 {| timestamp := now_isoformat w';
                    composite :=
                      (s0 * 2000 + s1 * 1500 + s2 * 2000 + s3 * 1500
                       + s4 * 1500) / 8500;
                    report_scores :=
                      list_to_map
                        (map (fun '(k, v) => (pretty k, v))
                           (map_to_list (scores_of s0 s1 s2 s3 s4)));
                    sources :=
                      (fun v : gmap string (gmap string meta_val) =>
                         (fun sv : gmap string meta_val =>
                            default (MStr "unknown") (sv !! "status")) <$> v)
                      <$> (<["wellness" := m4]> (<["environment" := m3]>
                            (<["social" := m2]> (<["charity" := m1]>
                              (<["peace" := m0]> ∅)))));
                    report_available_sources := available_sources config |},
               t)).
  { intros w' dry_run'.
    destruct (submit_scores_returns w' config s0 s1 s2 s3 s4 dry_run')
      as [t Ht].
    unfold run_once.
    cbv beta iota zeta delta [score_peace score_charity score_social
                              score_environment score_wellness].
    fold (scores_of s0 s1 s2 s3 s4).
    rewrite off_chain_composite_scores_of, Ht.
    eexists. reflexivity. }
  destruct (Hrun w dry_run) as [t Ht].
  eexists _, t. split; [exact Ht|]. split; [reflexivity|].
  intros w' dry_run' Hnow. destruct (Hrun w' dry_run') as [t' ->].
  cbn [fst]. now rewrite Hnow.
Qed.

(** *** The pipeline driver *)

(** C5: the composite of the report is the floor division of the weighted
    sum of the five category scores by 8500, in both modes and whatever the
    submission does; for the scores 800, 600, 900, 400, 700 it is 700. *)
Theorem run_once_composite (w : World) (config : Config) (agg : Aggregator)
    (dry_run : bool) :
  (exists rep t,
     run_once w config agg dry_run = (Returns rep, t)
     /\ composite rep
        = ((score_peace agg).1 * 2000 + (score_charity agg).1 * 1500
           + (score_social agg).1 * 2000 + (score_environment agg).1 * 1500
           + (score_wellness agg).1 * 1500) / 8500)
  /\ (exists rep t,
        run_once w config scenario_aggregator dry_run = (Returns rep, t)
        /\ composite rep = 700).
Proof.
  split.
  - destruct (run_once_returns w config agg dry_run) as (rep & t & H & Hc & _).
    exists rep, t. split; assumption.
  - destruct (run_once_returns w config scenario_aggregator dry_run)
      as (rep & t & H & Hc & _).
    exists rep, t. split; [assumption|]. rewrite Hc. reflexivity.
Qed.

Lemma py_index_no_events {A : Type} (l : list A) (i : Z) :
  (py_index l i).2 = [].
Proof. unfold py_index. destruct (if 0 <=? _ then _ else _); reflexivity. Qed.

Lemma for_each_no_calls {A : Type} (body : A -> M unit) (l : list A) :
  (forall x, chain_calls (body x).2 = []) ->
  chain_calls (for_each l body).2 = [].
Proof.
  intros H. induction l as [|x l IH]; cbn [for_each]; [reflexivity|].
  destruct (snd_bind_cases (body x) (fun _ => for_each l body)) as [->|[[] ->]].
  - apply H.
  - now rewrite chain_calls_app, H, IH.
Qed.

(** The score lines are written without any chain-client call, for every
    score dict. *)
Lemma log_score_lines_no_calls (scores : gmap Z Z) :
  chain_calls (log_score_lines scores).2 = [].
Proof.
  unfold log_score_lines. apply for_each_no_calls. intros [sid score].
  destruct (sid <? 5); [|reflexivity].
  pose proof (py_index_no_events names sid) as Hi.
  destruct (py_index names sid) as [[nm|e] t]; cbn [snd] in Hi; subst t.
  - rewrite bind_Returns. reflexivity.
  - reflexivity.
Qed.

Lemma run_once_dry_trace (w : World) (config : Config)
    (s0 s1 s2 s3 s4 : Z) (m0 m1 m2 m3 m4 : gmap string (gmap string meta_val)) :
  (run_once w config
     (mkAggregator (s0, m0) (s1, m1) (s2, m2) (s3, m3) (s4, m4)) true).2
  = [ Log LogBanner; Log (LogAvailableSources (available_sources config));
      Log (LogSubindex 0); Log (LogSubindexScore s0 (ok_sources m0));
      Log (LogSubindex 1); Log (LogSubindexScore s1 (ok_sources m1));
      Log (LogSubindex 2); Log (LogSubindexScore s2 (ok_sources m2));
      Log (LogSubindex 3); Log (LogSubindexScore s3 (ok_sources m3));
      Log (LogSubindex 4); Log (LogSubindexScore s4 (ok_sources m4));
      Log (LogComposite
             ((s0 * 2000 + s1 * 1500 + s2 * 2000 + s3 * 1500 + s4 * 1500)
              / 8500));
      Log (LogSubmitMode true);
      Log LogDryRunHeader;
      Log (LogScoreLine "Global Peace" s0);
      Log (LogScoreLine "Charitable Giving" s1);
      Log (LogScoreLine "Social Sentiment" s2);
      Log (LogScoreLine "Environmental Care" s3);
      Log (LogScoreLine "Community Wellness" s4);
      Log LogCycleComplete ].
Proof.
  unfold run_once.
  cbv beta iota zeta delta [score_peace score_charity score_social
                            score_environment score_wellness].
  fold (scores_of s0 s1 s2 s3 s4).
  rewrite off_chain_composite_scores_of. unfold submit_scores.
  rewrite log_score_lines_scores_of. reflexivity.
Qed.

(** C6 (as stated, refuted): the report does not show whether the scores
    were logged or submitted.  In the scenario the live cycle confirms all
    five updates and returns the very report of the dry run, so no reading of
    the report tells the two apart. *)
Lemma report_has_no_submission_status :
  reported_submitted
    (run_once quiet_world plain_config scenario_aggregator false).2 = names
  /\ ~ (exists status : Report -> bool,
          forall rep_dry rep_live,
            (run_once quiet_world plain_config scenario_aggregator true).1
              = Returns rep_dry ->
            (run_once quiet_world plain_config scenario_aggregator false).1
              = Returns rep_live ->
            status rep_dry = true /\ status rep_live = false).
Proof.
  split; [vm_compute; reflexivity|].
  intros (status & H).
  destruct (run_once_returns quiet_world plain_config scenario_aggregator true)
    as (rep & t & Ht & _ & Hsame).
  specialize (H rep rep). rewrite Ht in H.
  destruct (H eq_refl (Hsame quiet_world false eq_refl)) as [H1 H2].
  congruence.
Qed.

(** When the chain client is unavailable (the import, the connection, the
    account, the contract or the nonce fails) no category is attempted and
    all five scores are listed as not submitted. *)
Lemma submit_setup_failure (w : World) (config : Config) (s0 s1 s2 s3 s4 : Z) :
  forallb (chain_ok w) (setup_calls config) = false ->
  (submit_scores w config (scores_of s0 s1 s2 s3 s4) false).1 = Returns tt
  /\ Forall (fun c => call_category c = None)
       (chain_calls (submit_scores w config (scores_of s0 s1 s2 s3 s4) false).2)
  /\ reported_submitted
       (submit_scores w config (scores_of s0 s1 s2 s3 s4) false).2 = []
  /\ reported_unsent
       (submit_scores w config (scores_of s0 s1 s2 s3 s4) false).2
     = [ ("Global Peace", s0); ("Charitable Giving", s1);
         ("Social Sentiment", s2); ("Environmental Care", s3);
         ("Community Wellness", s4) ].
Proof.
  intros H. unfold setup_calls in H. cbn [forallb] in H.
  unfold submit_scores, submit_live, try_except, on_submit_error, _log_scores.
  rewrite log_score_lines_scores_of. unfold call, emit.
  cbn [mbind M_bind bind].
  destruct (chain_ok w ImportWeb3);
    [|repeat split; repeat constructor].
  destruct (chain_ok w (HTTPProvider (rpc_url config)));
    [|repeat split; repeat constructor].
  destruct (chain_ok w (AccountFromKey (reporter_private_key config)));
    [|repeat split; repeat constructor].
  destruct (chain_ok w (OracleContract (oracle_address config)));
    [|repeat split; repeat constructor].
  destruct (chain_ok w GetTransactionCount);
    [discriminate | repeat split; repeat constructor].
Qed.

(** ** Further properties of the code *)

(** *** The submitter on every score dict *)

Lemma clamp_0_1000_range (v : Z) : 0 <= clamp_0_1000 v <= 1000.
Proof. unfold clamp_0_1000. lia. Qed.

(** The shape of one iteration: nothing is called, or a prefix of the six
    calls of the category is, all six exactly when the iteration returns the
    next nonce. *)
Lemma submit_one_shape (w : World) (scores : gmap Z Z) (n id : Z) :
  (chain_calls (submit_one w scores n id).2 = []
   /\ ((submit_one w scores n id).1 = Returns n
       \/ exists e, (submit_one w scores n id).1 = Raises e))
  \/ (exists raw, id < 5 /\
        (((submit_one w scores n id).1 = Returns (n + 1)
          /\ chain_calls (submit_one w scores n id).2
             = category_calls id (clamp_0_1000 raw) n)
         \/ (exists e k, (submit_one w scores n id).1 = Raises e
             /\ chain_calls (submit_one w scores n id).2
                = firstn k (category_calls id (clamp_0_1000 raw) n)))).
Proof.
  unfold submit_one. destruct (Z.leb_spec 5 id) as [Hid|Hid].
  { left. split; [reflexivity | left; reflexivity]. }
  unfold py_getitem. destruct (scores !! id) as [raw|].
  2: { left. split; [reflexivity | right; eexists; reflexivity]. }
  pose proof (py_index_no_events names id) as Hi.
  destruct (py_index names id) as [[nm|e] t0]; cbn [snd] in Hi; subst t0.
  2: { left. split; [reflexivity | right; eexists; reflexivity]. }
  right. exists raw. split; [exact Hid|].
  unfold call, emit, ret. cbn [mbind M_bind bind].
  set (score := clamp_0_1000 raw).
  destruct (chain_ok w (UpdateSubIndex id score));
    [| right; eexists; exists 1%nat; split; reflexivity].
  destruct (chain_ok w (GasPrice id));
    [| right; eexists; exists 2%nat; split; reflexivity].
  destruct (chain_ok w (BuildTransaction id score n));
    [| right; eexists; exists 3%nat; split; reflexivity].
  destruct (chain_ok w (SignTransaction id));
    [| right; eexists; exists 4%nat; split; reflexivity].
  destruct (chain_ok w (SendRawTransaction id));
    [| right; eexists; exists 5%nat; split; reflexivity].
  destruct (chain_ok w (WaitForReceipt id 60));
    [| right; eexists; exists 6%nat; split; reflexivity].
  left. split; reflexivity.
Qed.

Lemma build_nonces_app (t1 t2 : list event) :
  build_nonces (t1 ++ t2) = (build_nonces t1 ++ build_nonces t2)%list.
Proof. unfold build_nonces. now rewrite chain_calls_app, flat_map_app. Qed.

Lemma nonce_fetches_app (t1 t2 : list event) :
  nonce_fetches (t1 ++ t2) = (nonce_fetches t1 + nonce_fetches t2)%nat.
Proof.
  unfold nonce_fetches.
  now rewrite chain_calls_app, List.filter_app, length_app.
Qed.

Lemma category_calls_loop_call (id score n : Z) :
  id < 5 -> 0 <= score <= 1000 ->
  Forall loop_call (category_calls id score n).
Proof.
  intros Hid Hs. unfold category_calls, loop_call.
  repeat (constructor; [split; [discriminate | cbn; lia]|]). constructor.
Qed.

Lemma submit_one_loop_calls (w : World) (scores : gmap Z Z) (n id : Z) :
  Forall loop_call (chain_calls (submit_one w scores n id).2).
Proof.
  destruct (submit_one_shape w scores n id)
    as [[-> _] | (raw & Hid & [[_ ->] | (e & k & _ & ->)])].
  - constructor.
  - apply category_calls_loop_call; [exact Hid | apply clamp_0_1000_range].
  - apply Forall_take.
    apply category_calls_loop_call; [exact Hid | apply clamp_0_1000_range].
Qed.

Lemma submit_loop_calls (w : World) (scores : gmap Z Z) (ids : list Z) (n : Z) :
  Forall loop_call (chain_calls (submit_loop w scores n ids).2).
Proof.
  revert n. induction ids as [|id ids IH]; intros n; cbn [submit_loop].
  - constructor.
  - pose proof (submit_one_loop_calls w scores n id) as H1.
    destruct (submit_one w scores n id) as [[n'|e] t]; cbn [snd] in H1.
    + rewrite bind_Returns. cbn [snd]. rewrite chain_calls_app.
      apply Forall_app. split; [exact H1 | apply IH].
    + exact H1.
Qed.

Lemma submit_loop_nonces (w : World) (scores : gmap Z Z) (ids : list Z) (n : Z) :
  consecutive_from n (build_nonces (submit_loop w scores n ids).2).
Proof.
  revert n. induction ids as [|id ids IH]; intros n; cbn [submit_loop].
  - exact I.
  - pose proof (submit_one_shape w scores n id) as H1.
    destruct (submit_one w scores n id) as [r t]; cbn [fst snd] in H1.
    destruct H1 as [[Hc [-> | [e ->]]]
                   | (raw & Hid & [[-> Hc] | (e & k & -> & Hc)])].
    + assert (Hn : build_nonces t = [])
        by (unfold build_nonces; now rewrite Hc).
      rewrite bind_Returns. cbn [snd]. rewrite build_nonces_app, Hn. apply IH.
    + rewrite bind_Raises. cbn [snd]. unfold build_nonces. rewrite Hc. exact I.
    + assert (Hn : build_nonces t = [n])
        by (unfold build_nonces; now rewrite Hc).
      rewrite bind_Returns. cbn [snd]. rewrite build_nonces_app, Hn.
      split; [reflexivity | apply IH].
    + rewrite bind_Raises. cbn [snd]. unfold build_nonces. rewrite Hc.
      do 7 (destruct k as [|k]; [cbn; auto|]). cbn; auto.
Qed.

Lemma loop_call_no_fetch (cs : list chain_call) :
  Forall loop_call cs ->
  List.filter (fun c => match c with
                        | GetTransactionCount => true
                        | _ => false
                        end) cs = [].
Proof.
  induction 1 as [|c cs [Hc _] _ IH]; [reflexivity|].
  cbn [List.filter]. destruct c; try exact IH. now contradiction Hc.
Qed.

Lemma on_submit_error_no_calls (scores : gmap Z Z) (e : PyException) :
  chain_calls (on_submit_error scores e).2 = [].
Proof.
  unfold on_submit_error, _log_scores.
  destruct (exc_kind e); rewrite !emit_bind; cbn [snd];
    apply log_score_lines_no_calls.
Qed.

(** The calls of the [try] block: some of the set-up calls, then (when all
    five went through) the calls of the loop. *)
Lemma submit_live_calls (w : World) (config : Config) (scores : gmap Z Z) :
  (exists k, chain_calls (submit_live w config scores).2
             = firstn k (setup_calls config))
  \/ chain_calls (submit_live w config scores).2
     = (setup_calls config
        ++ chain_calls (submit_loop w scores (transaction_count w)
                          (sorted_keys scores)).2)%list.
Proof.
  unfold submit_live, call. cbn [mbind M_bind bind].
  destruct (chain_ok w ImportWeb3);
    [| left; exists 1%nat; reflexivity].
  destruct (chain_ok w (HTTPProvider (rpc_url config)));
    [| left; exists 2%nat; reflexivity].
  destruct (chain_ok w (AccountFromKey (reporter_private_key config)));
    [| left; exists 3%nat; reflexivity].
  destruct (chain_ok w (OracleContract (oracle_address config)));
    [| left; exists 4%nat; reflexivity].
  destruct (chain_ok w GetTransactionCount);
    [| left; exists 5%nat; reflexivity].
  right.
  destruct (submit_loop w scores (transaction_count w) (sorted_keys scores))
    as [r t]. reflexivity.
Qed.

(** The calls of [submit_scores] in live mode are the calls of the [try]
    block: the handlers only write to the log. *)
Lemma submit_scores_live_calls (w : World) (config : Config)
    (scores : gmap Z Z) :
  chain_calls (submit_scores w config scores false).2
  = chain_calls (submit_live w config scores).2.
Proof.
  unfold submit_scores, try_except.
  destruct (submit_live w config scores) as [[[]|e] t]; [reflexivity|].
  pose proof (on_submit_error_no_calls scores e) as H.
  destruct (on_submit_error scores e) as [r t']. cbn [snd] in *.
  now rewrite chain_calls_app, H, app_nil_r.
Qed.

Lemma submit_scores_dry_calls (w : World) (config : Config)
    (scores : gmap Z Z) :
  chain_calls (submit_scores w config scores true).2 = [].
Proof.
  unfold submit_scores. rewrite emit_bind. cbn [snd].
  apply log_score_lines_no_calls.
Qed.

(** X1: every chain-client call of a batch names a category below 5 and
    passes a score within [0, 1000], for every score dict and every world. *)
Theorem submit_calls_in_bounds (w : World) (config : Config)
    (scores : gmap Z Z) (dry_run : bool) :
  Forall call_in_bounds (chain_calls (submit_scores w config scores dry_run).2).
Proof.
  destruct dry_run; [rewrite submit_scores_dry_calls; constructor|].
  rewrite submit_scores_live_calls.
  assert (Hsetup : forall k, Forall call_in_bounds (firstn k (setup_calls config))).
  { intros k. apply Forall_take. unfold setup_calls. repeat constructor. }
  destruct (submit_live_calls w config scores) as [[k ->] | ->].
  - apply Hsetup.
  - apply Forall_app. split.
    + apply (Hsetup 5%nat).
    + eapply List.Forall_impl; [|apply submit_loop_calls].
      intros c [_ Hc]. exact Hc.
Qed.

(** X2: the nonce is fetched at most once per batch, and the transactions
    built use consecutive nonces that start at the fetched value. *)
Theorem submit_nonce_discipline (w : World) (config : Config)
    (scores : gmap Z Z) (dry_run : bool) :
  (nonce_fetches (submit_scores w config scores dry_run).2 <= 1)%nat
  /\ consecutive_from (transaction_count w)
       (build_nonces (submit_scores w config scores dry_run).2).
Proof.
  unfold nonce_fetches, build_nonces.
  destruct dry_run; [rewrite submit_scores_dry_calls; cbn; split; [lia | exact I]|].
  rewrite submit_scores_live_calls.
  destruct (submit_live_calls w config scores) as [[k ->] | ->].
  - unfold setup_calls. do 6 (destruct k as [|k]; [cbn; split; [lia | exact I]|]).
    cbn; split; [lia | exact I].
  - rewrite List.filter_app, flat_map_app, length_app.
    rewrite (loop_call_no_fetch _ (submit_loop_calls w scores _ _)).
    split; [cbn; lia|].
    apply (submit_loop_nonces w scores).
Qed.

(** *** Keys the list of names cannot index *)

Lemma py_index_names_ok (i : Z) :
  -5 <= i < 5 -> exists nm, py_index names i = ret nm.
Proof.
  intros H.
  assert (Hi : i = -5 \/ i = -4 \/ i = -3 \/ i = -2 \/ i = -1
               \/ i = 0 \/ i = 1 \/ i = 2 \/ i = 3 \/ i = 4) by lia.
  repeat (destruct Hi as [-> | Hi]; [eexists; reflexivity|]).
  subst i. eexists; reflexivity.
Qed.

Lemma py_index_names_raises (i : Z) :
  i < -5 ->
  py_index names i
  = raise {| exc_kind := IndexError; exc_str := "list index out of range" |}.
Proof.
  intros H. unfold py_index.
  destruct (Z.leb_spec 0 i) as [H0|H0]; [lia|].
  destruct (Z.leb_spec 0 (len names + i)) as [H1|H1]; [|reflexivity].
  unfold len in H1. cbn in H1. lia.
Qed.

Lemma for_each_returns {A : Type} (body : A -> M unit) (l : list A) :
  Forall (fun x => exists t, body x = (Returns tt, t)) l ->
  exists t, for_each l body = (Returns tt, t).
Proof.
  induction 1 as [|x l [t Hx] _ [t' IH]]; cbn [for_each].
  - eexists; reflexivity.
  - rewrite Hx, bind_Returns, IH. eexists; reflexivity.
Qed.

Lemma sorted_items_lookup (scores : gmap Z Z) (k v : Z) :
  (k, v) ∈ sorted_items scores <-> scores !! k = Some v.
Proof.
  unfold sorted_items. rewrite merge_sort_Permutation.
  apply elem_of_map_to_list.
Qed.

Lemma log_score_lines_returns (scores : gmap Z Z) :
  (forall k v, scores !! k = Some v -> -5 <= k) ->
  exists t, log_score_lines scores = (Returns tt, t).
Proof.
  intros H. unfold log_score_lines. apply for_each_returns.
  apply Forall_forall. intros [sid score] Hin.
  apply (proj1 (sorted_items_lookup _ _ _)) in Hin. apply H in Hin.
  destruct (Z.ltb_spec sid 5) as [H5|H5]; [|eexists; reflexivity].
  destruct (py_index_names_ok sid ltac:(lia)) as [nm ->].
  eexists; reflexivity.
Qed.

Lemma log_score_lines_raises (scores : gmap Z Z) (k v : Z) :
  scores !! k = Some v -> k < -5 ->
  log_score_lines scores
  = (Raises {| exc_kind := IndexError; exc_str := "list index out of range" |},
     []).
Proof.
  intros Hk Hlt. unfold log_score_lines.
  pose proof (StronglySorted_merge_sort key_le (map_to_list scores)) as Hs.
  apply sorted_items_lookup in Hk. fold (sorted_items scores) in Hs.
  destruct (sorted_items scores) as [|[k0 v0] l]; [inversion Hk|].
  assert (Hk0 : k0 <= k).
  { apply elem_of_cons in Hk as [Hk|Hk]; [injection Hk as -> ->; lia|].
    apply StronglySorted_inv in Hs as [_ Hall].
    rewrite List.Forall_forall in Hall.
    apply (Hall (k, v)), list_elem_of_In, Hk. }
  cbn [for_each].
  destruct (Z.ltb_spec k0 5) as [_|?]; [|lia].
  rewrite (py_index_names_raises k0) by lia. reflexivity.
Qed.

Lemma on_submit_error_returns_safe (scores : gmap Z Z) (e : PyException) :
  (forall k v, scores !! k = Some v -> -5 <= k) ->
  exists t, on_submit_error scores e = (Returns tt, t).
Proof.
  intros H. destruct (log_score_lines_returns scores H) as [t Ht].
  unfold on_submit_error, _log_scores.
  destruct (exc_kind e); rewrite !emit_bind, Ht; eexists; reflexivity.
Qed.

Lemma on_submit_error_raises (scores : gmap Z Z) (e : PyException) (k v : Z) :
  scores !! k = Some v -> k < -5 ->
  exists t,
    on_submit_error scores e
    = (Raises {| exc_kind := IndexError;
                 exc_str := "list index out of range" |}, t).
Proof.
  intros Hk Hlt. unfold on_submit_error, _log_scores.
  destruct (exc_kind e);
    rewrite !emit_bind, (log_score_lines_raises scores k v Hk Hlt);
    eexists; reflexivity.
Qed.

Lemma sorted_keys_lookup (scores : gmap Z Z) (k : Z) :
  k ∈ sorted_keys scores <-> is_Some (scores !! k).
Proof.
  unfold sorted_keys. rewrite merge_sort_Permutation.
  rewrite list_elem_of_fmap. split.
  - intros ([k' v] & -> & Hin). apply elem_of_map_to_list in Hin. eauto.
  - intros [v Hv]. exists (k, v). split; [reflexivity|].
    now apply elem_of_map_to_list.
Qed.

Lemma submit_loop_raises (w : World) (scores : gmap Z Z) (n k v : Z) :
  scores !! k = Some v -> k < -5 ->
  exists e, submit_loop w scores n (sorted_keys scores) = (Raises e, []).
Proof.
  intros Hk Hlt.
  pose proof (StronglySorted_merge_sort Z.le (map fst (map_to_list scores)))
    as Hs.
  fold (sorted_keys scores) in Hs.
  assert (Hin : k ∈ sorted_keys scores) by (apply sorted_keys_lookup; eauto).
  assert (Hall : forall k', k' ∈ sorted_keys scores -> is_Some (scores !! k'))
    by (intros k'; apply sorted_keys_lookup).
  destruct (sorted_keys scores) as [|k0 l]; [inversion Hin|].
  assert (Hk0 : k0 <= k).
  { apply elem_of_cons in Hin as [->|Hin]; [lia|].
    apply StronglySorted_inv in Hs as [_ Hle].
    rewrite List.Forall_forall in Hle. apply Hle, list_elem_of_In, Hin. }
  destruct (Hall k0 ltac:(left)) as [v0 Hv0].
  cbn [submit_loop]. unfold submit_one, py_getitem.
  destruct (Z.leb_spec 5 k0) as [?|_]; [lia|].
  rewrite Hv0, (py_index_names_raises k0) by lia.
  eexists; reflexivity.
Qed.

Lemma submit_live_raises (w : World) (config : Config) (scores : gmap Z Z)
    (k v : Z) :
  scores !! k = Some v -> k < -5 ->
  exists e t, submit_live w config scores = (Raises e, t).
Proof.
  intros Hk Hlt.
  destruct (submit_loop_raises w scores (transaction_count w) k v Hk Hlt)
    as [e He].
  unfold submit_live, call. cbn [mbind M_bind bind]. rewrite He.
  destruct (chain_ok w ImportWeb3); [|do 2 eexists; reflexivity].
  destruct (chain_ok w (HTTPProvider (rpc_url config)));
    [|do 2 eexists; reflexivity].
  destruct (chain_ok w (AccountFromKey (reporter_private_key config)));
    [|do 2 eexists; reflexivity].
  destruct (chain_ok w (OracleContract (oracle_address config)));
    [|do 2 eexists; reflexivity].
  destruct (chain_ok w GetTransactionCount); do 2 eexists; reflexivity.
Qed.

(** *** The dry run on every score dict *)

Lemma py_index_names_at (i : Z) :
  -5 <= i < 5 -> py_index names i = ret (names_at i).
Proof.
  intros H.
  assert (Hi : i = -5 \/ i = -4 \/ i = -3 \/ i = -2 \/ i = -1
               \/ i = 0 \/ i = 1 \/ i = 2 \/ i = 3 \/ i = 4) by lia.
  repeat (destruct Hi as [-> | Hi]; [reflexivity|]).
  subst i. reflexivity.
Qed.

(** On ids the list of names can index, the listing loop returns and writes
    one line per id below 5, in ascending order. *)
Lemma for_each_score_lines (l : list (Z * Z)) :
  Forall (fun kv => -5 <= kv.1) l ->
  for_each l (fun '(sid, score) =>
                if sid <? 5 then
                  nm ← py_index names sid;
                  emit (LogScoreLine nm score)
                else ret tt)
  = (Returns tt,
     map (fun '(nm, score) => Log (LogScoreLine nm score))
         (map (fun '(sid, score) => (names_at sid, score))
              (List.filter (fun kv => kv.1 <? 5) l))).
Proof.
  induction 1 as [|[sid score] l Hx _ IH]; [reflexivity|].
  cbn [for_each List.filter fst]. cbn [fst] in Hx. rewrite IH.
  destruct (Z.ltb_spec sid 5) as [H5|H5].
  - rewrite (py_index_names_at sid) by lia. reflexivity.
  - reflexivity.
Qed.

Lemma log_score_lines_trace (scores : gmap Z Z) :
  (forall k v, scores !! k = Some v -> -5 <= k) ->
  log_score_lines scores
  = (Returns tt,
     map (fun '(nm, score) => Log (LogScoreLine nm score)) (listed scores)).
Proof.
  intros H. unfold log_score_lines, listed. apply for_each_score_lines.
  apply List.Forall_forall. intros [sid score] Hin.
  apply list_elem_of_In, sorted_items_lookup in Hin. cbn [fst]. eauto.
Qed.

Lemma score_lines_listing (ls : list (string * Z)) :
  score_lines (map (fun '(nm, score) => Log (LogScoreLine nm score)) ls) = ls.
Proof.
  induction ls as [|[nm score] ls IH]; [reflexivity|].
  cbn [map]. unfold score_lines in *. cbn [flat_map app]. now rewrite IH.
Qed.

Lemma reported_submitted_listing (ls : list (string * Z)) :
  reported_submitted
    (map (fun '(nm, score) => Log (LogScoreLine nm score)) ls) = [].
Proof.
  induction ls as [|[nm score] ls IH]; [reflexivity|]. exact IH.
Qed.

(** A score dict has an id the list of names cannot index, or none. *)
Lemma keys_indexable_or_not (scores : gmap Z Z) :
  (forall k v, scores !! k = Some v -> -5 <= k)
  \/ (exists k v, scores !! k = Some v /\ k < -5).
Proof.
  destruct (decide (map_Forall (fun k _ => -5 <= k) scores)) as [Hall|Hex].
  - left. exact Hall.
  - right. apply map_not_Forall in Hex; [|apply _].
    destruct Hex as (k & v & Hk & Hlt). exists k, v. split; [exact Hk | lia].
Qed.

(** C6 (amended): with dry-run enabled the submitter makes no chain-client
    call and reports no category as updated, for every score dict,
    configuration and world.  It writes the dry-run header and under it, in
    ascending order of the ids, the score of every id from -5 to 4 under the
    name of its category (ids from 5 on are skipped); when the dict has an id
    below -5 it raises [IndexError] right after the header.  A dry-run cycle
    makes no call either, writes the five scores under the header, and
    returns the report the live cycle returns. *)
Theorem dry_run_touches_no_chain (w : World) (config : Config) :
  (forall scores,
     chain_calls (submit_scores w config scores true).2 = []
     /\ reported_submitted (submit_scores w config scores true).2 = []
     /\ hd_error (submit_scores w config scores true).2
        = Some (Log LogDryRunHeader)
     /\ ((forall k v, scores !! k = Some v -> -5 <= k) ->
           (submit_scores w config scores true).1 = Returns tt
           /\ reported_dry_run (submit_scores w config scores true).2
              = listed scores)
     /\ (forall k v, scores !! k = Some v -> k < -5 ->
           submit_scores w config scores true
           = (Raises {| exc_kind := IndexError;
                        exc_str := "list index out of range" |},
              [Log LogDryRunHeader])))
  /\ (forall agg, exists rep t,
        run_once w config agg true = (Returns rep, t)
        /\ chain_calls t = []
        /\ reported_submitted t = []
        /\ reported_dry_run t
           = [ ("Global Peace", (score_peace agg).1);
               ("Charitable Giving", (score_charity agg).1);
               ("Social Sentiment", (score_social agg).1);
               ("Environmental Care", (score_environment agg).1);
               ("Community Wellness", (score_wellness agg).1) ]
        /\ (run_once w config agg false).1 = Returns rep).
Proof.
  split.
  - intros scores.
    assert (Hok : (forall k v, scores !! k = Some v -> -5 <= k) ->
                  submit_scores w config scores true
                  = (Returns tt,
                     Log LogDryRunHeader
                     :: map (fun '(nm, score) => Log (LogScoreLine nm score))
                          (listed scores))).
    { intros H. unfold submit_scores.
      now rewrite emit_bind, (log_score_lines_trace scores H). }
    assert (Hbad : forall k v, scores !! k = Some v -> k < -5 ->
                   submit_scores w config scores true
                   = (Raises {| exc_kind := IndexError;
                                exc_str := "list index out of range" |},
                      [Log LogDryRunHeader])).
    { intros k v Hk Hlt. unfold submit_scores.
      now rewrite emit_bind, (log_score_lines_raises scores k v Hk Hlt). }
    split; [|split; [|split; [|split]]].
    + unfold submit_scores. rewrite emit_bind. cbn [snd].
      apply log_score_lines_no_calls.
    + destruct (keys_indexable_or_not scores) as [H|(k & v & Hk & Hlt)].
      * rewrite (Hok H). cbn [snd]. apply reported_submitted_listing.
      * rewrite (Hbad k v Hk Hlt). reflexivity.
    + unfold submit_scores. rewrite emit_bind. reflexivity.
    + intros H. rewrite (Hok H). split; [reflexivity|].
      cbn [snd reported_dry_run]. apply score_lines_listing.
    + exact Hbad.
  - intros agg.
    destruct (run_once_returns w config agg true) as (rep & t & Ht & _ & Hsame).
    exists rep, t. split; [exact Ht|].
    assert (Hsnd : (run_once w config agg true).2 = t) by now rewrite Ht.
    destruct agg as [[s0 m0] [s1 m1] [s2 m2] [s3 m3] [s4 m4]].
    rewrite run_once_dry_trace in Hsnd. subst t.
    repeat split; try reflexivity.
    apply Hsame. reflexivity.
Qed.

Lemma dry_run_touches_no_chain_witness :
  ((submit_scores quiet_world plain_config
      {[ (-1) := 700; 0 := 800; 7 := 900 ]} true).1 = Returns tt
   /\ reported_dry_run
        (submit_scores quiet_world plain_config
           {[ (-1) := 700; 0 := 800; 7 := 900 ]} true).2
      = listed {[ (-1) := 700; 0 := 800; 7 := 900 ]})
  /\ submit_scores quiet_world plain_config {[ (-6) := 500; 0 := 800 ]} true
     = (Raises {| exc_kind := IndexError;
                  exc_str := "list index out of range" |},
        [Log LogDryRunHeader]).
Proof.
  split.
  - destruct (proj1 (dry_run_touches_no_chain quiet_world plain_config)
                {[ (-1) := 700; 0 := 800; 7 := 900 ]})
      as (_ & _ & _ & Hok & _).
    apply Hok.
    apply (bool_decide_unpack (map_Forall (fun k _ => -5 <= k) _)).
    vm_compute. exact I.
  - destruct (proj1 (dry_run_touches_no_chain quiet_world plain_config)
                {[ (-6) := 500; 0 := 800 ]})
      as (_ & _ & _ & _ & Hbad).
    apply (Hbad (-6) 500); [reflexivity | lia].
Defined.

(** The listing of the witness: the last category first, then the first
    one; the id 7 is skipped. *)
Example listed_sample :
  listed {[ (-1) := 700; 0 := 800; 7 := 900 ]}
  = [ ("Community Wellness", 700); ("Global Peace", 800) ].
Proof. evaluated. Qed.

(** X3: on a score dict whose keys are all at least -5 (the ones [names] can
    index, or at least 5), [submit_scores] returns in both modes, whatever
    the chain client does. *)
Theorem submit_scores_never_raises (w : World) (config : Config)
    (scores : gmap Z Z) (dry_run : bool) :
  (forall k v, scores !! k = Some v -> -5 <= k) ->
  exists t, submit_scores w config scores dry_run = (Returns tt, t).
Proof.
  intros H. unfold submit_scores. destruct dry_run.
  - destruct (log_score_lines_returns scores H) as [t Ht].
    rewrite emit_bind, Ht. eexists; reflexivity.
  - destruct (submit_live w config scores) as [[[]|e] t] eqn:Hlive.
    + eexists; reflexivity.
    + rewrite (try_except_Raises _ _ e t eq_refl).
      destruct (on_submit_error_returns_safe scores e H) as [t' ->].
      eexists; reflexivity.
Qed.

(** X4: a key below -5 makes [submit_scores] raise [IndexError] in both
    modes: [names[sid]] fails in the dry-run listing, and in live mode it
    fails in the loop and again in the handler's [_log_scores]. *)
Theorem submit_scores_index_error (w : World) (config : Config)
    (scores : gmap Z Z) (dry_run : bool) (k v : Z) :
  scores !! k = Some v -> k < -5 ->
  exists t,
    submit_scores w config scores dry_run
    = (Raises {| exc_kind := IndexError;
                 exc_str := "list index out of range" |}, t).
Proof.
  intros Hk Hlt. unfold submit_scores. destruct dry_run.
  - rewrite emit_bind, (log_score_lines_raises scores k v Hk Hlt).
    eexists; reflexivity.
  - destruct (submit_live_raises w config scores k v Hk Hlt) as (e & t & Hl).
    rewrite (try_except_Raises _ _ e t Hl).
    destruct (on_submit_error_raises scores e k v Hk Hlt) as [t' ->].
    eexists; reflexivity.
Qed.

Lemma submit_scores_never_raises_witness :
  exists t,
    submit_scores timeout_at_2 plain_config
      (<[7 := 1234]> (<[-1 := 50]> (<[0 := 800]> ∅))) false
    = (Returns tt, t).
Proof.
  apply submit_scores_never_raises.
  intros k v Hk.
  destruct (decide (k = 7)) as [->|]; [lia|].
  destruct (decide (k = -1)) as [->|]; [lia|].
  destruct (decide (k = 0)) as [->|]; [lia|].
  rewrite !lookup_insert_ne in Hk by congruence. discriminate.
Defined.

Lemma submit_scores_index_error_witness :
  exists t,
    submit_scores quiet_world plain_config (<[-6 := 500]> ∅) true
    = (Raises {| exc_kind := IndexError;
                 exc_str := "list index out of range" |}, t).
Proof.
  apply (submit_scores_index_error quiet_world plain_config
           (<[-6 := 500]> ∅) true (-6) 500); [reflexivity | lia].
Defined.

(** X5: when the chain client accepts every call, the batch sends the five
    scores, clamped to [0, 1000], in ascending category order with the
    nonces n, n+1, ..., n+4, reports all five as updated and none as
    unsent. *)
Theorem submit_all_confirmed (w : World) (config : Config)
    (s0 s1 s2 s3 s4 : Z) :
  forallb (chain_ok w) (setup_calls config) = true ->
  (forall j raw, 0 <= j < 5 ->
     scores_of s0 s1 s2 s3 s4 !! j = Some raw ->
     category_ok w j (clamp_0_1000 raw) (transaction_count w + j) = true) ->
  (submit_scores w config (scores_of s0 s1 s2 s3 s4) false).1 = Returns tt
  /\ updates (submit_scores w config (scores_of s0 s1 s2 s3 s4) false).2
     = [ (0, clamp_0_1000 s0); (1, clamp_0_1000 s1); (2, clamp_0_1000 s2);
         (3, clamp_0_1000 s3); (4, clamp_0_1000 s4) ]
  /\ build_nonces (submit_scores w config (scores_of s0 s1 s2 s3 s4) false).2
     = [ transaction_count w; transaction_count w + 1;
         transaction_count w + 2; transaction_count w + 3;
         transaction_count w + 4 ]
  /\ reported_submitted
       (submit_scores w config (scores_of s0 s1 s2 s3 s4) false).2 = names
  /\ reported_unsent
       (submit_scores w config (scores_of s0 s1 s2 s3 s4) false).2 = [].
Proof.
  intros Hsetup Hlt.
  destruct (scores_of_lookup s0 s1 s2 s3 s4) as (L0 & L1 & L2 & L3 & L4).
  unfold submit_scores.
  rewrite (submit_live_eq w config _ Hsetup), sorted_keys_scores_of.
  set (n0 := transaction_count w) in *.
  assert (N0 : n0 + 0 = n0) by lia.
  assert (N1 : n0 + 1 = n0 + 1) by reflexivity.
  assert (N2 : n0 + 2 = n0 + 1 + 1) by lia.
  assert (N3 : n0 + 3 = n0 + 1 + 1 + 1) by lia.
  assert (N4 : n0 + 4 = n0 + 1 + 1 + 1 + 1) by lia.
  confirmed Hlt N0 L0 0 "Global Peace".
  confirmed Hlt N1 L1 1 "Charitable Giving".
  confirmed Hlt N2 L2 2 "Social Sentiment".
  confirmed Hlt N3 L3 3 "Environmental Care".
  confirmed Hlt N4 L4 4 "Community Wellness".
  cbn [submit_loop ret fst snd try_except].
  rewrite <- N4, <- N3, <- N2.
  unfold updates, build_nonces.
  rewrite !chain_calls_app, !chain_calls_map_Call, !confirmed_trace_calls.
  rewrite !reported_submitted_app, !reported_submitted_map_Call,
    !confirmed_trace_submitted.
  repeat split; reflexivity.
Qed.

Lemma submit_all_confirmed_witness :
  updates (submit_scores quiet_world plain_config
             (scores_of 1200 600 (-5) 400 700) false).2
  = [ (0, 1000); (1, 600); (2, 0); (3, 400); (4, 700) ]
  /\ build_nonces (submit_scores quiet_world plain_config
                     (scores_of 1200 600 (-5) 400 700) false).2
     = [7; 8; 9; 10; 11].
Proof.
  pose proof (submit_all_confirmed quiet_world plain_config
                1200 600 (-5) 400 700) as H.
  destruct H as (_ & Hu & Hn & _).
  - reflexivity.
  - intros j raw _ _. reflexivity.
  - split; [exact Hu | exact Hn].
Defined.

(** X6: without web3 the batch ends at the import.  Nothing else is called,
    the missing package is logged by its own handler (no failure line, no
    traceback), the five scores are listed as not submitted and the call
    returns. *)
Theorem submit_without_web3 (w : World) (config : Config)
    (s0 s1 s2 s3 s4 : Z) :
  chain_ok w ImportWeb3 = false ->
  submit_scores w config (scores_of s0 s1 s2 s3 s4) false
  = (Returns tt,
     [ Call ImportWeb3; Log LogWeb3Missing; Log LogNotSubmittedHeader;
       Log (LogScoreLine "Global Peace" s0);
       Log (LogScoreLine "Charitable Giving" s1);
       Log (LogScoreLine "Social Sentiment" s2);
       Log (LogScoreLine "Environmental Care" s3);
       Log (LogScoreLine "Community Wellness" s4) ]).
Proof.
  intros H. unfold submit_scores, submit_live.
  rewrite (call_fail w ImportWeb3 H), bind_Raises.
  erewrite try_except_Raises by reflexivity.
  unfold on_submit_error, _log_scores. cbn [exc_kind].
  rewrite !emit_bind, log_score_lines_scores_of. reflexivity.
Qed.

Lemma submit_without_web3_witness :
  submit_scores no_web3 plain_config (scores_of 800 600 900 400 700) false
  = (Returns tt,
     [ Call ImportWeb3; Log LogWeb3Missing; Log LogNotSubmittedHeader;
       Log (LogScoreLine "Global Peace" 800);
       Log (LogScoreLine "Charitable Giving" 600);
       Log (LogScoreLine "Social Sentiment" 900);
       Log (LogScoreLine "Environmental Care" 400);
       Log (LogScoreLine "Community Wellness" 700) ]).
Proof.
  apply (submit_without_web3 no_web3 plain_config 800 600 900 400 700).
  reflexivity.
Defined.

(** *** The provenance record: domain, status, last writer *)

Lemma blend_step_dom (st : blend_state) (r : SourceResult) :
  dom (source_meta (blend_step st r))
  = dom (source_meta st) ∪ (if recorded r then {[name r]} else ∅).
Proof.
  unfold blend_step, recorded, error_set, has_data.
  destruct (truthy_opt_str (error r)); cbn [orb source_meta].
  - rewrite dom_insert_L. (set_unfold; intros; tauto).
  - destruct (truthy_list (texts r)); destruct (truthy_list (scores r));
      cbn [orb source_meta]; rewrite ?dom_insert_L; (set_unfold; intros; tauto).
Qed.

Lemma fold_blend_step_dom (rs : list SourceResult) (st : blend_state) :
  dom (source_meta (fold_left blend_step rs st))
  = dom (source_meta st)
    ∪ list_to_set (map name (List.filter recorded rs)).
Proof.
  revert st. induction rs as [|r rs IH]; intros st;
    cbn [fold_left List.filter].
  - cbn. (set_unfold; intros; tauto).
  - rewrite IH, blend_step_dom.
    destruct (recorded r); cbn [map list_to_set]; (set_unfold; intros; tauto).
Qed.

(** X7: the provenance record [_blend] returns has an entry for exactly the
    sources that returned an error or some data; a source that returned
    neither (an empty result without error) leaves no trace in it. *)
Theorem blend_provenance_domain (w : World) (config : Config)
    (rs : list SourceResult) (context : string) (s : Z)
    (m : gmap string (gmap string meta_val)) :
  _blend w config rs context = Returns (s, m) ->
  dom m = list_to_set (map name (List.filter recorded rs)).
Proof.
  intros Hm. apply blend_Returns in Hm as [_ ->]. unfold blend_loop.
  rewrite fold_blend_step_dom. cbn [source_meta]. (set_unfold; intros; tauto).
Qed.

Lemma blend_provenance_domain_witness :
  dom ({[ "uk_carbon" := {[ "status" := MStr "ok"; "scores" := MInt 1 ]};
          "gdelt" := {[ "status" := MStr "error";
                        "error" := MStr "HTTP 429" ]} ]}
       : gmap string (gmap string meta_val))
  = list_to_set
      (map name
         (List.filter recorded
            [ {| name := "uk_carbon"; texts := []; scores := [0.75%float];
                 count := 1; error := None |};
              {| name := "reliefweb"; texts := []; scores := []; count := 0;
                 error := None |};
              {| name := "gdelt"; texts := []; scores := []; count := 0;
                 error := Some "HTTP 429" |} ])).
Proof.
  apply (blend_provenance_domain quiet_world plain_config
           [ {| name := "uk_carbon"; texts := []; scores := [0.75%float];
                count := 1; error := None |};
             {| name := "reliefweb"; texts := []; scores := []; count := 0;
                error := None |};
             {| name := "gdelt"; texts := []; scores := []; count := 0;
                error := Some "HTTP 429" |} ]
           "environmental care" 750).
  evaluated.
Defined.

Lemma status_known_insert (m : gmap string (gmap string meta_val))
    (k : string) (e : gmap string meta_val) :
  status_known m ->
  e !! "status" = Some (MStr "ok") \/ e !! "status" = Some (MStr "error") ->
  status_known (<[k := e]> m).
Proof.
  intros Hm He nm sv. destruct (decide (k = nm)) as [<-|Hne].
  - rewrite lookup_insert_eq. intros [= <-]. exact He.
  - rewrite lookup_insert_ne by exact Hne. apply Hm.
Qed.

Lemma blend_step_status_known (st : blend_state) (r : SourceResult) :
  status_known (source_meta st) ->
  status_known (source_meta (blend_step st r)).
Proof.
  intros H. unfold blend_step.
  destruct (truthy_opt_str (error r)); cbn [source_meta].
  - apply status_known_insert; [exact H | right; reflexivity].
  - destruct (truthy_list (texts r)); destruct (truthy_list (scores r));
      cbn [source_meta]; try exact H;
      repeat (apply status_known_insert; [|left]); try exact H;
      try reflexivity; apply lookup_union_Some_l; reflexivity.
Qed.

Lemma fold_blend_step_status_known (rs : list SourceResult) (st : blend_state) :
  status_known (source_meta st) ->
  status_known (source_meta (fold_left blend_step rs st)).
Proof.
  revert st. induction rs as [|r rs IH]; intros st Hst; cbn [fold_left].
  - exact Hst.
  - apply IH, blend_step_status_known, Hst.
Qed.

(** X8: every entry of the provenance record [_blend] returns carries the
    status "ok" or "error", so the report, which shows
    [sv.get("status", "unknown")], never shows "unknown" for a source of the
    blender. *)
Theorem blend_provenance_status (w : World) (config : Config)
    (rs : list SourceResult) (context : string) (s : Z)
    (m : gmap string (gmap string meta_val)) (nm : string)
    (sv : gmap string meta_val) :
  _blend w config rs context = Returns (s, m) ->
  m !! nm = Some sv ->
  shown_status sv = MStr "ok" \/ shown_status sv = MStr "error".
Proof.
  intros Hm. apply blend_Returns in Hm as [_ ->].
  unfold blend_loop, shown_status. intros H.
  apply fold_blend_step_status_known in H.
  - destruct H as [-> | ->]; [left | right]; reflexivity.
  - intros nm' sv' Hl. cbn [source_meta] in Hl.
    now rewrite lookup_empty in Hl.
Qed.

(** X9: the provenance entry of a source, in the record [_blend] returns, is
    the one written by the last result carrying its name.  An error result
    leaves status "error" and the message; a result with texts starts a fresh
    "ok" entry with the number of texts, to which its scores are added; a
    result with scores only is merged into the entry the results before it
    have left under that name. *)
Theorem blend_provenance_last (w : World) (config : Config) (context : string)
    (rs1 rs2 : list SourceResult) (r : SourceResult) (s : Z)
    (m : gmap string (gmap string meta_val)) :
  Forall (fun r' => name r' <> name r) rs2 ->
  _blend w config (rs1 ++ r :: rs2) context = Returns (s, m) ->
  (forall msg, error r = Some msg -> msg <> "" ->
     m !! name r
     = Some {[ "status" := MStr "error"; "error" := MStr msg ]})
  /\ (error_set r = false -> texts r <> [] -> scores r = [] ->
        m !! name r
        = Some {[ "status" := MStr "ok"; "texts" := MInt (len (texts r)) ]})
  /\ (error_set r = false -> texts r <> [] -> scores r <> [] ->
        m !! name r
        = Some {[ "status" := MStr "ok"; "texts" := MInt (len (texts r));
                  "scores" := MInt (len (scores r)) ]})
  /\ (error_set r = false -> texts r = [] -> scores r <> [] ->
        m !! name r
        = Some ({[ "status" := MStr "ok";
                   "scores" := MInt (len (scores r)) ]}
                ∪ default ∅ (source_meta (blend_loop rs1) !! name r))).
Proof.
  intros H Hm. rewrite (blend_meta_last w config context rs1 rs2 r s m H Hm).
  unfold blend_step, error_set. repeat split.
  - intros msg He Hmsg. rewrite He.
    destruct msg; [contradiction|]. cbn [truthy_opt_str truthy_str source_meta].
    now rewrite lookup_insert_eq.
  - intros -> Ht Hs. rewrite Hs.
    destruct (texts r); [contradiction|]. cbn [truthy_list source_meta].
    now rewrite lookup_insert_eq.
  - intros -> Ht Hs.
    destruct (texts r) as [|t ts]; [contradiction|].
    destruct (scores r) as [|x xs]; [contradiction|].
    cbn [truthy_list source_meta]. rewrite !lookup_insert_eq.
    cbn [default]. reflexivity.
  - intros -> Ht Hs. rewrite Ht.
    destruct (scores r) as [|x xs]; [contradiction|].
    cbn [truthy_list source_meta]. now rewrite lookup_insert_eq.
Qed.

Lemma blend_provenance_last_witness :
  ({[ "gfw" := {[ "status" := MStr "ok"; "scores" := MInt 1;
                  "error" := MStr "HTTP 503" ]};
      "uk_carbon" := {[ "status" := MStr "ok"; "scores" := MInt 1 ]} ]}
   : gmap string (gmap string meta_val)) !! "gfw"
  = Some ({[ "status" := MStr "ok"; "scores" := MInt 1 ]}
          ∪ {[ "status" := MStr "error"; "error" := MStr "HTTP 503" ]}).
Proof.
  apply (proj2 (proj2 (proj2
    (blend_provenance_last quiet_world plain_config "environmental care"
       [ {| name := "gfw"; texts := []; scores := []; count := 0;
            error := Some "HTTP 503" |} ]
       [ {| name := "uk_carbon"; texts := []; scores := [0.75%float];
            count := 1; error := None |} ]
       {| name := "gfw"; texts := []; scores := [0.5%float]; count := 1;
          error := None |}
       625
       {[ "gfw" := {[ "status" := MStr "ok"; "scores" := MInt 1;
                      "error" := MStr "HTTP 503" ]};
          "uk_carbon" := {[ "status" := MStr "ok"; "scores" := MInt 1 ]} ]}
       ltac:(repeat constructor; discriminate)
       ltac:(evaluated))))).
  - reflexivity.
  - reflexivity.
  - discriminate.
Defined.

Lemma blend_provenance_status_witness :
  shown_status {[ "status" := MStr "ok"; "scores" := MInt 1 ]} = MStr "ok"
  \/ shown_status {[ "status" := MStr "ok"; "scores" := MInt 1 ]}
     = MStr "error".
Proof.
  apply (blend_provenance_status quiet_world plain_config
           [ {| name := "uk_carbon"; texts := []; scores := [0.75%float];
                count := 1; error := None |} ]
           "environmental care" 750
           {[ "uk_carbon" := {[ "status" := MStr "ok"; "scores" := MInt 1 ]} ]}
           "uk_carbon").
  - evaluated.
  - reflexivity.
Defined.

(** *** The report *)

(** The report of a cycle, field by field. *)
Lemma run_once_report (w : World) (config : Config) (dry_run : bool)
    (s0 s1 s2 s3 s4 : Z)
    (m0 m1 m2 m3 m4 : gmap string (gmap string meta_val)) :
  exists t,
    run_once w config
      (mkAggregator (s0, m0) (s1, m1) (s2, m2) (s3, m3) (s4, m4)) dry_run
    = (Returns
         {| timestamp := now_isoformat w;
            composite :=
              (s0 * 2000 + s1 * 1500 + s2 * 2000 + s3 * 1500 + s4 * 1500)
              / 8500;
            report_scores :=
              {[ "0" := s0; "1" := s1; "2" := s2; "3" := s3; "4" := s4 ]};
            sources :=
              {[ "peace" := shown_status <$> m0;
                 "charity" := shown_status <$> m1;
                 "social" := shown_status <$> m2;
                 "environment" := shown_status <$> m3;
                 "wellness" := shown_status <$> m4 ]};
            report_available_sources := available_sources config |}, t).
Proof.
  destruct (submit_scores_returns w config s0 s1 s2 s3 s4 dry_run) as [t Ht].
  unfold run_once.
  cbv beta iota zeta delta [score_peace score_charity score_social
                            score_environment score_wellness].
  fold (scores_of s0 s1 s2 s3 s4).
  rewrite off_chain_composite_scores_of, Ht.
  eexists. reflexivity.
Qed.

(** X10: the report maps the decimal category ids "0" to "4" to the five
    category scores and the keys "peace", "charity", "social", "environment"
    and "wellness" to the status of each source of that category, in both
    modes and whatever the chain client does. *)
Theorem run_once_report_fields (w : World) (config : Config) (agg : Aggregator)
    (dry_run : bool) :
  exists rep t,
    run_once w config agg dry_run = (Returns rep, t)
    /\ timestamp rep = now_isoformat w
    /\ report_scores rep
       = {[ "0" := (score_peace agg).1; "1" := (score_charity agg).1;
            "2" := (score_social agg).1; "3" := (score_environment agg).1;
            "4" := (score_wellness agg).1 ]}
    /\ sources rep
       = {[ "peace" := shown_status <$> (score_peace agg).2;
            "charity" := shown_status <$> (score_charity agg).2;
            "social" := shown_status <$> (score_social agg).2;
            "environment" := shown_status <$> (score_environment agg).2;
            "wellness" := shown_status <$> (score_wellness agg).2 ]}
    /\ report_available_sources rep = available_sources config.
Proof.
  destruct agg as [[s0 m0] [s1 m1] [s2 m2] [s3 m3] [s4 m4]].
  destruct (run_once_report w config dry_run s0 s1 s2 s3 s4 m0 m1 m2 m3 m4)
    as [t Ht].
  eexists _, t. split; [exact Ht|]. repeat split; reflexivity.
Qed.

(** X11: with every category score within [0, 1000] the composite of the
    report lies within [0, 1000]; and when the five scores are equal the
    composite is that score, the weights adding up to the divisor 8500. *)
Theorem run_once_composite_range (w : World) (config : Config)
    (agg : Aggregator) (dry_run : bool) :
  exists rep t,
    run_once w config agg dry_run = (Returns rep, t)
    /\ (0 <= (score_peace agg).1 <= 1000 ->
        0 <= (score_charity agg).1 <= 1000 ->
        0 <= (score_social agg).1 <= 1000 ->
        0 <= (score_environment agg).1 <= 1000 ->
        0 <= (score_wellness agg).1 <= 1000 ->
        0 <= composite rep <= 1000)
    /\ (forall s,
          (score_peace agg).1 = s -> (score_charity agg).1 = s ->
          (score_social agg).1 = s -> (score_environment agg).1 = s ->
          (score_wellness agg).1 = s ->
          composite rep = s).
Proof.
  destruct agg as [[s0 m0] [s1 m1] [s2 m2] [s3 m3] [s4 m4]].
  destruct (run_once_report w config dry_run s0 s1 s2 s3 s4 m0 m1 m2 m3 m4)
    as [t Ht].
  eexists _, t. split; [exact Ht|]. cbn [composite score_peace score_charity
    score_social score_environment score_wellness fst]. split.
  - intros H0 H1 H2 H3 H4. split.
    + apply Z.div_pos; lia.
    + apply Z.div_le_upper_bound; lia.
  - intros s -> -> -> -> ->.
    replace (s * 2000 + s * 1500 + s * 2000 + s * 1500 + s * 1500)
      with (s * 8500) by lia.
    apply Z.div_mul. lia.
Qed.

Lemma run_once_composite_range_witness :
  exists rep t,
    run_once quiet_world plain_config scenario_aggregator true
    = (Returns rep, t)
    /\ 0 <= composite rep <= 1000.
Proof.
  destruct (run_once_composite_range quiet_world plain_config
              scenario_aggregator true) as (rep & t & Ht & Hr & _).
  exists rep, t. split; [exact Ht|].
  apply Hr; cbn; lia.
Defined.

(** *** The text scorer *)

(** X12: what [analyze] returns.  Without texts it is 0.5.  With the local
    model enabled and an endpoint that answers [num] it is
    [max(0.0, min(1.0, num / 100.0))], which lies within [0, 1] for every
    float [num], nan and the infinities included.  In every other case (the
    model is disabled, or the call fails) it is the keyword score. *)
Theorem analyze_cases (w : World) (config : Config) (ts : list string)
    (context : string) :
  (ts = [] -> analyze w config ts context = 0.5%float)
  /\ (forall num,
        ts <> [] -> use_local_llm config = true ->
        llm_post w (local_llm_endpoint config ++ "/chat/completions")
          (llm_prompt ts context) = Some num ->
        analyze w config ts context = clamp_unit (num / 100)
        /\ in_unit (analyze w config ts context))
  /\ (ts <> [] ->
      use_local_llm config = false
      \/ llm_post w (local_llm_endpoint config ++ "/chat/completions")
           (llm_prompt ts context) = None ->
      analyze w config ts context = _analyze_keyword ts).
Proof.
  unfold analyze, _analyze_llm. split; [|split].
  - now intros ->.
  - intros num Hne Hllm Hpost. destruct ts; [contradiction|].
    cbn [truthy_list negb]. rewrite Hllm, Hpost.
    split; [reflexivity | apply clamp_unit_range].
  - intros Hne Hoff. destruct ts; [contradiction|]. cbn [truthy_list negb].
    destruct Hoff as [-> | Hnone]; [reflexivity|].
    rewrite Hnone. now destruct (use_local_llm config).
Qed.

Lemma analyze_cases_witness :
  (analyze eager_world llm_config ["war and famine"]
     "global peace and conflict" = clamp_unit (250 / 100)
   /\ in_unit (analyze eager_world llm_config ["war and famine"]
                 "global peace and conflict"))
  /\ analyze quiet_world llm_config ["war and famine"]
       "global peace and conflict" = _analyze_keyword ["war and famine"].
Proof.
  pose proof (analyze_cases eager_world llm_config ["war and famine"]
                "global peace and conflict") as (_ & Hllm & _).
  pose proof (analyze_cases quiet_world llm_config ["war and famine"]
                "global peace and conflict") as (_ & _ & Hkw).
  split.
  - apply Hllm; [discriminate | reflexivity | reflexivity].
  - apply Hkw; [discriminate | right; reflexivity].
Defined.

Lemma substring_0_idem (n : nat) (s : string) :
  substring 0 n (substring 0 n s) = substring 0 n s.
Proof.
  revert s. induction n as [|n IH]; intros s.
  - destruct s; reflexivity.
  - destruct s as [|c s]; [reflexivity|]. cbn. now rewrite IH.
Qed.

Lemma llm_prompt_cut (ts : list string) (context : string) :
  llm_prompt ts context
  = llm_prompt (map (substring 0 200) (firstn 50 ts)) context.
Proof.
  assert (E : map (fun t => "- " ++ substring 0 200 t)
                (firstn 50 (map (substring 0 200) (firstn 50 ts)))
              = map (fun t => "- " ++ substring 0 200 t) (firstn 50 ts)).
  { rewrite firstn_all2
      by (rewrite List.length_map, List.length_firstn; lia).
    rewrite map_map. apply map_ext. intros t.
    now rewrite substring_0_idem. }
  unfold llm_prompt. now rewrite E.
Qed.

(** X13: the request to the endpoint carries the first 50 texts cut to 200
    characters each, so when the endpoint answers, texts after the 50th and
    characters after the 200th have no effect on the score. *)
Theorem analyze_llm_sees_50_by_200 (w : World) (config : Config)
    (ts ts' : list string) (context : string) (num : float) :
  use_local_llm config = true ->
  ts <> [] -> ts' <> [] ->
  map (substring 0 200) (firstn 50 ts) = map (substring 0 200) (firstn 50 ts') ->
  llm_post w (local_llm_endpoint config ++ "/chat/completions")
    (llm_prompt ts context) = Some num ->
  analyze w config ts context = clamp_unit (num / 100)
  /\ analyze w config ts' context = clamp_unit (num / 100).
Proof.
  intros Hllm Hne Hne' Hcut Hpost.
  assert (Hp : llm_prompt ts' context = llm_prompt ts context).
  { rewrite (llm_prompt_cut ts'), (llm_prompt_cut ts). now rewrite Hcut. }
  unfold analyze, _analyze_llm. rewrite Hllm, Hp, Hpost.
  destruct ts; [contradiction|]. destruct ts'; [contradiction|].
  split; reflexivity.
Qed.

(** A no-break space (160) and a next-line control (133) separate words, and
    a Latin-1 capital is lower-cased: "Peace", "and", "ÉLAN!" give "peace",
    "and", "élan". *)
Example words_of_latin1 :
  words_of ("Peace" ++ String (ascii_of_nat 160) "and"
            ++ String (ascii_of_nat 133) (String (ascii_of_nat 201) "LAN!"))
  = [ "peace"; "and"; String (ascii_of_nat 233) "lan" ].
Proof. vm_compute. reflexivity. Qed.

Lemma lower_char_idem (c : ascii) : lower_char (lower_char c) = lower_char c.
Proof. destruct c as [[] [] [] [] [] [] [] []]; reflexivity. Qed.

Lemma words_of_lower (t : string) : words_of (str_lower t) = words_of t.
Proof.
  unfold words_of, str_lower.
  rewrite list_ascii_of_string_of_list_ascii, map_map.
  do 2 f_equal. apply map_ext. intros c. apply lower_char_idem.
Qed.

Lemma count_text_lower (acc : Z * Z) (t : string) :
  count_text acc (str_lower t) = count_text acc t.
Proof. unfold count_text. now rewrite words_of_lower. Qed.

Lemma fold_count_text_lower (ts : list string) (acc : Z * Z) :
  fold_left count_text (map str_lower ts) acc = fold_left count_text ts acc.
Proof.
  revert acc. induction ts as [|t ts IH]; intros acc; cbn [map fold_left].
  - reflexivity.
  - now rewrite count_text_lower, IH.
Qed.

(** X14: the keyword scorer ignores letter case: two lists of texts that are
    equal once lower-cased get the same score. *)
Theorem analyze_keyword_ignores_case (ts ts' : list string) :
  map str_lower ts = map str_lower ts' ->
  _analyze_keyword ts = _analyze_keyword ts'.
Proof.
  intros H. unfold _analyze_keyword.
  rewrite <- (fold_count_text_lower ts), <- (fold_count_text_lower ts').
  now rewrite H.
Qed.

Lemma lexicon_disjoint (w : string) : w ∈ POSITIVE -> w ∉ NEGATIVE.
Proof.
  assert (H : POSITIVE ∩ NEGATIVE = ∅) by (vm_compute; reflexivity).
  revert H. generalize POSITIVE NEGATIVE. intros P N H Hp Hn.
  apply (not_elem_of_empty (C := gset string) w). rewrite <- H.
  apply elem_of_intersection. split; assumption.
Qed.

Lemma fold_count_word_hits (ws : list string) (acc : Z * Z) :
  fold_left count_word ws acc
  = (acc.1 + lexicon_hits POSITIVE ws, acc.2 + lexicon_hits NEGATIVE ws).
Proof.
  unfold lexicon_hits, len. revert acc.
  induction ws as [|w ws IH]; intros [p n]; cbn [fold_left List.filter].
  - cbn. f_equal; lia.
  - rewrite IH. unfold count_word.
    destruct (bool_decide (w ∈ POSITIVE)) eqn:Hp.
    + apply bool_decide_eq_true in Hp.
      rewrite (bool_decide_eq_false_2 _ (lexicon_disjoint w Hp)).
      cbn [fst snd length]. f_equal; lia.
    + destruct (bool_decide (w ∈ NEGATIVE)); cbn [fst snd length]; f_equal; lia.
Qed.

Lemma fold_count_text_words (ts : list string) (acc : Z * Z) :
  fold_left count_text ts acc = fold_left count_word (all_words ts) acc.
Proof.
  unfold all_words. revert acc.
  induction ts as [|t ts IH]; intros acc; cbn [fold_left flat_map].
  - reflexivity.
  - rewrite fold_left_app. apply IH.
Qed.

(** X15: the keyword score is [pos / (pos + neg)], where [pos] and [neg]
    count, over the words of all texts, those found in the positive and in
    the negative set; the sets are disjoint, so no word counts twice, and
    without any hit the score is 0.5. *)
Theorem analyze_keyword_counts (ts : list string) :
  _analyze_keyword ts
  = let pos := lexicon_hits POSITIVE (all_words ts) in
    let neg := lexicon_hits NEGATIVE (all_words ts) in
    if pos + neg =? 0 then 0.5%float
    else py_truediv pos (pos + neg).
Proof.
  unfold _analyze_keyword.
  rewrite fold_count_text_words, fold_count_word_hits. reflexivity.
Qed.

Lemma analyze_llm_sees_50_by_200_witness :
  analyze eager_world llm_config (repeat "hope" 50 ++ ["war"])%list
    "global peace and conflict" = clamp_unit (250 / 100)
  /\ analyze eager_world llm_config
       (repeat "hope" 50 ++ ["famine"; "drought"])%list
       "global peace and conflict" = clamp_unit (250 / 100).
Proof.
  apply (analyze_llm_sees_50_by_200 eager_world llm_config
           (repeat "hope" 50 ++ ["war"])%list
           (repeat "hope" 50 ++ ["famine"; "drought"])%list
           "global peace and conflict" 250);
    first [reflexivity | discriminate].
Defined.

Lemma analyze_keyword_ignores_case_witness :
  _analyze_keyword ["PEACE Treaty"; "War"]
  = _analyze_keyword ["peace treaty"; "WAR"].
Proof.
  apply analyze_keyword_ignores_case. reflexivity.
Defined.

(** *** The category orchestrator *)

Lemma safe_fetch_returns {Args : Type} (label : string)
    (fn : Args -> outcome SourceResult) (args : Args) :
  exists r logs,
    _safe_fetch label fn args = (Returns r, logs)
    /\ (adapter_fails (fn args) -> brings_nothing r).
Proof.
  unfold _safe_fetch. destruct (fn args) as [r|e].
  - exists r, []. split; [reflexivity | auto].
  - eexists _, _. split; [reflexivity|]. intros _. right. split; reflexivity.
Qed.

(** [append_fetched] returns, with one more result per call, and makes the
    calls of its list in order. *)
Lemma append_fetched_returns (fetch : adapter_call -> outcome SourceResult)
    (calls : list (string * adapter_call)) (results : list SourceResult) :
  exists fetched ev,
    append_fetched fetch calls results
    = (Returns (results ++ fetched)%list, ev)
    /\ length fetched = length calls
    /\ invoked ev = map snd calls
    /\ ((forall c, adapter_fails (fetch c)) -> Forall brings_nothing fetched).
Proof.
  revert results. induction calls as [|[label c] calls IH]; intros results;
    cbn [append_fetched].
  - exists [], []. rewrite app_nil_r. repeat split; constructor.
  - destruct (safe_fetch_returns label fetch c) as (r & logs & -> & Hr).
    destruct (IH (results ++ [r])%list) as (fetched & ev & -> & Hlen & Hinv & Hall).
    exists (r :: fetched), (Invoked c :: map Warned logs ++ ev)%list.
    rewrite <- app_assoc. repeat split.
    + cbn [length]. now rewrite Hlen.
    + unfold invoked in *. cbn [flat_map app map snd]. f_equal.
      rewrite flat_map_app, Hinv.
      assert (Hw : flat_map (fun e => match e with
                                      | Invoked c => [c]
                                      | _ => []
                                      end) (map Warned logs) = []).
      { clear. induction logs; [reflexivity | exact IHlogs]. }
      now rewrite Hw.
    + intros Hf. constructor; [apply Hr, Hf | apply Hall, Hf].
Qed.

Lemma invoked_app (ev1 ev2 : list fetch_event) :
  invoked (ev1 ++ ev2) = (invoked ev1 ++ invoked ev2)%list.
Proof. apply flat_map_app. Qed.

Lemma invoked_Warned (logs : list log_record) : invoked (map Warned logs) = [].
Proof. induction logs; [reflexivity | assumption]. Qed.

Lemma normalize_world_bank_nothing (r : SourceResult) :
  brings_nothing r -> brings_nothing (normalize_world_bank r).
Proof.
  unfold normalize_world_bank, brings_nothing, error_set.
  destruct (scores r) as [|x xs] eqn:Hs; [now rewrite Hs|].
  intros [He | [_ Hx]]; [left; exact He | discriminate].
Qed.

Lemma simple_results_ok (fetch : adapter_call -> outcome SourceResult)
    (category : string) (calls : list (string * adapter_call)) :
  results_ok fetch
    (let '(out, ev) := append_fetched fetch calls [] in
     (out, FetchingFrom category :: ev))
    (map snd calls).
Proof.
  destruct (append_fetched_returns fetch calls [])
    as (fetched & ev & -> & Hlen & Hinv & Hall).
  exists fetched. cbn [fst snd app]. repeat split; auto.
  now rewrite length_map.
Qed.

Lemma wellness_results_ok (fetch : adapter_call -> outcome SourceResult)
    (config : Config) :
  results_ok fetch (wellness_results fetch config)
    (FetchDiseaseSh :: FetchWorldBank "SP.DYN.LE00.IN"
     :: map snd (wellness_calls config)).
Proof.
  unfold wellness_results.
  destruct (append_fetched_returns fetch [("disease_sh", FetchDiseaseSh)] [])
    as (f1 & ev1 & -> & Hlen1 & Hinv1 & Hall1).
  destruct (safe_fetch_returns "world_bank" fetch
              (FetchWorldBank "SP.DYN.LE00.IN")) as (wb & logs & -> & Hwb).
  destruct (append_fetched_returns fetch (wellness_calls config)
              (([] ++ f1) ++ [normalize_world_bank wb])%list)
    as (f2 & ev2 & -> & Hlen2 & Hinv2 & Hall2).
  eexists. cbn [fst snd app]. split; [reflexivity|]. repeat split.
  - change (invoked (FetchingFrom "Wellness" :: ?t)) with (invoked t).
    rewrite invoked_app, Hinv1.
    change (invoked (Invoked ?c :: ?t)) with (c :: invoked t).
    now rewrite invoked_app, invoked_Warned, Hinv2.
  - cbn [length]. rewrite !length_app, Hlen1, Hlen2, length_map.
    cbn [length]. lia.
  - intros Hf. repeat (apply Forall_app; split); auto.
    constructor; [apply normalize_world_bank_nothing, Hwb, Hf | constructor].
Qed.

Lemma category_results_ok (fetch : adapter_call -> outcome SourceResult)
    (config : Config) :
  Forall2 (results_ok fetch) (category_results fetch config)
    (category_calls_of config).
Proof.
  unfold category_results, category_calls_of.
  repeat (constructor; [apply simple_results_ok|]).
  constructor; [apply wellness_results_ok | constructor].
Qed.

Lemma category_scores_blend (w : World)
    (fetch : adapter_call -> outcome SourceResult) (config : Config) :
  category_scores w fetch config
  = zip_with (blend_results w config)
      [ "global peace and conflict"; "charitable giving and donations";
        "social sentiment and public mood";
        "environmental care, climate, biodiversity, and pollinator health";
        "community wellness and public health" ]
      (category_results fetch config).
Proof. reflexivity. Qed.

Lemma blend_nothing_500 (w : World) (config : Config) (context : string)
    (rs : list SourceResult) :
  Forall brings_nothing rs ->
  _blend w config rs context = Returns (500, source_meta (blend_loop rs)).
Proof.
  intros H. rewrite List.Forall_forall in H.
  apply blend_score_Returns. rewrite blend_score_collected.
  rewrite collected_texts_nil, collected_scores_nil; [reflexivity| |];
    intros r Hr; destruct (H r Hr) as [He|[Ht Hs]]; auto.
Qed.

Lemma blend_results_ok (w : World) (config : Config) (context : string)
    (fetch : adapter_call -> outcome SourceResult)
    (fetched : outcome (list SourceResult) * list fetch_event)
    (calls : list adapter_call) :
  results_ok fetch fetched calls ->
  exists results,
    fetched.1 = Returns results
    /\ (blend_results w config context fetched).1
       = _blend w config results context
    /\ (blend_results w config context fetched).2 = fetched.2
    /\ invoked fetched.2 = calls
    /\ length results = length calls
    /\ ((forall c, adapter_fails (fetch c)) -> Forall brings_nothing results).
Proof.
  intros (results & Hr & Hi & Hl & Hall). exists results.
  destruct fetched as [out ev]. cbn [fst snd] in *. subst out.
  repeat split; auto.
Qed.

(** The five methods, each on its results list. *)
Lemma category_scores_ok (w : World)
    (fetch : adapter_call -> outcome SourceResult) (config : Config)
    (P : outcome (Z * gmap string (gmap string meta_val)) * list fetch_event
         -> Prop) :
  (forall context fetched calls,
     results_ok fetch fetched calls ->
     In calls (category_calls_of config) ->
     P (blend_results w config context fetched)) ->
  Forall P (category_scores w fetch config).
Proof.
  intros H. unfold category_scores.
  repeat (constructor;
          [ eapply H; [first [apply simple_results_ok | apply wellness_results_ok]|];
            cbn; auto 10 |]).
  constructor.
Qed.

(** X16: whatever the adapters do, each of the five orchestrator methods
    reaches the blender and ends as the blender does on a results list that
    holds exactly one result per adapter it invoked: an adapter that raises
    costs neither the category nor its place in the list. *)
Theorem orchestrator_isolates (w : World)
    (fetch : adapter_call -> outcome SourceResult) (config : Config) :
  Forall (fun m => exists results context,
            m.1 = _blend w config results context
            /\ length results = length (invoked m.2))
    (category_scores w fetch config).
Proof.
  apply category_scores_ok. intros context fetched calls Hok _.
  destruct (blend_results_ok w config context fetch fetched calls Hok)
    as (results & _ & Hb & Hev & Hi & Hl & _).
  exists results, context. split; [exact Hb|]. now rewrite Hev, Hi.
Qed.

(** X17: when every adapter fails (it raises, or returns an error or an empty
    result), each of the five categories scores exactly 500. *)
Theorem orchestrator_outage_neutral (w : World)
    (fetch : adapter_call -> outcome SourceResult) (config : Config) :
  (forall c, adapter_fails (fetch c)) ->
  Forall (fun m => exists meta, m.1 = Returns (500, meta))
    (category_scores w fetch config).
Proof.
  intros Hf. apply category_scores_ok. intros context fetched calls Hok _.
  destruct (blend_results_ok w config context fetch fetched calls Hok)
    as (results & _ & Hb & _ & _ & _ & Hall).
  rewrite Hb, (blend_nothing_500 w config context results (Hall Hf)).
  eexists; reflexivity.
Qed.

Lemma orchestrator_outage_neutral_witness :
  Forall (fun m => exists meta, m.1 = Returns (500, meta))
    (category_scores quiet_world all_time_out plain_config).
Proof.
  apply orchestrator_outage_neutral. intros c. exact I.
Defined.

Lemma truthy_str_nonempty (s : string) : truthy_str s = true -> s <> "".
Proof. destruct s; [discriminate | intros _; discriminate]. Qed.

Lemma category_calls_gated (config : Config) :
  Forall (Forall gated) (category_calls_of config).
Proof.
  unfold category_calls_of, peace_calls, charity_calls, social_calls,
    environment_calls, wellness_calls.
  pose proof (truthy_str_nonempty (newsapi_key config)) as Hn.
  pose proof (truthy_str_nonempty (serper_api_key config)) as Hs.
  pose proof (truthy_str_nonempty (reddit_client_id config)) as Hr.
  pose proof (truthy_str_nonempty (youtube_api_key config)) as Hy.
  pose proof (truthy_str_nonempty (twitter_bearer_token config)) as Ht.
  pose proof (truthy_str_nonempty (aqicn_token config)) as Ha.
  destruct (truthy_str (newsapi_key config));
    destruct (truthy_str (serper_api_key config));
    destruct (truthy_str (reddit_client_id config));
    destruct (truthy_str (youtube_api_key config));
    destruct (truthy_str (twitter_bearer_token config));
    destruct (truthy_str (aqicn_token config));
    cbn [app map snd];
    repeat (constructor; [repeat (constructor; [unfold gated; cbn; auto|]);
                          constructor|]);
    constructor.
Qed.

(** X18: no adapter of tier 2 is invoked unless the key that gates it is
    configured: in each of the five methods every NewsAPI, Serper, Reddit,
    YouTube, Twitter or AQICN call is made with a non-empty key. *)
Theorem orchestrator_gates_tier2 (w : World)
    (fetch : adapter_call -> outcome SourceResult) (config : Config) :
  Forall (fun m => Forall gated (invoked m.2))
    (category_scores w fetch config).
Proof.
  apply category_scores_ok. intros context fetched calls Hok Hin.
  destruct (blend_results_ok w config context fetch fetched calls Hok)
    as (results & _ & _ & Hev & Hi & _).
  rewrite Hev, Hi.
  pose proof (category_calls_gated config) as Hg.
  rewrite List.Forall_forall in Hg. apply Hg, Hin.
Qed.

Lemma blend_results_outage (w : World) (config : Config) (context : string)
    (fetch : adapter_call -> outcome SourceResult)
    (fetched : outcome (list SourceResult) * list fetch_event)
    (calls : list adapter_call) :
  results_ok fetch fetched calls ->
  (forall c, adapter_fails (fetch c)) ->
  exists meta,
    blend_results w config context fetched = (Returns (500, meta), fetched.2).
Proof.
  intros (results & Hr & _ & _ & Hall) Hf.
  destruct fetched as [out ev]. cbn [fst snd] in *. subst out.
  unfold blend_results.
  rewrite (blend_nothing_500 w config context results (Hall Hf)).
  eexists; reflexivity.
Qed.

(** X19: a cycle in which every adapter fails still returns a report: the five
    category scores and the composite are 500, in both modes and whatever
    the chain client does. *)
Theorem cycle_outage_reports_neutral (w : World)
    (fetch : adapter_call -> outcome SourceResult) (config : Config)
    (dry_run : bool) :
  (forall c, adapter_fails (fetch c)) ->
  exists rep ev t,
    run_cycle w fetch config dry_run = (Returns rep, ev, t)
    /\ composite rep = 500
    /\ report_scores rep
       = {[ "0" := 500; "1" := 500; "2" := 500; "3" := 500; "4" := 500 ]}.
Proof.
  intros Hf. unfold run_cycle, aggregate.
  unfold SubindexAggregator_score_peace, SubindexAggregator_score_charity,
    SubindexAggregator_score_social, SubindexAggregator_score_environment,
    SubindexAggregator_score_wellness.
  destruct (blend_results_outage w config "global peace and conflict" fetch _ _
              (simple_results_ok fetch "Peace" (peace_calls config)) Hf)
    as [m0 H0].
  destruct (blend_results_outage w config "charitable giving and donations"
              fetch _ _
              (simple_results_ok fetch "Charity" (charity_calls config)) Hf)
    as [m1 H1].
  destruct (blend_results_outage w config "social sentiment and public mood"
              fetch _ _
              (simple_results_ok fetch "Social" (social_calls config)) Hf)
    as [m2 H2].
  destruct (blend_results_outage w config
              "environmental care, climate, biodiversity, and pollinator health"
              fetch _ _
              (simple_results_ok fetch "Environment"
                 (environment_calls config)) Hf)
    as [m3 H3].
  destruct (blend_results_outage w config
              "community wellness and public health" fetch _ _
              (wellness_results_ok fetch config) Hf)
    as [m4 H4].
  fold (peace_results fetch config) in H0.
  fold (charity_results fetch config) in H1.
  fold (social_results fetch config) in H2.
  fold (environment_results fetch config) in H3.
  rewrite H0, H1, H2, H3, H4.
  destruct (run_once_report w config dry_run 500 500 500 500 500
              m0 m1 m2 m3 m4) as [t Ht].
  rewrite Ht. eexists _, _, t. split; [reflexivity|].
  split; reflexivity.
Qed.

Lemma cycle_outage_reports_neutral_witness :
  exists rep ev t,
    run_cycle timeout_at_2 all_time_out plain_config false
    = (Returns rep, ev, t)
    /\ composite rep = 500.
Proof.
  destruct (cycle_outage_reports_neutral timeout_at_2 all_time_out
              plain_config false (fun c => I)) as (rep & ev & t & H & Hc & _).
  exists rep, ev, t. split; assumption.
Defined.

Lemma In_invoked_results (fetch : adapter_call -> outcome SourceResult)
    (fetched : outcome (list SourceResult) * list fetch_event)
    (calls : list adapter_call) (c : adapter_call) :
  results_ok fetch fetched calls -> In c calls -> In c (invoked fetched.2).
Proof. intros (_ & _ & -> & _) H. exact H. Qed.

(** X20: the Reddit adapter is gated by the client id alone.  With an id and
    no secret, [available_sources] does not list "reddit", yet the peace,
    charity, social and wellness methods all call [fetch_reddit]. *)
Theorem reddit_invoked_without_secret
    (fetch : adapter_call -> outcome SourceResult) (config : Config) :
  reddit_client_id config <> "" ->
  reddit_client_secret config = "" ->
  ~ In "reddit" (available_sources config)
  /\ In (FetchReddit config "world peace geopolitics diplomacy")
       (invoked (peace_results fetch config).2)
  /\ In (FetchReddit config "charity volunteer donation giving")
       (invoked (charity_results fetch config).2)
  /\ In (FetchReddit config "good news today positive")
       (invoked (social_results fetch config).2)
  /\ In (FetchReddit config "public health education community progress")
       (invoked (wellness_results fetch config).2).
Proof.
  intros Hid Hsecret.
  assert (Ht : truthy_str (reddit_client_id config) = true)
    by (destruct (reddit_client_id config); [contradiction | reflexivity]).
  split; [|repeat split].
  - unfold available_sources. rewrite Hsecret, Ht. cbn [truthy_str andb].
    rewrite !in_app_iff.
    destruct (truthy_str (newsapi_key config));
      destruct (truthy_str (twitter_bearer_token config));
      destruct (truthy_str (serper_api_key config));
      destruct (truthy_str (youtube_api_key config));
      destruct (truthy_str (aqicn_token config));
      cbn [In]; intuition discriminate.
  - apply (In_invoked_results fetch _ _ _
             (simple_results_ok fetch "Peace" (peace_calls config))).
    unfold peace_calls. rewrite Ht, !map_app, !in_app_iff. cbn [map snd In].
    tauto.
  - apply (In_invoked_results fetch _ _ _
             (simple_results_ok fetch "Charity" (charity_calls config))).
    unfold charity_calls. rewrite Ht, !map_app, !in_app_iff. cbn [map snd In].
    tauto.
  - apply (In_invoked_results fetch _ _ _
             (simple_results_ok fetch "Social" (social_calls config))).
    unfold social_calls. rewrite Ht, !map_app, !in_app_iff. cbn [map snd In].
    tauto.
  - apply (In_invoked_results fetch _ _ _ (wellness_results_ok fetch config)).
    unfold wellness_calls. cbn [In]. right. right.
    rewrite Ht, !map_app, !in_app_iff. cbn [map snd In]. tauto.
Qed.

Lemma reddit_invoked_without_secret_witness :
  ~ In "reddit" (available_sources reddit_id_only)
  /\ In (FetchReddit reddit_id_only "world peace geopolitics diplomacy")
       (invoked (peace_results all_time_out reddit_id_only).2).
Proof.
  destruct (reddit_invoked_without_secret all_time_out reddit_id_only)
    as (H1 & H2 & _).
  - discriminate.
  - reflexivity.
  - split; assumption.
Defined.

Lemma normalize_world_bank_range (r : SourceResult) :
  (length (scores (normalize_world_bank r)) <= 1)%nat
  /\ Forall in_unit (scores (normalize_world_bank r)).
Proof.
  unfold normalize_world_bank. destruct (scores r) as [|raw rest] eqn:Hs.
  - rewrite Hs. split; [cbn; lia | constructor].
  - cbn [scores length]. split; [lia|].
    constructor; [apply clamp_unit_range | constructor].
Qed.

(** X21: the World Bank result reaches the blender normalised.  Whatever
    [fetch_world_bank] returns, the second result of the wellness list has at
    most one score, within [0, 1]: the first raw value mapped from 50..85
    years, any further value dropped; a raising adapter leaves none. *)
Theorem wellness_world_bank_normalized
    (fetch : adapter_call -> outcome SourceResult) (config : Config) :
  exists disease wb rest,
    (wellness_results fetch config).1 = Returns (disease :: wb :: rest)
    /\ (length (scores wb) <= 1)%nat
    /\ Forall in_unit (scores wb)
    /\ (forall r raw others,
          fetch (FetchWorldBank "SP.DYN.LE00.IN") = Returns r ->
          scores r = raw :: others ->
          scores wb = [clamp_unit ((raw - 50) / 35)])
    /\ (forall e,
          fetch (FetchWorldBank "SP.DYN.LE00.IN") = Raises e ->
          scores wb = [] /\ error wb = Some (exc_str e)).
Proof.
  unfold wellness_results. cbn [append_fetched].
  destruct (safe_fetch_returns "disease_sh" fetch FetchDiseaseSh)
    as (d & logs0 & -> & _).
  cbn [app].
  assert (Hwb : exists wb logs,
             _safe_fetch "world_bank" fetch (FetchWorldBank "SP.DYN.LE00.IN")
             = (Returns wb, logs)
             /\ (forall r, fetch (FetchWorldBank "SP.DYN.LE00.IN") = Returns r ->
                   wb = r)
             /\ (forall e, fetch (FetchWorldBank "SP.DYN.LE00.IN") = Raises e ->
                   scores wb = [] /\ error wb = Some (exc_str e))).
  { unfold _safe_fetch.
    destruct (fetch (FetchWorldBank "SP.DYN.LE00.IN")) as [r|e].
    - exists r, []. repeat split; try discriminate. now intros r' [= ->].
    - eexists _, _. split; [reflexivity|]. split; [discriminate|].
      intros e' [= ->]. split; reflexivity. }
  destruct Hwb as (wb & logs & -> & Hret & Hraise).
  destruct (append_fetched_returns fetch (wellness_calls config)
              [d; normalize_world_bank wb])
    as (rest & ev & -> & _).
  exists d, (normalize_world_bank wb), rest. cbn [fst app].
  split; [reflexivity|].
  destruct (normalize_world_bank_range wb) as [Hlen Hrange].
  split; [exact Hlen|]. split; [exact Hrange|]. split.
  - intros r raw others Hr Hs. rewrite (Hret r Hr).
    unfold normalize_world_bank. now rewrite Hs.
  - intros e He. destruct (Hraise e He) as [Hs Herr].
    unfold normalize_world_bank. now rewrite Hs.
Qed.

(** *** The rate gate *)

Lemma rate_limited_gdelt_step
    (fetch_gdelt : string -> Z -> outcome SourceResult) (tm : gate_timing)
    (query : string) (max_results : Z) (st : gate_state) :
  timing_ok tm ->
  (_gdelt_last_call st + 6
   <= _gdelt_last_call (_rate_limited_gdelt fetch_gdelt tm query max_results st).1.2)%Q
  /\ (wall_clock st
      <= _gdelt_last_call
           (_rate_limited_gdelt fetch_gdelt tm query max_results st).1.2)%Q
  /\ (_gdelt_last_call
        (_rate_limited_gdelt fetch_gdelt tm query max_results st).1.2
      <= wall_clock
           (_rate_limited_gdelt fetch_gdelt tm query max_results st).1.2)%Q.
Proof.
  intros (Hl & Ho & Hf). unfold _rate_limited_gdelt, _GDELT_MIN_INTERVAL.
  destruct (Qlt_le_dec (wall_clock st - _gdelt_last_call st) 6) as [H|H];
    cbn [fst snd _gdelt_last_call wall_clock]; repeat split; lra.
Qed.

(** X22: calls through the gate start their fetches at least 6 seconds apart,
    and the first at least 6 seconds after the recorded last call, whatever
    the idle times between the calls, as long as the clock does not run
    backwards and a sleep does not end early. *)
Theorem gate_spaces_calls
    (fetch_gdelt : string -> Z -> outcome SourceResult)
    (calls : list (Q * gate_timing * string)) (st : gate_state) :
  Forall (fun c => (0 <= c.1.1)%Q /\ timing_ok c.1.2) calls ->
  spaced_from (_gdelt_last_call st) (gate_run fetch_gdelt calls st).
Proof.
  intros H. revert st.
  induction H as [|[[idle tm] query] calls [Hidle Htm] _ IH]; intros st;
    cbn [gate_run]; [exact I|].
  cbn [fst snd] in Hidle, Htm.
  pose proof (rate_limited_gdelt_step fetch_gdelt tm query 25
                {| _gdelt_last_call := _gdelt_last_call st;
                   wall_clock := (wall_clock st + idle)%Q |} Htm)
    as (Hstep & _ & _).
  destruct (_rate_limited_gdelt fetch_gdelt tm query 25 _) as [[out st2] ev].
  cbn [fst snd _gdelt_last_call] in *.
  split; [exact Hstep | apply IH].
Qed.

(** X23: the gate never sleeps longer than 6 seconds.  From a state whose
    last-call mark is not in the future, every sleep asked for during a run
    of calls is positive and at most 6 seconds. *)
Theorem gate_sleeps_at_most_6
    (fetch_gdelt : string -> Z -> outcome SourceResult)
    (calls : list (Q * gate_timing * string)) (st : gate_state) :
  (_gdelt_last_call st <= wall_clock st)%Q ->
  Forall (fun c => (0 <= c.1.1)%Q /\ timing_ok c.1.2) calls ->
  Forall (fun d => (0 < d <= 6)%Q) (gate_run_sleeps fetch_gdelt calls st).
Proof.
  intros Hst H. revert st Hst.
  induction H as [|[[idle tm] query] calls [Hidle Htm] _ IH]; intros st Hst;
    cbn [gate_run_sleeps]; [constructor|].
  cbn [fst snd] in Hidle, Htm.
  pose proof (rate_limited_gdelt_step fetch_gdelt tm query 25
                {| _gdelt_last_call := _gdelt_last_call st;
                   wall_clock := (wall_clock st + idle)%Q |} Htm)
    as (_ & _ & Hinv).
  assert (Hs : Forall (fun d => (0 < d <= 6)%Q)
            (gate_sleeps
               (_rate_limited_gdelt fetch_gdelt tm query 25
                  {| _gdelt_last_call := _gdelt_last_call st;
                     wall_clock := (wall_clock st + idle)%Q |}).2)).
  { unfold _rate_limited_gdelt, _GDELT_MIN_INTERVAL.
    cbn [_gdelt_last_call wall_clock].
    destruct (Qlt_le_dec _ _) as [Hlt|Hge]; cbn; repeat constructor; lra. }
  destruct (_rate_limited_gdelt fetch_gdelt tm query 25 _) as [[out st2] ev].
  cbn [fst snd] in *.
  apply Forall_app. split; [exact Hs | apply IH, Hinv].
Qed.

Lemma three_calls_ok :
  Forall (fun c => (0 <= c.1.1)%Q /\ timing_ok c.1.2) three_calls.
Proof.
  unfold three_calls.
  repeat (constructor; [unfold timing_ok; cbn; repeat split; discriminate|]).
  constructor.
Qed.

Lemma gate_spaces_calls_witness :
  spaced_from 100 (gate_run no_articles three_calls three_seconds_later).
Proof.
  apply (gate_spaces_calls no_articles three_calls three_seconds_later).
  exact three_calls_ok.
Defined.

Lemma gate_sleeps_at_most_6_witness :
  Forall (fun d => (0 < d <= 6)%Q)
    (gate_run_sleeps no_articles three_calls three_seconds_later).
Proof.
  apply (gate_sleeps_at_most_6 no_articles three_calls three_seconds_later).
  - cbn. discriminate.
  - exact three_calls_ok.
Defined.

(** *** The driver *)

Lemma driver_chain_calls_app (t1 t2 : list driver_event) :
  driver_chain_calls (t1 ++ t2)
  = (driver_chain_calls t1 ++ driver_chain_calls t2)%list.
Proof. apply flat_map_app. Qed.

Lemma driver_sleeps_app (t1 t2 : list driver_event) :
  driver_sleeps (t1 ++ t2) = (driver_sleeps t1 ++ driver_sleeps t2)%list.
Proof. apply flat_map_app. Qed.

Lemma driver_chain_calls_InCycle (t : list event) :
  driver_chain_calls (map InCycle t) = chain_calls t.
Proof.
  induction t as [|[r|c] t IH]; [reflexivity | exact IH |].
  cbn [map]. change (driver_chain_calls (InCycle (Call c) :: ?l))
    with (c :: driver_chain_calls l).
  change (chain_calls (Call c :: t)) with (c :: chain_calls t).
  now rewrite IH.
Qed.

Lemma driver_sleeps_InCycle (t : list event) :
  driver_sleeps (map InCycle t) = [].
Proof. induction t as [|e t IH]; [reflexivity | exact IH]. Qed.

Lemma daemon_iteration_sleeps (config : Config) (cycle : M Report) :
  driver_sleeps (daemon_iteration config cycle)
  = [update_interval_hours config * 3600].
Proof.
  unfold daemon_iteration. destruct cycle as [[rep|e] t];
    rewrite !driver_sleeps_app, driver_sleeps_InCycle; reflexivity.
Qed.



Lemma run_once_dry_no_calls (w : World) (config : Config) (agg : Aggregator) :
  chain_calls (run_once w config agg true).2 = [].
Proof.
  destruct agg as [[s0 m0] [s1 m1] [s2 m2] [s3 m3] [s4 m4]].
  rewrite run_once_dry_trace. reflexivity.
Qed.

(** A daemon started with the dry-run flag never calls the chain client, in
    any of its turns. *)
Lemma daemon_dry_run_no_chain (n : nat) (w : nat -> World) (config : Config)
    (agg : nat -> Aggregator) :
  driver_chain_calls (run_daemon n w config agg true) = [].
Proof.
  unfold run_daemon.
  change (driver_chain_calls (DaemonStart ?h :: ?t)) with (driver_chain_calls t).
  generalize 0%nat as i. induction n as [|n IH]; intros i;
    cbn [daemon_iterations]; [reflexivity|].
  rewrite driver_chain_calls_app, IH, app_nil_r.
  unfold daemon_iteration.
  destruct (run_once (w i) config (agg i) true) as [[rep|e] t] eqn:Hrun;
    pose proof (run_once_dry_no_calls (w i) config (agg i)) as Hc;
    rewrite Hrun in Hc; cbn [snd] in Hc;
    rewrite !driver_chain_calls_app, driver_chain_calls_InCycle, Hc;
    reflexivity.
Qed.

(** In live mode the first chain-client call of a cycle is the import of
    web3. *)
Lemma run_once_live_first_call (w : World) (config : Config) (agg : Aggregator) :
  hd_error (chain_calls (run_once w config agg false).2) = Some ImportWeb3.
Proof.
  destruct agg as [[s0 m0] [s1 m1] [s2 m2] [s3 m3] [s4 m4]].
  destruct (submit_scores_returns w config s0 s1 s2 s3 s4 false) as [t Ht].
  assert (Hcalls : hd_error (chain_calls t) = Some ImportWeb3).
  { replace t with (submit_scores w config (scores_of s0 s1 s2 s3 s4) false).2
      by now rewrite Ht.
    rewrite submit_scores_live_calls. unfold submit_live, call.
    destruct (chain_ok w ImportWeb3); [|reflexivity].
    rewrite bind_Returns. reflexivity. }
  unfold run_once.
  cbv beta iota zeta delta [score_peace score_charity score_social
                            score_environment score_wellness].
  fold (scores_of s0 s1 s2 s3 s4).
  rewrite off_chain_composite_scores_of, Ht.
  unfold emit, ret. cbn [mbind M_bind bind snd app].
  change (hd_error (chain_calls (t ++ [Log LogCycleComplete]))
          = Some ImportWeb3).
  rewrite chain_calls_app. destruct (chain_calls t); [discriminate|].
  exact Hcalls.
Qed.

(** X25: the warning does not switch the mode.  Without ORACLE_ADDRESS and
    without the flag --dry-run, [main] logs "running in dry-run mode" and
    then runs the cycle live: the chain client is imported, and the report
    is printed. *)
Theorem main_warns_but_runs_live (n : nat) (env : gmap string string)
    (argv : list string) (w : nat -> World) (agg : nat -> Aggregator) :
  getenv env "ORACLE_ADDRESS" "" = "" ->
  "--dry-run" ∉ argv -> "--daemon" ∉ argv ->
  (main n env argv w agg).1 = Some (Returns tt)
  /\ In WarnNoOracleAddress (main n env argv w agg).2
  /\ hd_error (driver_chain_calls (main n env argv w agg).2) = Some ImportWeb3
  /\ length (driver_reports (main n env argv w agg).2) = 1%nat.
Proof.
  intros Haddr Hdry Hdaemon. unfold main.
  rewrite (bool_decide_eq_false_2 _ Hdry), (bool_decide_eq_false_2 _ Hdaemon).
  cbn [oracle_address from_env]. rewrite Haddr. cbn [truthy_str].
  pose proof (run_once_live_first_call (w 0%nat) (from_env env) (agg 0%nat))
    as Hfirst.
  destruct (run_once_returns (w 0%nat) (from_env env) (agg 0%nat) false)
    as (rep & t & Hrun & _).
  rewrite Hrun in *. cbn [fst snd] in *. repeat split.
  - left. reflexivity.
  - cbn [app]. change (driver_chain_calls (WarnNoOracleAddress :: ?l))
      with (driver_chain_calls l).
    rewrite driver_chain_calls_app, driver_chain_calls_InCycle.
    destruct (chain_calls t); [discriminate | exact Hfirst].
  - cbn [app]. unfold driver_reports. cbn [flat_map].
    rewrite flat_map_app.
    assert (Hm : flat_map (fun e => match e with
                                    | PrintReport r => [r]
                                    | _ => []
                                    end) (map InCycle t) = []).
    { clear. induction t; [reflexivity | assumption]. }
    now rewrite Hm.
Qed.

(** X26: with --dry-run on the command line [main] never calls the chain
    client, one-shot or daemon, whatever the environment configures. *)
Theorem main_dry_run_no_chain (n : nat) (env : gmap string string)
    (argv : list string) (w : nat -> World) (agg : nat -> Aggregator) :
  "--dry-run" ∈ argv ->
  driver_chain_calls (main n env argv w agg).2 = [].
Proof.
  intros Hdry. unfold main. rewrite (bool_decide_eq_true_2 _ Hdry).
  assert (Hw : forall l,
            driver_chain_calls
              ((if truthy_str (oracle_address (from_env env)) then []
                else [WarnNoOracleAddress]) ++ l)
            = driver_chain_calls l).
  { intros l. destruct (truthy_str _); reflexivity. }
  destruct (bool_decide ("--daemon" ∈ argv)); cbn [snd].
  - rewrite Hw. apply daemon_dry_run_no_chain.
  - pose proof (run_once_dry_no_calls (w 0%nat) (from_env env) (agg 0%nat))
      as Hc.
    destruct (run_once (w 0%nat) (from_env env) (agg 0%nat) true)
      as [[rep|e] t]; cbn [snd] in *; rewrite Hw.
    + rewrite driver_chain_calls_app, driver_chain_calls_InCycle, Hc.
      reflexivity.
    + now rewrite driver_chain_calls_InCycle.
Qed.

Lemma main_warns_but_runs_live_witness :
  In WarnNoOracleAddress
    (main 0 ∅ ["sentiment_pipeline.py"] (fun _ => quiet_world)
       (fun _ => scenario_aggregator)).2
  /\ hd_error (driver_chain_calls
                 (main 0 ∅ ["sentiment_pipeline.py"] (fun _ => quiet_world)
                    (fun _ => scenario_aggregator)).2) = Some ImportWeb3.
Proof.
  destruct (main_warns_but_runs_live 0 ∅ ["sentiment_pipeline.py"]
              (fun _ => quiet_world) (fun _ => scenario_aggregator))
    as (_ & H1 & H2 & _).
  - reflexivity.
  - intros H. apply list_elem_of_In in H. cbn in H. intuition discriminate.
  - intros H. apply list_elem_of_In in H. cbn in H. intuition discriminate.
  - split; assumption.
Defined.

Lemma main_dry_run_no_chain_witness :
  driver_chain_calls
    (main 2 ∅ ["sentiment_pipeline.py"; "--daemon"; "--dry-run"]
       (fun _ => quiet_world) (fun _ => scenario_aggregator)).2 = [].
Proof.
  apply main_dry_run_no_chain.
  apply list_elem_of_In. cbn. auto.
Defined.

Lemma run_daemon_sleeps (n : nat) (w : nat -> World) (config : Config)
    (agg : nat -> Aggregator) (dry_run : bool) :
  driver_sleeps (run_daemon n w config agg dry_run)
  = repeat (update_interval_hours config * 3600) n.
Proof.
  unfold run_daemon.
  change (driver_sleeps (DaemonStart ?h :: ?t)) with (driver_sleeps t).
  generalize 0%nat as i. induction n as [|n IH]; intros i;
    cbn [daemon_iterations repeat]; [reflexivity|].
  now rewrite driver_sleeps_app, daemon_iteration_sleeps, IH.
Qed.

(** X27: the interval of the daemon cannot be set from the environment: started
    through [main], it sleeps 21600 seconds after every cycle, whatever the
    environment holds, and prints no report. *)
Theorem main_daemon_sleeps_six_hours (n : nat) (env : gmap string string)
    (argv : list string) (w : nat -> World) (agg : nat -> Aggregator) :
  "--daemon" ∈ argv ->
  (main n env argv w agg).1 = None
  /\ driver_sleeps (main n env argv w agg).2 = repeat 21600 n.
Proof.
  intros Hd. unfold main. rewrite (bool_decide_eq_true_2 _ Hd). cbn [fst snd].
  split; [reflexivity|].
  rewrite driver_sleeps_app, run_daemon_sleeps.
  destruct (truthy_str _); reflexivity.
Qed.

Lemma main_daemon_sleeps_six_hours_witness :
  driver_sleeps
    (main 3 (<["UPDATE_INTERVAL_HOURS" := "1"]> ∅)
       ["sentiment_pipeline.py"; "--daemon"]
       (fun _ => quiet_world) (fun _ => scenario_aggregator)).2
  = [21600; 21600; 21600].
Proof.
  apply (main_daemon_sleeps_six_hours 3
           (<["UPDATE_INTERVAL_HOURS" := "1"]> ∅)
           ["sentiment_pipeline.py"; "--daemon"]
           (fun _ => quiet_world) (fun _ => scenario_aggregator)).
  apply list_elem_of_In. cbn. auto.
Defined.

Lemma In_optional (b : bool) (x nm : string) :
  In nm (if b then [x] else []) <-> nm = x /\ b = true.
Proof.
  destruct b; cbn [In]; split.
  - intros [<-|[]]. now split.
  - intros [-> _]. now left.
  - intros [].
  - intros [_ H]. discriminate.
Qed.

Lemma sublist_optional (b : bool) (x : string) (l1 l2 : list string) :
  sublist l1 l2 -> sublist ((if b then [x] else []) ++ l1)%list (x :: l2).
Proof.
  intros H. destruct b; cbn [app].
  - now apply sublist_skip.
  - now apply sublist_cons.
Qed.

Lemma truthy_str_true (s : string) : truthy_str s = true <-> s <> "".
Proof. destruct s; cbn; split; congruence. Qed.

(** X28: [available_sources] lists the thirteen sources of tier 1 first,
    whatever the configuration, then the sources of tier 2 in the fixed order
    newsapi, twitter, serper, reddit, youtube, aqicn, each exactly when its
    key is set, without repeating a name; "reddit" needs both the client id
    and the client secret. *)
Theorem available_sources_shape (config : Config) :
  firstn 13 (available_sources config) = tier1_sources
  /\ NoDup (available_sources config)
  /\ (13 <= length (available_sources config) <= 19)%nat
  /\ sublist (skipn 13 (available_sources config)) tier2_sources
  /\ (forall nm,
        In nm (skipn 13 (available_sources config))
        <-> (nm = "newsapi" /\ newsapi_key config <> "")
            \/ (nm = "twitter" /\ twitter_bearer_token config <> "")
            \/ (nm = "serper" /\ serper_api_key config <> "")
            \/ (nm = "reddit" /\ reddit_client_id config <> ""
                /\ reddit_client_secret config <> "")
            \/ (nm = "youtube" /\ youtube_api_key config <> "")
            \/ (nm = "aqicn" /\ aqicn_token config <> ""))
  /\ (In "reddit" (available_sources config)
      <-> reddit_client_id config <> "" /\ reddit_client_secret config <> "").
Proof.
  split; [|split; [|split; [|split; [|split]]]].
  - reflexivity.
  - unfold available_sources.
    destruct (truthy_str (newsapi_key config));
      destruct (truthy_str (twitter_bearer_token config));
      destruct (truthy_str (serper_api_key config));
      destruct (truthy_str (reddit_client_id config));
      destruct (truthy_str (reddit_client_secret config));
      destruct (truthy_str (youtube_api_key config));
      destruct (truthy_str (aqicn_token config));
      apply (bool_decide_unpack (NoDup _)); vm_compute; exact I.
  - unfold available_sources. rewrite !length_app.
    destruct (truthy_str (newsapi_key config));
      destruct (truthy_str (twitter_bearer_token config));
      destruct (truthy_str (serper_api_key config));
      destruct (truthy_str (reddit_client_id config) && _);
      destruct (truthy_str (youtube_api_key config));
      destruct (truthy_str (aqicn_token config));
      cbn [length]; lia.
  - unfold available_sources, tier2_sources. cbn [app skipn].
    do 5 apply sublist_optional.
    rewrite <- (app_nil_r (if truthy_str (aqicn_token config) then _ else _)).
    apply sublist_optional. constructor.
  - intros nm. unfold available_sources. cbn [app skipn]. rewrite drop_0.
    rewrite !List.in_app_iff, !In_optional, andb_true_iff, !truthy_str_true.
    tauto.
  - unfold available_sources.
    rewrite !List.in_app_iff, !In_optional, andb_true_iff, !truthy_str_true.
    cbn [In]. intuition discriminate.
Qed.
